(** * cobrautil: flag/environment resolution, hook chaining, logging and
    tracing configuration, gRPC and HTTP server bootstrap.

    A shallow embedding of [cobrautil.go].  Go functions that mutate the
    [*cobra.Command] they receive return the updated command; process-wide
    state (zerolog, otel, viper, the network) is threaded as [Globals];
    the operating system and the third-party constructors are read through
    a [Platform] record of oracles.  A panic is an explicit result. *)

From Stdlib Require Import String Ascii List Bool Arith ZArith.
Import ListNotations.
Open Scope string_scope.

(** ** Go strings: byte sequences *)

(** Every byte of [s] satisfies [p]. *)
Fixpoint allBytes (p : ascii -> bool) (s : string) : bool :=
  match s with
  | EmptyString => true
  | String c rest => p c && allBytes p rest
  end.

(** The text has ASCII bytes only (below [utf8.RuneSelf]); on such a text
    Go's [ToUpper] and [ToLower] shift letters byte by byte. *)
Definition isASCII (s : string) : bool :=
  allBytes (fun c => Nat.ltb (nat_of_ascii c) 128) s.

(** [stringz.DefaultEmpty(val, fallback)]. *)
Definition DefaultEmpty (val fallback : string) : string :=
  if val =? "" then fallback else val.

(** [stringz.SliceContains(ys, x)]. *)
Definition SliceContains (ys : list string) (x : string) : bool :=
  existsb (fun y => y =? x) ys.

(** ** Go errors *)

Inductive error : Type :=
| Errorf (msg : string)                 (* errors.New, fmt.Errorf without %w *)
| Wrapf (context : string) (err : error) (* fmt.Errorf("context: %w", err) *)
| ErrServerClosed.                      (* the sentinel http.ErrServerClosed *)

(** [err == http.ErrServerClosed]: identity with the sentinel. *)
Definition isErrServerClosed (err : error) : bool :=
  match err with
  | ErrServerClosed => true
  | _ => false
  end.

(** A Go call either returns or panics. *)
Inductive result (A : Type) : Type :=
| Ret (a : A)
| Panic.
Arguments Ret {A} a.
Arguments Panic {A}.

(** [err.Error()]. *)
Fixpoint Error (e : error) : string :=
  match e with
  | Errorf msg => msg
  | Wrapf context err => context ++ Error err
  | ErrServerClosed => "http: Server closed"
  end.

(** ** pflag: values, flags and flag sets *)

(** The interface [pflag.Value]: the typed state behind a flag, read with
    [String()] and written by parsing text with [Set(string) error].  What
    [Set] leaves in the value when it fails is up to the implementation. *)
Record Value : Type := {
  carrier : Type;
  current : carrier;
  ValueString : carrier -> string;
  ValueSet : string -> carrier -> carrier * option error
}.

Definition valueText (v : Value) : string := ValueString v (current v).

Definition valueParse (v : Value) (s : string) : Value * option error :=
  let (c, err) := ValueSet v s (current v) in
  ({| carrier := carrier v; current := c;
      ValueString := ValueString v; ValueSet := ValueSet v |}, err).

Record Flag : Type := {
  Name : string;
  DefValue : string;
  Val : Value;
  Changed : bool
}.

(** A [*pflag.FlagSet]: the flags by name, listed in the order in which
    [VisitAll] walks them.  A name denotes its first entry. *)
Definition FlagSet := list Flag.

Fixpoint Lookup (fs : FlagSet) (name : string) : option Flag :=
  match fs with
  | [] => None
  | f :: rest => if Name f =? name then Some f else Lookup rest name
  end.

Fixpoint store (fs : FlagSet) (name : string) (f' : Flag) : FlagSet :=
  match fs with
  | [] => []
  | f :: rest =>
      if Name f =? name then f' :: rest else f :: store rest name f'
  end.

(** [FlagSet.Set(name, value)]: parse [value] into the named flag and,
    when that succeeds, mark the flag as changed. *)
Definition FlagSet_Set (fs : FlagSet) (name value : string)
    : FlagSet * option error :=
  match Lookup fs name with
  | None => (fs, Some (Errorf ("no such flag -" ++ name)))
  | Some flag =>
      let (v, err) := valueParse (Val flag) value in
      match err with
      | Some e =>
          (store fs name {| Name := Name flag; DefValue := DefValue flag;
                            Val := v; Changed := Changed flag |},
           Some (Errorf ("invalid argument " ++ value ++ " for --"
                         ++ Name flag ++ " flag: " ++ Error e)))
      | None =>
          (store fs name {| Name := Name flag; DefValue := DefValue flag;
                            Val := v; Changed := true |},
           None)
      end
  end.

(** ** cobra commands *)

Record Command : Type := {
  Use : string;
  Flags : FlagSet
}.

Definition withFlags (cmd : Command) (fs : FlagSet) : Command :=
  {| Use := Use cmd; Flags := fs |}.

(** [IsBuiltinCommand] checks against a hard-coded list of the names of
    commands that cobra provides out-of-the-box. *)
Definition IsBuiltinCommand (cmd : Command) : bool :=
  SliceContains ["help [command]"; "completion [command]"] (Use cmd).

(** ** zerolog, otel, grpc, net/http: the state the package configures *)

Inductive Level : Type :=
| DebugLevel | InfoLevel | WarnLevel | ErrorLevel | FatalLevel | PanicLevel
| NoLevel | Disabled | TraceLevel.

Inductive File : Type := Stdout | Stderr.

Inductive Writer : Type :=
| JSONWriter (Out : File)       (* a plain io.Writer: structured output *)
| ConsoleWriter (Out : File).   (* zerolog.ConsoleWriter{Out: ...} *)

Record Logger : Type := { writer : Writer }.

(** [Logger.Output(w)]: a copy of the logger that writes to [w]. *)
Definition Output (l : Logger) (w : Writer) : Logger := {| writer := w |}.

(** An event finished with [Msg]: [log.WithLevel(l).Str(k, v).Msg(m)]. *)
Record Event : Type := {
  level : Level;
  fields : list (string * string);
  message : string
}.

Inductive Sampler : Type := AlwaysSample.
Record Exporter : Type := { collectorEndpoint : string }.
Inductive SpanProcessor : Type := BatchSpanProcessor (exp : Exporter).
Record TracerProvider : Type := {
  sampler : Sampler;
  spanProcessor : SpanProcessor;
  resourceServiceName : string
}.
Inductive Propagator : Type := TraceContext.

(** [time.Duration]: a signed count of nanoseconds. *)
Definition Duration := Z.

Inductive ServerOption : Type :=
| KeepaliveParams (MaxConnectionAge : Duration)
| Creds (certFile keyFile : string)
| OtherOption (tag : string).

Record grpc_Server : Type := { options : list ServerOption }.
Definition grpc_NewServer (opts : list ServerOption) : grpc_Server :=
  {| options := opts |}.

Record http_Server : Type := { Addr : string }.

(** What the process asked of the network, oldest call first. *)
Inductive NetCall : Type :=
| Listen (network address : string)
| Serve (srv : grpc_Server) (address : string)
| ListenAndServe (srv : http_Server)
| ListenAndServeTLS (srv : http_Server) (certFile keyFile : string).

(** The process-wide state. *)
Record Globals : Type := {
  viper_envPrefix : string;                 (* of the global viper *)
  log_Logger : Logger;                      (* log.Logger *)
  GlobalLevel : Level;                      (* zerolog's global level *)
  logged : list Event;                      (* events handed to log.Logger *)
  otel_TracerProvider : option TracerProvider;
  otel_TextMapPropagator : option Propagator;
  network : list NetCall
}.

Definition SetEnvPrefix (g : Globals) (p : string) : Globals :=
  {| viper_envPrefix := if p =? "" then viper_envPrefix g else p;
     log_Logger := log_Logger g; GlobalLevel := GlobalLevel g;
     logged := logged g; otel_TracerProvider := otel_TracerProvider g;
     otel_TextMapPropagator := otel_TextMapPropagator g;
     network := network g |}.

Definition setLogger (g : Globals) (l : Logger) : Globals :=
  {| viper_envPrefix := viper_envPrefix g;
     log_Logger := l; GlobalLevel := GlobalLevel g;
     logged := logged g; otel_TracerProvider := otel_TracerProvider g;
     otel_TextMapPropagator := otel_TextMapPropagator g;
     network := network g |}.

Definition SetGlobalLevel (g : Globals) (l : Level) : Globals :=
  {| viper_envPrefix := viper_envPrefix g;
     log_Logger := log_Logger g; GlobalLevel := l;
     logged := logged g; otel_TracerProvider := otel_TracerProvider g;
     otel_TextMapPropagator := otel_TextMapPropagator g;
     network := network g |}.

Definition Msg (g : Globals) (e : Event) : Globals :=
  {| viper_envPrefix := viper_envPrefix g;
     log_Logger := log_Logger g; GlobalLevel := GlobalLevel g;
     logged := logged g ++ [e]; otel_TracerProvider := otel_TracerProvider g;
     otel_TextMapPropagator := otel_TextMapPropagator g;
     network := network g |}.

Definition SetTracerProvider (g : Globals) (tp : TracerProvider) : Globals :=
  {| viper_envPrefix := viper_envPrefix g;
     log_Logger := log_Logger g; GlobalLevel := GlobalLevel g;
     logged := logged g; otel_TracerProvider := Some tp;
     otel_TextMapPropagator := otel_TextMapPropagator g;
     network := network g |}.

Definition SetTextMapPropagator (g : Globals) (p : Propagator) : Globals :=
  {| viper_envPrefix := viper_envPrefix g;
     log_Logger := log_Logger g; GlobalLevel := GlobalLevel g;
     logged := logged g; otel_TracerProvider := otel_TracerProvider g;
     otel_TextMapPropagator := Some p;
     network := network g |}.

Definition call (g : Globals) (c : NetCall) : Globals :=
  {| viper_envPrefix := viper_envPrefix g;
     log_Logger := log_Logger g; GlobalLevel := GlobalLevel g;
     logged := logged g; otel_TracerProvider := otel_TracerProvider g;
     otel_TextMapPropagator := otel_TextMapPropagator g;
     network := network g ++ [c] |}.

(** ** The world outside the package *)

(** The operating system and the libraries, as far as the package consults
    them.  [None] is Go's nil error.  [unicode_ToLower s] and
    [unicode_ToUpper s] are [strings.Map(unicode.ToLower, s)] and
    [strings.Map(unicode.ToUpper, s)], the case mappings of the Unicode
    tables, which [strings.ToLower] and [strings.ToUpper] apply to a text
    that is not all ASCII. *)
Class Platform : Type := {
  unicode_ToLower : string -> string;
  unicode_ToUpper : string -> string;
  os_LookupEnv : string -> option string;
  isatty_IsTerminal : File -> bool;
  jaeger_New : string -> option error;
  credentials_NewServerTLSFromFile : string -> string -> option error;
  net_Listen : string -> string -> option error;
  srv_Serve : grpc_Server -> string -> option error;
  srv_ListenAndServe : http_Server -> option error;
  srv_ListenAndServeTLS : http_Server -> string -> string -> option error
}.

(** The flag accessors of the package, which live in another file of the
    repository: each returns the value of the named flag of the command and
    panics when it cannot. *)
Class Accessors : Type := {
  MustGetString : Command -> string -> result string;
  MustGetStringExpanded : Command -> string -> result string;
  MustGetBool : Command -> string -> result bool;
  MustGetDuration : Command -> string -> result Duration
}.

(** ** Go strings: case and replacement *)

Module strings.

Definition isUpper (c : ascii) : bool :=
  Nat.leb 65 (nat_of_ascii c) && Nat.leb (nat_of_ascii c) 90.

Definition isLower (c : ascii) : bool :=
  Nat.leb 97 (nat_of_ascii c) && Nat.leb (nat_of_ascii c) 122.

Definition lowerByte (c : ascii) : ascii :=
  if isUpper c then ascii_of_nat (nat_of_ascii c + 32) else c.

Definition upperByte (c : ascii) : ascii :=
  if isLower c then ascii_of_nat (nat_of_ascii c - 32) else c.

Fixpoint mapBytes (f : ascii -> ascii) (s : string) : string :=
  match s with
  | EmptyString => EmptyString
  | String c rest => String (f c) (mapBytes f rest)
  end.

Section Case.
Context {P : Platform}.

(** [strings.ToLower] and [strings.ToUpper]: on a text of ASCII bytes the
    letters A-Z (a-z) are shifted byte by byte; any other text is mapped
    rune by rune through the Unicode tables. *)
Definition ToLower (s : string) : string :=
  if isASCII s then mapBytes lowerByte s else unicode_ToLower s.

Definition ToUpper (s : string) : string :=
  if isASCII s then mapBytes upperByte s else unicode_ToUpper s.

End Case.

(** [strings.ReplaceAll(s, old, new)] for one-byte [old] and [new], the
    only way the package calls it. *)
Definition ReplaceAll (s : string) (old new : ascii) : string :=
  mapBytes (fun c => if Ascii.eqb c old then new else c) s.

End strings.

(** ** viper *)

Module viper.

(** A viper instance, as far as environment bindings go: the bound variable
    names of each (lower-cased) key. *)
Record Viper : Type := { env : list (string * list string) }.

Definition New : Viper := {| env := [] |}.

Fixpoint bound (m : list (string * list string)) (key : string)
    : option (list string) :=
  match m with
  | [] => None
  | (k, names) :: rest => if k =? key then Some names else bound rest key
  end.

Fixpoint append (m : list (string * list string)) (key name : string)
    : list (string * list string) :=
  match m with
  | [] => [(key, [name])]
  | (k, names) :: rest =>
      if k =? key then (k, (names ++ [name])%list) :: rest
      else (k, names) :: append rest key name
  end.

Section Lookup.
Context {P : Platform}.

(** [v.BindEnv(key, name)]. *)
Definition BindEnv (v : Viper) (key name : string) : Viper :=
  {| env := append (env v) (strings.ToLower key) name |}.

(** [v.getEnv]: an empty variable counts as unset (AllowEmptyEnv is off). *)
Definition getEnv (name : string) : option string :=
  match os_LookupEnv name with
  | Some val => if val =? "" then None else Some val
  | None => None
  end.

Fixpoint firstSet (names : list string) : option string :=
  match names with
  | [] => None
  | name :: rest =>
      match getEnv name with
      | Some val => Some val
      | None => firstSet rest
      end
  end.

(** [v.find]: of the sources of a value, only bound environment variables
    exist on an instance that was just created. *)
Definition find (v : Viper) (key : string) : option string :=
  match bound (env v) (strings.ToLower key) with
  | Some names => firstSet names
  | None => None
  end.

Definition IsSet (v : Viper) (key : string) : bool :=
  match find v key with Some _ => true | None => false end.

Definition Get (v : Viper) (key : string) : option string := find v key.

End Lookup.
End viper.

(** [fmt.Sprintf("%v", val)] of what [viper.Get] returned. *)
Definition Sprintf_v (val : option string) : string :=
  match val with
  | Some s => s
  | None => "<nil>"
  end.

(** ** The package *)

(** [CobraRunFunc] is the signature of cobra.Command RunFuncs: the hook
    receives the command and the arguments, and leaves behind the command
    as it mutated it, the process-wide state, and its error (or a panic). *)
Definition CobraRunFunc : Type :=
  Command -> list string -> Globals ->
  Command * Globals * result (option error).

(** [VisitAll(fn)]: call [fn] on every flag, in the order of the set.  The
    flags are visited through pointers, so [fn] sees each flag as the calls
    before it left it; [live] reads the flag set out of the state. *)
Definition VisitAll {S : Type} (live : S -> FlagSet)
    (fn : Flag -> S -> S) (fs : FlagSet) (s : S) : S :=
  fold_left
    (fun s name =>
       match Lookup (live s) name with
       | Some f => fn f s
       | None => s
       end)
    (map Name fs) s.

Section Package.
Context {P : Platform} {A : Accessors}.

(** The function literal [SyncViperPreRunE] hands to [VisitAll]; it closes
    over the viper instance and the flags of the command, which it
    updates. *)
Definition syncFlag (prefix : string) (f : Flag)
    (s : viper.Viper * FlagSet) : viper.Viper * FlagSet :=
  let (v, flags) := s in
  let suffix := strings.ToUpper (strings.ReplaceAll (Name f) "-" "_") in
  let v := viper.BindEnv v (Name f) (prefix ++ "_" ++ suffix) in
  if negb (Changed f) && viper.IsSet v (Name f) then
    let val := viper.Get v (Name f) in
    let (flags, _) := FlagSet_Set flags (Name f) (Sprintf_v val) in
    (v, flags)
  else (v, flags).

(** [SyncViperPreRunE] returns a Cobra run func that synchronizes Viper
    environment flags prefixed with the provided argument. *)
Definition SyncViperPreRunE (prefix : string) : CobraRunFunc :=
  let prefix := strings.ReplaceAll (strings.ToUpper prefix) "-" "_" in
  fun cmd args g =>
    if IsBuiltinCommand cmd then (cmd, g, Ret None) (* No-op for builtins *)
    else
      let v := viper.New in
      let g := SetEnvPrefix g prefix in
      let (_, flags) :=
        VisitAll snd (syncFlag prefix) (Flags cmd) (v, Flags cmd) in
      (withFlags cmd flags, g, Ret None).

(** [CommandStack] chains together a collection of CobraRunFuncs into
    one. *)
Fixpoint CommandStack (cmdfns : list CobraRunFunc) : CobraRunFunc :=
  fun cmd args g =>
    match cmdfns with
    | [] => (cmd, g, Ret None)
    | cmdfn :: rest =>
        match cmdfn cmd args g with
        | (cmd, g, Ret None) => CommandStack rest cmd args g
        | (cmd, g, Ret (Some err)) => (cmd, g, Ret (Some err))
        | (cmd, g, Panic) => (cmd, g, Panic)
        end
    end.

(** [ZeroLogPreRunE] returns a Cobra run func that configures the
    corresponding log level from a command. *)
Definition ZeroLogPreRunE (flagPrefix : string) (prerunLevel : Level)
    : CobraRunFunc :=
  let flagPrefix := DefaultEmpty flagPrefix "log" in
  fun cmd args g =>
    if IsBuiltinCommand cmd then (cmd, g, Ret None) (* No-op for builtins *)
    else
      match MustGetString cmd (flagPrefix ++ "-format") with
      | Panic => (cmd, g, Panic)
      | Ret format =>
          let g :=
            if (format =? "human")
               || ((format =? "auto") && isatty_IsTerminal Stdout)
            then setLogger g (Output (log_Logger g) (ConsoleWriter Stdout))
            else g in
          match MustGetString cmd (flagPrefix ++ "-level") with
          | Panic => (cmd, g, Panic)
          | Ret raw =>
              let level := strings.ToLower raw in
              let done (g : Globals) :=
                (cmd,
                 Msg g {| level := prerunLevel;
                          fields := [("new level", level)];
                          message := "set log level" |},
                 Ret None) in
              if level =? "trace" then done (SetGlobalLevel g TraceLevel)
              else if level =? "debug" then done (SetGlobalLevel g DebugLevel)
              else if level =? "info" then done (SetGlobalLevel g InfoLevel)
              else if level =? "warn" then done (SetGlobalLevel g WarnLevel)
              else if level =? "error" then done (SetGlobalLevel g ErrorLevel)
              else if level =? "fatal" then done (SetGlobalLevel g FatalLevel)
              else if level =? "panic" then done (SetGlobalLevel g PanicLevel)
              else
                (cmd, g, Ret (Some (Errorf ("unknown log level: " ++ level))))
          end
      end.

Definition initJaegerTracer (endpoint serviceName : string) (g : Globals)
    : Globals * option error :=
  match jaeger_New endpoint with
  | Some err => (g, Some err)
  | None =>
      let exp := {| collectorEndpoint := endpoint |} in
      (* Configure the global tracer as a batched, always sampling Jaeger
         exporter. *)
      let g :=
        SetTracerProvider g
          {| sampler := AlwaysSample;
             spanProcessor := BatchSpanProcessor exp;
             resourceServiceName := serviceName |} in
      (* Configure the global tracer to use the W3C method for propagating
         contexts across services. *)
      let g := SetTextMapPropagator g TraceContext in
      (g, None)
  end.

(** [OpenTelemetryPreRunE] returns a Cobra run func that configures the
    corresponding otel provider from a command. *)
Definition OpenTelemetryPreRunE (flagPrefix : string) (prerunLevel : Level)
    : CobraRunFunc :=
  let flagPrefix := DefaultEmpty flagPrefix "otel" in
  fun cmd args g =>
    if IsBuiltinCommand cmd then (cmd, g, Ret None) (* No-op for builtins *)
    else
      match MustGetString cmd (flagPrefix ++ "-provider") with
      | Panic => (cmd, g, Panic)
      | Ret raw =>
          let provider := strings.ToLower raw in
          if provider =? "none" then
            (* Nothing. *)
            (cmd,
             Msg g {| level := prerunLevel;
                      fields := [("new provider", provider)];
                      message := "set tracing provider" |},
             Ret None)
          else if provider =? "jaeger" then
            match MustGetString cmd (flagPrefix ++ "-jaeger-endpoint") with
            | Panic => (cmd, g, Panic)
            | Ret endpoint =>
                match
                  MustGetString cmd (flagPrefix ++ "-jaeger-service-name")
                with
                | Panic => (cmd, g, Panic)
                | Ret serviceName =>
                    let (g, err) := initJaegerTracer endpoint serviceName g in
                    (cmd, g, Ret err)
                end
            end
          else
            (cmd, g,
             Ret (Some (Errorf ("unknown tracing provider: " ++ provider))))
      end.

(** [GrpcServerFromFlags] creates an *grpc.Server as configured by the
    flags from RegisterGrpcServerFlags(). *)
Definition GrpcServerFromFlags (cmd : Command) (flagPrefix : string)
    (opts : list ServerOption) (g : Globals)
    : Globals * result (option grpc_Server * option error) :=
  let flagPrefix := DefaultEmpty flagPrefix "grpc" in
  match MustGetDuration cmd (flagPrefix ++ "-max-conn-age") with
  | Panic => (g, Panic)
  | Ret age =>
  let opts := (opts ++ [KeepaliveParams age])%list in
  match MustGetStringExpanded cmd (flagPrefix ++ "-tls-cert-path") with
  | Panic => (g, Panic)
  | Ret certPath =>
  match MustGetStringExpanded cmd (flagPrefix ++ "-tls-key-path") with
  | Panic => (g, Panic)
  | Ret keyPath =>
      if (certPath =? "") && (keyPath =? "") then
        (Msg g {| level := WarnLevel;
                  fields := [("prefix", flagPrefix)];
                  message := "grpc server serving plaintext" |},
         Ret (Some (grpc_NewServer opts), None))
      else if negb (certPath =? "") && negb (keyPath =? "") then
        match credentials_NewServerTLSFromFile certPath keyPath with
        | Some err => (g, Ret (None, Some err))
        | None =>
            let opts := (opts ++ [Creds certPath keyPath])%list in
            (g, Ret (Some (grpc_NewServer opts), None))
        end
      else
        (g, Ret (None, Some (Errorf (
           "failed to start gRPC server: must provide both --" ++ flagPrefix
           ++ "-tls-cert-path and --" ++ flagPrefix ++ "-tls-key-path"))))
  end end end.

(** [GrpcListenFromFlags] listens on an gRPC server using the
    configuration stored in the cobra command that was registered with
    RegisterGrpcServerFlags. *)
Definition GrpcListenFromFlags (cmd : Command) (flagPrefix : string)
    (srv : grpc_Server) (g : Globals) : Globals * result (option error) :=
  let flagPrefix := DefaultEmpty flagPrefix "grpc" in
  match MustGetBool cmd (flagPrefix ++ "-enabled") with
  | Panic => (g, Panic)
  | Ret false => (g, Ret None)
  | Ret true =>
  match MustGetStringExpanded cmd (flagPrefix ++ "-addr") with
  | Panic => (g, Panic)
  | Ret addr =>
      let g := call g (Listen "tcp" addr) in
      match net_Listen "tcp" addr with
      | Some err =>
          (g, Ret (Some (Wrapf "failed to listen on addr for gRPC server: "
                               err)))
      | None =>
          let g := call g (Serve srv addr) in
          match srv_Serve srv addr with
          | Some err => (g, Ret (Some (Wrapf "failed to serve gRPC: " err)))
          | None => (g, Ret None)
          end
      end
  end end.

(** [HttpServerFromFlags] creates an *http.Server as configured by the
    flags from RegisterGrpcServerFlags(). *)
Definition HttpServerFromFlags (cmd : Command) (flagPrefix : string)
    : result http_Server :=
  let flagPrefix := DefaultEmpty flagPrefix "http" in
  match MustGetStringExpanded cmd (flagPrefix ++ "-addr") with
  | Panic => Panic
  | Ret addr => Ret {| Addr := addr |}
  end.

(** [HttpListenFromFlags] listens on an HTTP server using the
    configuration stored in the cobra command that was registered with
    RegisterHttpServerFlags. *)
Definition HttpListenFromFlags (cmd : Command) (flagPrefix : string)
    (srv : http_Server) (g : Globals) : Globals * result (option error) :=
  match MustGetBool cmd (flagPrefix ++ "-enabled") with
  | Panic => (g, Panic)
  | Ret false => (g, Ret None)
  | Ret true =>
  match MustGetStringExpanded cmd (flagPrefix ++ "-tls-cert-path") with
  | Panic => (g, Panic)
  | Ret certPath =>
  match MustGetStringExpanded cmd (flagPrefix ++ "-tls-key-path") with
  | Panic => (g, Panic)
  | Ret keyPath =>
      if (certPath =? "") && (keyPath =? "") then
        let g := Msg g {| level := WarnLevel;
                          fields := [("prefix", flagPrefix)];
                          message := "http server serving plaintext" |} in
        let g := call g (ListenAndServe srv) in
        match srv_ListenAndServe srv with
        | Some err =>
            if negb (isErrServerClosed err) then
              (g, Ret (Some (Wrapf "failed while serving http: " err)))
            else (g, Ret None)
        | None => (g, Ret None)
        end
      else if negb (certPath =? "") && negb (keyPath =? "") then
        let g := call g (ListenAndServeTLS srv certPath keyPath) in
        match srv_ListenAndServeTLS srv certPath keyPath with
        | Some err =>
            if negb (isErrServerClosed err) then
              (g, Ret (Some (Wrapf "failed while serving https: " err)))
            else (g, Ret None)
        | None => (g, Ret None)
        end
      else
        (g, Ret (Some (Errorf (
           "failed to start http server: must provide both --" ++ flagPrefix
           ++ "-tls-cert-path and --" ++ flagPrefix ++ "-tls-key-path"))))
  end end end.

End Package.

(** ** Hook composition *)

(** Every hook of the list, run in order on the command and the state the
    hooks before it left, returns nil; [cmd'] and [g'] are what the last one
    leaves. *)
Inductive AllSucceed : list CobraRunFunc -> Command -> list string ->
    Globals -> Command -> Globals -> Prop :=
| AllSucceed_nil cmd args g : AllSucceed [] cmd args g cmd g
| AllSucceed_cons cmdfn rest cmd args g cmd1 g1 cmd' g' :
    cmdfn cmd args g = (cmd1, g1, Ret None) ->
    AllSucceed rest cmd1 args g1 cmd' g' ->
    AllSucceed (cmdfn :: rest) cmd args g cmd' g'.

(** ** Flag/environment resolution, per flag *)

Section Variables.
Context {P : Platform}.

(** The variable that overrides flag [name] under [prefix]:
    [<UPPER(PREFIX)>_<UPPER(NAME)>], hyphens replaced with underscores. *)
Definition envVar (prefix name : string) : string :=
  strings.ReplaceAll (strings.ToUpper prefix) "-" "_" ++ "_"
  ++ strings.ToUpper (strings.ReplaceAll name "-" "_").

(** viper keeps the variables of a flag under the lower-cased name of the
    flag.  Flags whose names lower-case alike have the same variable: this
    holds of flag names of ASCII bytes. *)
Definition variablesAgree (prefix : string) (fs : FlagSet) : Prop :=
  forall n1 n2,
    In n1 (map Name fs) -> In n2 (map Name fs) ->
    strings.ToLower n1 = strings.ToLower n2 ->
    envVar prefix n1 = envVar prefix n2.

(** The invariant of the viper instance during resolution of the flags
    [fs]: every variable bound under a key is the variable of a flag of
    that key. *)
Definition bindings_ok (prefix : string) (fs : FlagSet) (v : viper.Viper)
    : Prop :=
  forall key names,
    viper.bound (viper.env v) key = Some names ->
    Forall (fun name =>
              exists n, In n (map Name fs) /\ strings.ToLower n = key /\
                        name = envVar prefix n)
      names.

End Variables.

Section Resolve.
Context {P : Platform}.

(** What resolution is to do to one flag: a flag that was not set on the
    invocation and whose variable holds a non-empty text has that text
    parsed into it, and counts as changed when the text parses. *)
Definition resolveFlag (prefix : string) (f : Flag) : Flag :=
  if Changed f then f
  else
    match viper.getEnv (envVar prefix (Name f)) with
    | None => f
    | Some text =>
        let (v, err) := valueParse (Val f) text in
        {| Name := Name f; DefValue := DefValue f; Val := v;
           Changed := match err with None => true | Some _ => false end |}
    end.

(** The state of the walk over the flags [fs0] once the flags named in
    [visited] are done: these are resolved, the others are as they were. *)
Definition walked (prefix : string) (fs0 : FlagSet) (visited : list string)
    (s : viper.Viper * FlagSet) : Prop :=
  bindings_ok prefix fs0 (fst s) /\
  (forall n, In n visited ->
     Lookup (snd s) n = option_map (resolveFlag prefix) (Lookup fs0 n)) /\
  (forall n, ~ In n visited -> Lookup (snd s) n = Lookup fs0 n).

End Resolve.

(** ** Concrete values, flags and platforms for the examples *)

(** pflag's [stringValue]: [Set] stores the text. *)
Definition stringValue (s : string) : Value :=
  {| carrier := string; current := s;
     ValueString := fun s => s;
     ValueSet := fun val _ => (val, None) |}.

(** [strconv.ParseBool]. *)
Definition ParseBool (str : string) : bool * option error :=
  if SliceContains ["1"; "t"; "T"; "TRUE"; "true"; "True"] str
  then (true, None)
  else if SliceContains ["0"; "f"; "F"; "FALSE"; "false"; "False"] str
  then (false, None)
  else (false, Some (Errorf ("strconv.ParseBool: parsing " ++ str
                             ++ ": invalid syntax"))).

(** pflag's [boolValue]: [Set] stores what [ParseBool] returned. *)
Definition boolValue (b : bool) : Value :=
  {| carrier := bool; current := b;
     ValueString := fun b => if b then "true" else "false";
     ValueSet := fun s _ => ParseBool s |}.

Definition stringFlag (name def val : string) (changed : bool) : Flag :=
  {| Name := name; DefValue := def; Val := stringValue val;
     Changed := changed |}.

Definition boolFlag (name : string) (def val changed : bool) : Flag :=
  {| Name := name; DefValue := if def then "true" else "false";
     Val := boolValue val; Changed := changed |}.

Fixpoint assoc (m : list (string * string)) (key : string) : option string :=
  match m with
  | [] => None
  | (k, val) :: rest => if k =? key then Some val else assoc rest key
  end.

(** A platform with the given environment and terminal, on which the
    library constructors succeed, and the serve calls end with [served].
    The texts of the examples are ASCII, so that the Unicode tables are
    never consulted. *)
Definition examplePlatform (environ : list (string * string)) (tty : bool)
    (served : option error) : Platform :=
  {| unicode_ToLower := fun s => s;
     unicode_ToUpper := fun s => s;
     os_LookupEnv := assoc environ;
     isatty_IsTerminal := fun _ => tty;
     jaeger_New := fun _ => None;
     credentials_NewServerTLSFromFile := fun _ _ => None;
     net_Listen := fun _ _ => None;
     srv_Serve := fun _ _ => served;
     srv_ListenAndServe := fun _ => served;
     srv_ListenAndServeTLS := fun _ _ _ => served |}.

(** Accessors that read the flag set of the command and panic on a flag
    that is not defined. *)
Definition flagAccessors : Accessors :=
  {| MustGetString := fun cmd name =>
       match Lookup (Flags cmd) name with
       | Some f => Ret (valueText (Val f))
       | None => Panic
       end;
     MustGetStringExpanded := fun cmd name =>
       match Lookup (Flags cmd) name with
       | Some f => Ret (valueText (Val f))
       | None => Panic
       end;
     MustGetBool := fun cmd name =>
       match Lookup (Flags cmd) name with
       | Some f =>
           if valueText (Val f) =? "true" then Ret true
           else if valueText (Val f) =? "false" then Ret false
           else Panic
       | None => Panic
       end;
     MustGetDuration := fun cmd name =>
       match Lookup (Flags cmd) name with
       | Some f => Ret 30000000000%Z
       | None => Panic
       end |}.

(** The process before any hook ran, logging at [info]. *)
Definition startGlobals : Globals :=
  {| viper_envPrefix := "";
     log_Logger := {| writer := JSONWriter Stderr |};
     GlobalLevel := InfoLevel;
     logged := [];
     otel_TracerProvider := None;
     otel_TextMapPropagator := None;
     network := [] |}.

Definition serveCommand (flags : FlagSet) : Command :=
  {| Use := "serve"; Flags := flags |}.

(** An invocation [serve --grpc-addr :9000] in an environment that holds
    variables for three of the command's four flags, one of them with a
    text that is no boolean. *)
Definition resolvePlatform : Platform :=
  examplePlatform
    [("APP_GRPC_ADDR", ":1"); ("APP_GRPC_ENABLED", "maybe");
     ("APP_LOG_LEVEL", "debug")]
    false None.

Definition addrFlag : Flag := stringFlag "grpc-addr" ":50051" ":9000" true.
Definition enabledFlag : Flag := boolFlag "grpc-enabled" true true false.
Definition levelFlag : Flag := stringFlag "log-level" "info" "info" false.
Definition formatFlag : Flag := stringFlag "log-format" "auto" "auto" false.

Definition resolveCommand : Command :=
  serveCommand [addrFlag; enabledFlag; formatFlag; levelFlag].

Definition resolved : Command * Globals * result (option error) :=
  @SyncViperPreRunE resolvePlatform "app" resolveCommand [] startGlobals.

(** Three hooks: [hookA] and [hookC] set the global level and return nil,
    [hookB] fails. *)
Definition hookA : CobraRunFunc :=
  fun cmd args g => (cmd, SetGlobalLevel g DebugLevel, Ret None).
Definition hookB : CobraRunFunc :=
  fun cmd args g => (cmd, g, Ret (Some (Errorf "B failed"))).
Definition hookC : CobraRunFunc :=
  fun cmd args g => (cmd, SetGlobalLevel g PanicLevel, Ret None).

(** A terminal-less platform with an empty environment. *)
Definition plainPlatform : Platform := examplePlatform [] false None.

(** [serve --log-format FORMAT --log-level LEVEL]. *)
Definition logCommand (format lvl : string) : Command :=
  serveCommand [stringFlag "log-format" "auto" format true;
                stringFlag "log-level" "info" lvl true].

Definition logRun (format lvl : string)
    : Command * Globals * result (option error) :=
  @ZeroLogPreRunE plainPlatform flagAccessors "" InfoLevel
    (logCommand format lvl) [] startGlobals.

(** [serve --log-level LEVEL --otel-provider PROVIDER], the other logging
    and tracing flags at their defaults. *)
Definition hooksCommand (lvl provider : string) : Command :=
  serveCommand
    [stringFlag "log-format" "auto" "auto" false;
     stringFlag "log-level" "info" lvl true;
     stringFlag "otel-jaeger-endpoint" "http://jaeger:14268/api/traces"
       "http://jaeger:14268/api/traces" false;
     stringFlag "otel-jaeger-service-name" "example" "example" false;
     stringFlag "otel-provider" "none" provider true].

Definition otelRun (provider : string)
    : Command * Globals * result (option error) :=
  @OpenTelemetryPreRunE plainPlatform flagAccessors "" InfoLevel
    (hooksCommand "info" provider) [] startGlobals.

(** The server flags of one prefix. *)
Definition serverFlags (prefix : string) (enabled : bool)
    (certPath keyPath : string) : FlagSet :=
  [stringFlag (prefix ++ "-addr") ":0" ":0" false;
   boolFlag (prefix ++ "-enabled") true enabled true;
   stringFlag (prefix ++ "-max-conn-age") "30s" "30s" false;
   stringFlag (prefix ++ "-tls-cert-path") "" certPath true;
   stringFlag (prefix ++ "-tls-key-path") "" keyPath true].

(** [serve] with a gRPC and an HTTP server, both configured alike. *)
Definition serverCommand (enabled : bool) (certPath keyPath : string)
    : Command :=
  serveCommand (serverFlags "grpc" enabled certPath keyPath
                ++ serverFlags "http" enabled certPath keyPath)%list.

Definition exampleServer : grpc_Server :=
  grpc_NewServer [KeepaliveParams 30000000000%Z].
Definition exampleHttpServer : http_Server := {| Addr := ":0" |}.

(** Platforms on which the serve calls end with the closed signal of the
    HTTP server, and with another error. *)
Definition closedPlatform : Platform :=
  examplePlatform [] false (Some ErrServerClosed).
Definition brokenPlatform : Platform :=
  examplePlatform [] false (Some (Errorf "accept: too many open files")).

(** The three hooks chained, on [serve --otel-provider jaeger] with
    APP_LOG_LEVEL set to a text that is no level. *)
Definition stackPlatform : Platform :=
  examplePlatform [("APP_LOG_LEVEL", "verbose")] false None.

Definition stackCommand : Command :=
  serveCommand
    [stringFlag "log-format" "auto" "auto" false;
     stringFlag "log-level" "info" "info" false;
     stringFlag "otel-jaeger-endpoint" "http://jaeger:14268/api/traces"
       "http://jaeger:14268/api/traces" false;
     stringFlag "otel-jaeger-service-name" "example" "example" false;
     stringFlag "otel-provider" "none" "jaeger" true].

Definition stackRun : Command * Globals * result (option error) :=
  CommandStack
    [@SyncViperPreRunE stackPlatform "app";
     @ZeroLogPreRunE stackPlatform flagAccessors "" InfoLevel;
     @OpenTelemetryPreRunE stackPlatform flagAccessors "" InfoLevel]
    stackCommand [] startGlobals.

(** ** The accepted values of the logging and tracing options *)

(** The seven recognized levels. *)
Definition recognizedLevels : list (string * Level) :=
  [("trace", TraceLevel); ("debug", DebugLevel); ("info", InfoLevel);
   ("warn", WarnLevel); ("error", ErrorLevel); ("fatal", FatalLevel);
   ("panic", PanicLevel)].

Fixpoint levelNamed (table : list (string * Level)) (name : string)
    : option Level :=
  match table with
  | [] => None
  | (n, l) :: rest => if name =? n then Some l else levelNamed rest name
  end.

Definition recognizedLevel (name : string) : option Level :=
  levelNamed recognizedLevels name.

(** The event with which a hook reports what it configured. *)
Definition report (prerunLevel : Level) (key val msg : string) : Event :=
  {| level := prerunLevel; fields := [(key, val)]; message := msg |}.

(** The logger after [log.Output(zerolog.ConsoleWriter{Out: os.Stdout})]. *)
Definition consoleLogger (g : Globals) : Globals :=
  setLogger g (Output (log_Logger g) (ConsoleWriter Stdout)).

(** ** The credential pair *)

(** Exactly one of the two paths is set. *)
Definition partialPair (certPath keyPath : string) : bool :=
  xorb (certPath =? "") (keyPath =? "").

Definition pairingError (kind flagPrefix : string) : error :=
  Errorf ("failed to start " ++ kind ++ " server: must provide both --"
          ++ flagPrefix ++ "-tls-cert-path and --" ++ flagPrefix
          ++ "-tls-key-path").

Definition plaintextWarning (kind flagPrefix : string) : Event :=
  {| level := WarnLevel; fields := [("prefix", flagPrefix)];
     message := kind ++ " server serving plaintext" |}.

(** What an HTTP listen call makes of the result of its serve call: the
    closed signal of the server is no failure, any other error is wrapped. *)
Definition served (context : string) (r : option error) : option error :=
  match r with
  | None => None
  | Some err =>
      if isErrServerClosed err then None else Some (Wrapf context err)
  end.

(** ** Registration of flags *)

Definition andThen {A B : Type} (r : result A) (k : A -> result B)
    : result B :=
  match r with
  | Ret a => k a
  | Panic => Panic
  end.

(** [debug.BuildInfo], as far as the package reads it. *)
Record BuildInfo : Type := { Main_Path : string }.

(** The packages [time] and [runtime/debug]: how a duration is printed and
    parsed, and the build information of the binary, if it has any. *)
Class GoRuntime : Type := {
  Duration_String : Duration -> string;
  time_ParseDuration : string -> Duration * option error;
  debug_ReadBuildInfo : option BuildInfo
}.

(** pflag's [durationValue]: [Set] stores what [ParseDuration] returned. *)
Definition durationValue {R : GoRuntime} (d : Duration) : Value :=
  {| carrier := Duration; current := d;
     ValueString := Duration_String;
     ValueSet := fun s _ => time_ParseDuration s |}.

(** The place of a new flag in the order of [VisitAll], which sorts the
    flags by name. *)
Fixpoint insertFlag (f : Flag) (fs : FlagSet) : FlagSet :=
  match fs with
  | [] => [f]
  | g :: rest =>
      if String.leb (Name g) (Name f) then g :: insertFlag f rest
      else f :: g :: rest
  end.

(** [FlagSet.AddFlag(flag)]: a flag of a name that is taken panics
    ("flag redefined"). *)
Definition AddFlag (fs : FlagSet) (f : Flag) : result FlagSet :=
  match Lookup fs (Name f) with
  | Some _ => Panic
  | None => Ret (insertFlag f fs)
  end.

(** [flags.String(name, value, usage)], [flags.Bool] and [flags.Duration]:
    a flag that holds [value], with the text of [value] as its default.
    A [Flag] does not carry the usage text. *)
Definition FlagSet_String (fs : FlagSet) (name value usage : string)
    : result FlagSet :=
  AddFlag fs {| Name := name; DefValue := valueText (stringValue value);
                Val := stringValue value; Changed := false |}.

Definition FlagSet_Bool (fs : FlagSet) (name : string) (value : bool)
    (usage : string) : result FlagSet :=
  AddFlag fs {| Name := name; DefValue := valueText (boolValue value);
                Val := boolValue value; Changed := false |}.

Definition FlagSet_Duration {R : GoRuntime} (fs : FlagSet) (name : string)
    (value : Duration) (usage : string) : result FlagSet :=
  AddFlag fs {| Name := name; DefValue := valueText (durationValue value);
                Val := durationValue value; Changed := false |}.

(** A word between double quotes. *)
Definition quoted (s : string) : string :=
  String "034"%char (s ++ String "034"%char "").

Definition Second : Duration := 1000000000%Z.

Section Registration.
Context {R : GoRuntime}.

(** [RegisterZeroLogFlags] adds flags for use in with ZeroLogPreRunE:
    - "$PREFIX-level"
    - "$PREFIX-format" *)
Definition RegisterZeroLogFlags (flags : FlagSet) (flagPrefix : string)
    : result FlagSet :=
  let flagPrefix := DefaultEmpty flagPrefix "log" in
  andThen
    (FlagSet_String flags (flagPrefix ++ "-level") "info"
       ("verbosity of logging (" ++ quoted "trace" ++ ", " ++ quoted "debug"
        ++ ", " ++ quoted "info" ++ ", " ++ quoted "warn" ++ ", "
        ++ quoted "error" ++ ")"))
    (fun flags =>
  FlagSet_String flags (flagPrefix ++ "-format") "auto"
    ("format of logs (" ++ quoted "auto" ++ ", " ++ quoted "human" ++ ", "
     ++ quoted "json" ++ ")")).

(** [RegisterOpenTelemetryFlags] adds the following flags for use with
    OpenTelemetryPreRunE:
    - "$PREFIX-provider"
    - "$PREFIX-jaeger-endpoint"
    - "$PREFIX-jaeger-service-name" *)
Definition RegisterOpenTelemetryFlags (flags : FlagSet)
    (flagPrefix serviceName : string) : result FlagSet :=
  let bi := debug_ReadBuildInfo in
  let flagPrefix := DefaultEmpty flagPrefix "otel" in
  match bi with
  | None => Panic (* bi.Main.Path on a nil *BuildInfo *)
  | Some bi =>
  let serviceName := DefaultEmpty serviceName (Main_Path bi) in
  andThen
    (FlagSet_String flags (flagPrefix ++ "-provider") "none"
       ("opentelemetry provider for tracing (" ++ quoted "none" ++ ", "
        ++ quoted "jaeger" ++ ")"))
    (fun flags =>
  andThen
    (FlagSet_String flags (flagPrefix ++ "-jaeger-endpoint")
       "http://jaeger:14268/api/traces" "jaeger collector endpoint")
    (fun flags =>
  FlagSet_String flags (flagPrefix ++ "-jaeger-service-name") serviceName
    "jaeger service name for trace data"))
  end.

(** [RegisterGrpcServerFlags] adds the following flags for use with
    GrpcServerFromFlags:
    - "$PREFIX-addr"
    - "$PREFIX-tls-cert-path"
    - "$PREFIX-tls-key-path"
    - "$PREFIX-max-conn-age" *)
Definition RegisterGrpcServerFlags (flags : FlagSet)
    (flagPrefix serviceName defaultAddr : string) (defaultEnabled : bool)
    : result FlagSet :=
  let flagPrefix := DefaultEmpty flagPrefix "grpc" in
  let serviceName := DefaultEmpty serviceName "grpc" in
  let defaultAddr := DefaultEmpty defaultAddr ":50051" in
  andThen
    (FlagSet_String flags (flagPrefix ++ "-addr") defaultAddr
       ("address to listen on to serve " ++ serviceName))
    (fun flags =>
  andThen
    (FlagSet_String flags (flagPrefix ++ "-tls-cert-path") ""
       ("local path to the TLS certificate used to serve " ++ serviceName))
    (fun flags =>
  andThen
    (FlagSet_String flags (flagPrefix ++ "-tls-key-path") ""
       ("local path to the TLS key used to serve " ++ serviceName))
    (fun flags =>
  andThen
    (FlagSet_Duration flags (flagPrefix ++ "-max-conn-age") (30 * Second)%Z
       ("how long a connection serving " ++ serviceName
        ++ " should be able to live"))
    (fun flags =>
  FlagSet_Bool flags (flagPrefix ++ "-enabled") defaultEnabled
    ("enable " ++ serviceName ++ " gRPC server"))))).

(** [RegisterHttpServerFlags] adds the following flags for use with
    HttpServerFromFlags:
    - "$PREFIX-addr"
    - "$PREFIX-tls-cert-path"
    - "$PREFIX-tls-key-path"
    - "$PREFIX-enabled" *)
Definition RegisterHttpServerFlags (flags : FlagSet)
    (flagPrefix serviceName defaultAddr : string) (defaultEnabled : bool)
    : result FlagSet :=
  let flagPrefix := DefaultEmpty flagPrefix "http" in
  let serviceName := DefaultEmpty serviceName "http" in
  let defaultAddr := DefaultEmpty defaultAddr ":8443" in
  andThen
    (FlagSet_String flags (flagPrefix ++ "-addr") defaultAddr
       ("address to listen on to serve " ++ serviceName))
    (fun flags =>
  andThen
    (FlagSet_String flags (flagPrefix ++ "-tls-cert-path") ""
       ("local path to the TLS certificate used to serve " ++ serviceName))
    (fun flags =>
  andThen
    (FlagSet_String flags (flagPrefix ++ "-tls-key-path") ""
       ("local path to the TLS key used to serve " ++ serviceName))
    (fun flags =>
  FlagSet_Bool flags (flagPrefix ++ "-enabled") defaultEnabled
    ("enable " ++ serviceName ++ " http server")))).

End Registration.

(** ** What a registration defines *)

(** The flags [new], added one after the other. *)
Fixpoint addAll (fs : FlagSet) (new : list Flag) : result FlagSet :=
  match new with
  | [] => Ret fs
  | f :: rest => andThen (AddFlag fs f) (fun fs => addAll fs rest)
  end.

(** [fs'] is [fs] with the flags [new] defined in it: each of them is found
    under its name, every other name denotes what it denoted, and names
    stay unique. *)
Definition Defines (fs fs' : FlagSet) (new : list Flag) : Prop :=
  (forall f, In f new -> Lookup fs' (Name f) = Some f) /\
  (forall n, ~ In n (map Name new) -> Lookup fs' n = Lookup fs n) /\
  (NoDup (map Name fs) -> NoDup (map Name fs')).

(** The flags of the four groups, under a prefix. *)
Definition zerologFlags (prefix : string) : list Flag :=
  [stringFlag (prefix ++ "-level") "info" "info" false;
   stringFlag (prefix ++ "-format") "auto" "auto" false].

Definition otelFlags (prefix serviceName : string) : list Flag :=
  [stringFlag (prefix ++ "-provider") "none" "none" false;
   stringFlag (prefix ++ "-jaeger-endpoint")
     "http://jaeger:14268/api/traces" "http://jaeger:14268/api/traces" false;
   stringFlag (prefix ++ "-jaeger-service-name") serviceName serviceName
     false].

Definition httpFlags (prefix addr : string) (enabled : bool) : list Flag :=
  [stringFlag (prefix ++ "-addr") addr addr false;
   stringFlag (prefix ++ "-tls-cert-path") "" "" false;
   stringFlag (prefix ++ "-tls-key-path") "" "" false;
   boolFlag (prefix ++ "-enabled") enabled enabled false].

Definition grpcFlags {R : GoRuntime} (prefix addr : string) (enabled : bool)
    : list Flag :=
  [stringFlag (prefix ++ "-addr") addr addr false;
   stringFlag (prefix ++ "-tls-cert-path") "" "" false;
   stringFlag (prefix ++ "-tls-key-path") "" "" false;
   {| Name := prefix ++ "-max-conn-age";
      DefValue := Duration_String 30000000000%Z;
      Val := durationValue 30000000000%Z; Changed := false |};
   boolFlag (prefix ++ "-enabled") enabled enabled false].

(** A runtime that prints and parses the one duration the package uses,
    with build information. *)
Definition exampleRuntime : GoRuntime :=
  {| Duration_String := fun d =>
       if Z.eqb d 30000000000 then "30s" else "0s";
     time_ParseDuration := fun s =>
       if s =? "30s" then (30000000000%Z, None)
       else (0%Z, Some (Errorf ("time: invalid duration " ++ s)));
     debug_ReadBuildInfo := Some {| Main_Path := "example.com/app" |} |}.

(** A runtime of a binary built without module support. *)
Definition bareRuntime : GoRuntime :=
  {| Duration_String := @Duration_String exampleRuntime;
     time_ParseDuration := @time_ParseDuration exampleRuntime;
     debug_ReadBuildInfo := None |}.

(** The flag set a registration returned, or none. *)
Definition orEmpty (r : result FlagSet) : FlagSet :=
  match r with
  | Ret fs => fs
  | Panic => []
  end.

(** cobra's help command; it has none of the flags the hooks read. *)
Definition helpCommand : Command := {| Use := "help [command]"; Flags := [] |}.

(** What resolution must not alter of a flag. *)
Definition declared (f : Flag) : string * string := (Name f, DefValue f).

(** A byte that may occur in the name of an override variable: no hyphen
    and no lower-case letter. *)
Definition variableByte (c : ascii) : bool :=
  negb (Ascii.eqb c "-") && negb (strings.isLower c).

(** A command without any flag, on which the accessors panic. *)
Definition bareCommand : Command := serveCommand [].

(** A platform whose standard output is a terminal, and one on which the
    jaeger exporter cannot be built and no address can be bound. *)
Definition ttyPlatform : Platform := examplePlatform [] true None.

Definition refusingPlatform : Platform :=
  {| unicode_ToLower := fun s => s;
     unicode_ToUpper := fun s => s;
     os_LookupEnv := fun _ => None;
     isatty_IsTerminal := fun _ => false;
     jaeger_New := fun _ => Some (Errorf "invalid collector endpoint");
     credentials_NewServerTLSFromFile := fun _ _ => None;
     net_Listen := fun _ _ => Some (Errorf "listen tcp :0: bind: denied");
     srv_Serve := fun _ _ => None;
     srv_ListenAndServe := fun _ => None;
     srv_ListenAndServeTLS := fun _ _ _ => None |}.

(** The tracer provider [initJaegerTracer] installs. *)
Definition jaegerProvider (endpoint serviceName : string) : TracerProvider :=
  {| sampler := AlwaysSample;
     spanProcessor := BatchSpanProcessor {| collectorEndpoint := endpoint |};
     resourceServiceName := serviceName |}.

(** ** What the properties of registered flags assume of the accessors *)

(** [MustGetString] returns the text of a defined flag. *)
Definition readsStrings (A : Accessors) : Prop :=
  forall cmd name f,
    Lookup (Flags cmd) name = Some f ->
    MustGetString cmd name = Ret (valueText (Val f)).

(** [MustGetString] returns the text of a defined string flag; of other
    flags nothing is assumed. *)
Definition readsStringFlags (A : Accessors) : Prop :=
  forall cmd name f text,
    Lookup (Flags cmd) name = Some f ->
    Val f = stringValue text ->
    MustGetString cmd name = Ret text.

(** [MustGetStringExpanded] returns the empty text of a defined flag that
    holds the empty text. *)
Definition readsEmptyPaths (A : Accessors) : Prop :=
  forall cmd name f,
    Lookup (Flags cmd) name = Some f ->
    valueText (Val f) = "" ->
    MustGetStringExpanded cmd name = Ret "".

(** [MustGetBool] returns the boolean of a defined boolean flag and panics
    on a flag that is not defined. *)
Definition readsBools (A : Accessors) : Prop :=
  (forall cmd name f b,
     Lookup (Flags cmd) name = Some f ->
     Val f = boolValue b ->
     MustGetBool cmd name = Ret b) /\
  (forall cmd name,
     Lookup (Flags cmd) name = None -> MustGetBool cmd name = Panic).

(** ** Hook composition: properties *)

Lemma CommandStack_first_failure pre : forall h post cmd args g c1 g1 c2 g2 e,
  AllSucceed pre cmd args g c1 g1 ->
  h c1 args g1 = (c2, g2, Ret (Some e)) ->
  CommandStack (pre ++ h :: post) cmd args g = (c2, g2, Ret (Some e)).
Proof.
  induction pre as [|p pre IH]; intros h post cmd args g c1 g1 c2 g2 e Hpre Hh.
  - inversion Hpre; subst. simpl. rewrite Hh. reflexivity.
  - inversion Hpre as [|? ? ? ? ? cm gm ? ? Hp Hrest]; subst.
    simpl. rewrite Hp. eapply IH; eauto.
Qed.

Lemma CommandStack_success cmdfns : forall cmd args g c' g',
  CommandStack cmdfns cmd args g = (c', g', Ret None) <->
  AllSucceed cmdfns cmd args g c' g'.
Proof.
  induction cmdfns as [|h rest IH]; intros cmd args g c' g'; simpl.
  - split.
    + intros E. inversion E; subst. constructor.
    + intros H. inversion H; subst. reflexivity.
  - split.
    + destruct (h cmd args g) as [[c1 g1] [[e|]|]] eqn:Hh; intros E;
        try discriminate.
      econstructor; [exact Hh|]. apply IH. exact E.
    + intros H. inversion H as [|? ? ? ? ? c1 g1 ? ? Hh Hrest]; subst.
      rewrite Hh. apply IH. exact Hrest.
Qed.

Lemma CommandStack_error cmdfns : forall cmd args g c' g' e,
  CommandStack cmdfns cmd args g = (c', g', Ret (Some e)) ->
  exists pre h post c1 g1,
    cmdfns = (pre ++ h :: post)%list /\
    AllSucceed pre cmd args g c1 g1 /\
    h c1 args g1 = (c', g', Ret (Some e)).
Proof.
  induction cmdfns as [|h rest IH]; intros cmd args g c' g' e; simpl.
  - discriminate.
  - destruct (h cmd args g) as [[c1 g1] [[e1|]|]] eqn:Hh; intros E;
      try discriminate.
    + inversion E; subst.
      exists [], h, rest, cmd, g. repeat split; [constructor|exact Hh].
    + destruct (IH _ _ _ _ _ _ E)
        as (pre & h' & post & c2 & g2 & -> & Hpre & Hh').
      exists (h :: pre), h', post, c2, g2. repeat split; [|exact Hh'].
      econstructor; eauto.
Qed.

(** C3. The hook built by [CommandStack] runs the hooks in list order, each
    on the command and arguments it was called with: when the hooks before
    [h] all return nil and [h] returns an error, the stack returns that
    error and the state [h] left, whatever hooks follow [h]; it returns nil
    exactly when every hook does; and an error it returns is the error of
    the first hook that failed. *)
Theorem CommandStack_fail_fast (cmdfns : list CobraRunFunc)
    (cmd : Command) (args : list string) (g : Globals) :
  (forall pre h post c1 g1 c2 g2 e,
      cmdfns = (pre ++ h :: post)%list ->
      AllSucceed pre cmd args g c1 g1 ->
      h c1 args g1 = (c2, g2, Ret (Some e)) ->
      CommandStack cmdfns cmd args g = (c2, g2, Ret (Some e))) /\
  (forall c' g',
      CommandStack cmdfns cmd args g = (c', g', Ret None) <->
      AllSucceed cmdfns cmd args g c' g') /\
  (forall c' g' e,
      CommandStack cmdfns cmd args g = (c', g', Ret (Some e)) ->
      exists pre h post c1 g1,
        cmdfns = (pre ++ h :: post)%list /\
        AllSucceed pre cmd args g c1 g1 /\
        h c1 args g1 = (c', g', Ret (Some e))).
Proof.
  split; [|split].
  - intros pre h post c1 g1 c2 g2 e ->. apply CommandStack_first_failure.
  - apply CommandStack_success.
  - apply CommandStack_error.
Qed.

(** Hooks [A, B, C] where B fails: A runs, B runs and fails, C never runs
    (the level is the one A set); the result is B's error. *)
Lemma CommandStack_fail_fast_witness :
  CommandStack [hookA; hookB; hookC] resolveCommand ["x"] startGlobals =
  (resolveCommand, SetGlobalLevel startGlobals DebugLevel,
   Ret (Some (Errorf "B failed"))).
Proof.
  apply (proj1 (CommandStack_fail_fast [hookA; hookB; hookC]
                  resolveCommand ["x"] startGlobals)
           [hookA] hookB [hookC]
           resolveCommand (SetGlobalLevel startGlobals DebugLevel)).
  - reflexivity.
  - econstructor; [reflexivity|constructor].
  - reflexivity.
Defined.

(** ** Flag/environment resolution: properties *)

Section Resolution.
Context {P : Platform}.

Lemma mapBytes_mapBytes f h s :
  strings.mapBytes f (strings.mapBytes h s) =
  strings.mapBytes (fun c => f (h c)) s.
Proof.
  induction s as [|c s IH]; simpl; [reflexivity|]. rewrite IH. reflexivity.
Qed.

Lemma mapBytes_ext f h s :
  (forall c, f c = h c) -> strings.mapBytes f s = strings.mapBytes h s.
Proof.
  intros E. induction s as [|c s IH]; simpl; [reflexivity|].
  rewrite E, IH. reflexivity.
Qed.

Lemma isASCII_mapBytes f s :
  (forall c, Nat.ltb (nat_of_ascii c) 128 = true ->
             Nat.ltb (nat_of_ascii (f c)) 128 = true) ->
  isASCII s = true -> isASCII (strings.mapBytes f s) = true.
Proof.
  intros Hf. unfold isASCII.
  induction s as [|c s IH]; simpl; [reflexivity|].
  intros H. apply andb_true_iff in H. destruct H as [Hc Hs].
  rewrite (Hf c Hc), (IH Hs). reflexivity.
Qed.

Lemma ToLower_ascii s :
  isASCII s = true -> strings.ToLower s = strings.mapBytes strings.lowerByte s.
Proof.
  intros H. unfold strings.ToLower. rewrite H. reflexivity.
Qed.

Lemma ToUpper_ascii s :
  isASCII s = true -> strings.ToUpper s = strings.mapBytes strings.upperByte s.
Proof.
  intros H. unfold strings.ToUpper. rewrite H. reflexivity.
Qed.

Lemma isASCII_lower s :
  isASCII s = true -> isASCII (strings.mapBytes strings.lowerByte s) = true.
Proof.
  apply isASCII_mapBytes.
  intros c; destruct c as [[] [] [] [] [] [] [] []]; intros H;
    first [reflexivity|discriminate H].
Qed.

Lemma isASCII_upper s :
  isASCII s = true -> isASCII (strings.mapBytes strings.upperByte s) = true.
Proof.
  apply isASCII_mapBytes.
  intros c; destruct c as [[] [] [] [] [] [] [] []]; intros H;
    first [reflexivity|discriminate H].
Qed.

Lemma isASCII_ReplaceAll s :
  isASCII s = true -> isASCII (strings.ReplaceAll s "-" "_") = true.
Proof.
  apply isASCII_mapBytes.
  intros c; destruct c as [[] [] [] [] [] [] [] []]; intros H;
    first [reflexivity|discriminate H].
Qed.

Lemma isASCII_ToLower s :
  isASCII s = true -> isASCII (strings.ToLower s) = true.
Proof.
  intros H. rewrite (ToLower_ascii s H). apply isASCII_lower. exact H.
Qed.

Lemma isASCII_ToUpper s :
  isASCII s = true -> isASCII (strings.ToUpper s) = true.
Proof.
  intros H. rewrite (ToUpper_ascii s H). apply isASCII_upper. exact H.
Qed.

Lemma upper_of_lower s :
  isASCII s = true ->
  strings.ToUpper (strings.ReplaceAll (strings.ToLower s) "-" "_") =
  strings.ToUpper (strings.ReplaceAll s "-" "_").
Proof.
  intros H. rewrite (ToLower_ascii s H).
  rewrite (ToUpper_ascii (strings.ReplaceAll s "-" "_"))
    by (apply isASCII_ReplaceAll; exact H).
  rewrite ToUpper_ascii
    by (apply isASCII_ReplaceAll, isASCII_lower; exact H).
  unfold strings.ReplaceAll. rewrite !mapBytes_mapBytes.
  apply mapBytes_ext.
  intros c; destruct c as [[] [] [] [] [] [] [] []]; reflexivity.
Qed.

Lemma Lookup_defined fs : forall name f,
  Lookup fs name = Some f -> In name (map Name fs).
Proof.
  induction fs as [|f0 fs IH]; simpl; intros name f H; [discriminate|].
  destruct (Name f0 =? name) eqn:E.
  - left. apply String.eqb_eq. exact E.
  - right. eauto.
Qed.

Lemma Lookup_Name fs : forall name f,
  Lookup fs name = Some f -> Name f = name.
Proof.
  induction fs as [|f0 fs IH]; simpl; intros name f H; [discriminate|].
  destruct (Name f0 =? name) eqn:E.
  - inversion H; subst. apply String.eqb_eq. exact E.
  - eauto.
Qed.

Lemma Lookup_store_same fs : forall name f f',
  Lookup fs name = Some f -> Name f' = name ->
  Lookup (store fs name f') name = Some f'.
Proof.
  induction fs as [|f0 fs IH]; simpl; intros name f f' H Hn; [discriminate|].
  destruct (Name f0 =? name) eqn:E; simpl.
  - rewrite Hn, String.eqb_refl. reflexivity.
  - rewrite E. eauto.
Qed.

Lemma Lookup_store_other fs : forall name f' other,
  Name f' = name -> other <> name ->
  Lookup (store fs name f') other = Lookup fs other.
Proof.
  induction fs as [|f0 fs IH]; simpl; intros name f' other Hn Hne;
    [reflexivity|].
  destruct (Name f0 =? name) eqn:E; simpl.
  - apply String.eqb_eq in E. rewrite Hn, E.
    destruct (name =? other) eqn:E'; [|reflexivity].
    apply String.eqb_eq in E'. congruence.
  - destruct (Name f0 =? other); [reflexivity|]. eauto.
Qed.

Lemma map_Name_store fs : forall name f',
  Name f' = name -> map Name (store fs name f') = map Name fs.
Proof.
  induction fs as [|f0 fs IH]; simpl; intros name f' Hn; [reflexivity|].
  destruct (Name f0 =? name) eqn:E; simpl.
  - apply String.eqb_eq in E. congruence.
  - f_equal. eauto.
Qed.

Lemma Lookup_In fs : forall name,
  In name (map Name fs) -> exists f, Lookup fs name = Some f.
Proof.
  induction fs as [|f0 fs IH]; simpl; intros name H; [contradiction|].
  destruct (Name f0 =? name) eqn:E; [eauto|].
  destruct H as [H|H]; [|eauto].
  apply String.eqb_neq in E. contradiction.
Qed.


Lemma firstSet_same names : forall name,
  Forall (eq name) names ->
  viper.firstSet (names ++ [name]) = viper.getEnv name.
Proof.
  induction names as [|n names IH]; intros name H; simpl.
  - destruct (viper.getEnv name); reflexivity.
  - inversion H; subst.
    destruct (viper.getEnv n) eqn:E; [reflexivity|].
    rewrite IH by assumption. exact E.
Qed.

Lemma bound_append m : forall key name other,
  viper.bound (viper.append m key name) other =
  if key =? other
  then Some (match viper.bound m key with
             | Some names => names ++ [name]
             | None => [name]
             end)%list
  else viper.bound m other.
Proof.
  induction m as [|[k names] m IH]; intros key name other; simpl.
  - destruct (key =? other); reflexivity.
  - destruct (k =? key) eqn:E; simpl.
    + apply String.eqb_eq in E. subst k.
      destruct (key =? other); reflexivity.
    + rewrite IH. destruct (key =? other) eqn:E'.
      * apply String.eqb_eq in E'. subst other. rewrite E. reflexivity.
      * reflexivity.
Qed.

Lemma envVar_lower prefix name :
  isASCII name = true ->
  envVar prefix (strings.ToLower name) = envVar prefix name.
Proof.
  intros H. unfold envVar. rewrite (upper_of_lower name H). reflexivity.
Qed.

(** Flag names of ASCII bytes that lower-case alike have one variable. *)
Lemma ascii_names_agree prefix fs :
  Forall (fun f => isASCII (Name f) = true) fs ->
  variablesAgree prefix fs.
Proof.
  intros Hascii n1 n2 H1 H2 E.
  assert (Hn : forall n, In n (map Name fs) -> isASCII n = true).
  { intros n Hin. apply in_map_iff in Hin. destruct Hin as (f & <- & Hf).
    rewrite Forall_forall in Hascii. apply Hascii. exact Hf. }
  rewrite <- (envVar_lower prefix n1 (Hn _ H1)).
  rewrite <- (envVar_lower prefix n2 (Hn _ H2)).
  rewrite E. reflexivity.
Qed.

Lemma bindings_ok_BindEnv prefix fs v name :
  In name (map Name fs) ->
  bindings_ok prefix fs v ->
  bindings_ok prefix fs (viper.BindEnv v name (envVar prefix name)).
Proof.
  intros Hin Hv key names. unfold viper.BindEnv. simpl. rewrite bound_append.
  destruct (strings.ToLower name =? key) eqn:E.
  - apply String.eqb_eq in E. subst key. intros H. inversion H; subst.
    assert (Hnew : exists n, In n (map Name fs) /\
                             strings.ToLower n = strings.ToLower name /\
                             envVar prefix name = envVar prefix n)
      by (exists name; repeat split; assumption).
    destruct (viper.bound (viper.env v) (strings.ToLower name)) as [l|] eqn:B.
    + apply Forall_app. split; [eapply Hv; exact B|].
      constructor; [exact Hnew|constructor].
    + constructor; [exact Hnew|constructor].
  - apply Hv.
Qed.

Lemma find_BindEnv prefix fs v name :
  variablesAgree prefix fs ->
  In name (map Name fs) ->
  bindings_ok prefix fs v ->
  viper.find (viper.BindEnv v name (envVar prefix name)) name =
  viper.getEnv (envVar prefix name).
Proof.
  intros Hagree Hin Hv. unfold viper.find, viper.BindEnv. simpl.
  rewrite bound_append, String.eqb_refl.
  destruct (viper.bound (viper.env v) (strings.ToLower name)) as [l|] eqn:B.
  - apply firstSet_same.
    eapply Forall_impl; [|eapply Hv; exact B].
    intros bound_name (n & Hn & Hkey & ->). simpl.
    symmetry. apply Hagree; assumption.
  - simpl. destruct (viper.getEnv (envVar prefix name)); reflexivity.
Qed.

End Resolution.

Section ResolutionLoop.
Context {P : Platform}.
Variable prefix : string.
Variable fs0 : FlagSet.
Hypothesis agree : variablesAgree prefix fs0.

Lemma syncFlag_walked visited s f :
  walked prefix fs0 visited s ->
  ~ In (Name f) visited ->
  Lookup fs0 (Name f) = Some f ->
  walked prefix fs0 (Name f :: visited)
    (syncFlag (strings.ReplaceAll (strings.ToUpper prefix) "-" "_") f s).
Proof.
  destruct s as [v flags]. intros (Hv & Hin & Hout) Hfresh Hf.
  assert (Hlive : Lookup flags (Name f) = Some f)
    by (rewrite <- Hf; apply (Hout _ Hfresh)).
  unfold syncFlag. fold (envVar prefix (Name f)).
  pose proof (Lookup_defined _ _ _ Hf) as Hdef.
  unfold viper.IsSet, viper.Get.
  rewrite (find_BindEnv prefix fs0 v (Name f) agree Hdef Hv).
  pose proof (bindings_ok_BindEnv prefix fs0 v (Name f) Hdef Hv) as Hv'.
  set (v' := viper.BindEnv v (Name f) (envVar prefix (Name f))) in *.
  assert (Hkeep : resolveFlag prefix f = f ->
                  walked prefix fs0 (Name f :: visited) (v', flags)).
  { intros Hr. split; [exact Hv'|split]; simpl.
    - intros n [<-|Hn]; [|auto]. rewrite Hlive, Hf. simpl. now rewrite Hr.
    - intros n Hn. apply Hout. intros H. apply Hn. right. exact H. }
  destruct (Changed f) eqn:HC; simpl.
  - apply Hkeep. unfold resolveFlag. now rewrite HC.
  - destruct (viper.getEnv (envVar prefix (Name f))) as [text|] eqn:HE.
    + simpl. unfold FlagSet_Set. rewrite Hlive.
      destruct (valueParse (Val f) text) as [val err] eqn:HP.
      assert (Hr : resolveFlag prefix f =
                   {| Name := Name f; DefValue := DefValue f; Val := val;
                      Changed := match err with
                                 | None => true
                                 | Some _ => false
                                 end |}).
      { unfold resolveFlag. now rewrite HC, HE, HP. }
      assert (Hstore : forall f', Name f' = Name f ->
                resolveFlag prefix f = f' ->
                walked prefix fs0 (Name f :: visited)
                  (v', store flags (Name f) f')).
      { intros f' Hn Hf'. split; [exact Hv'|split]; simpl.
        - intros n [<-|Hn'].
          + rewrite (Lookup_store_same _ _ _ _ Hlive Hn), Hf. simpl.
            now rewrite Hf'.
          + destruct (string_dec n (Name f)) as [->|Hne].
            * rewrite (Lookup_store_same _ _ _ _ Hlive Hn), Hf. simpl.
              now rewrite Hf'.
            * rewrite (Lookup_store_other _ _ _ _ Hn Hne). auto.
        - intros n Hn'.
          rewrite (Lookup_store_other _ _ _ _ Hn);
            [|intros ->; apply Hn'; left; reflexivity].
          apply Hout. intros H. apply Hn'. right. exact H. }
      destruct err as [e|]; apply Hstore; try reflexivity;
        rewrite Hr, ?HC; reflexivity.
    + simpl. apply Hkeep. unfold resolveFlag. now rewrite HC, HE.
Qed.

Lemma VisitAll_walked names : forall visited s,
  walked prefix fs0 visited s ->
  NoDup names ->
  (forall n, In n names -> ~ In n visited) ->
  (forall n, In n names -> exists f, Lookup fs0 n = Some f) ->
  walked prefix fs0 (rev names ++ visited)
    (fold_left
       (fun s name =>
          match Lookup (snd s) name with
          | Some f =>
              syncFlag
                (strings.ReplaceAll (strings.ToUpper prefix) "-" "_") f s
          | None => s
          end)
       names s).
Proof.
  induction names as [|n names IH]; intros visited s Hw Hnd Hfresh Hdef;
    simpl; [exact Hw|].
  inversion Hnd as [|? ? Hn Hnd']; subst.
  destruct (Hdef n (or_introl eq_refl)) as [f Hf].
  pose proof (Lookup_Name _ _ _ Hf) as HN.
  assert (Hnv : ~ In n visited) by (apply Hfresh; left; reflexivity).
  destruct Hw as (Hv & Hin & Hout).
  rewrite (Hout n Hnv), Hf.
  rewrite <- app_assoc. simpl. apply IH.
  - rewrite <- HN. apply syncFlag_walked.
    + split; [exact Hv|split; assumption].
    + rewrite HN. exact Hnv.
    + rewrite HN. exact Hf.
  - exact Hnd'.
  - intros m Hm [<-|Hmv]; [contradiction|].
    apply (Hfresh m); [right; exact Hm|exact Hmv].
  - intros m Hm. apply Hdef. right. exact Hm.
Qed.

End ResolutionLoop.

Section ResolutionKeeps.
Context {P : Platform}.

(** A flag that was set on the invocation is left alone by every call of
    the function literal, whatever the viper instance has bound. *)
Lemma syncFlag_keeps_changed prefix f s n f0 :
  Lookup (snd s) (Name f) = Some f ->
  Lookup (snd s) n = Some f0 -> Changed f0 = true ->
  Lookup (snd (syncFlag prefix f s)) n = Some f0.
Proof.
  destruct s as [v flags]. simpl. intros Hlive Hn HC. unfold syncFlag.
  destruct (negb (Changed f) && _) eqn:E; simpl; [|exact Hn].
  apply andb_true_iff in E. destruct E as [E _].
  apply negb_true_iff in E.
  assert (Hne : n <> Name f).
  { intros ->. rewrite Hlive in Hn. inversion Hn; subst. congruence. }
  unfold FlagSet_Set. rewrite Hlive.
  destruct (valueParse (Val f) _) as [val [e|]]; simpl;
    rewrite Lookup_store_other; auto.
Qed.

Lemma VisitAll_keeps_changed prefix names : forall s n f0,
  Lookup (snd s) n = Some f0 -> Changed f0 = true ->
  Lookup
    (snd (fold_left
            (fun s name =>
               match Lookup (snd s) name with
               | Some f => syncFlag prefix f s
               | None => s
               end)
            names s)) n = Some f0.
Proof.
  induction names as [|m names IH]; intros s n f0 Hn HC; simpl;
    [exact Hn|].
  apply IH; [|exact HC].
  destruct (Lookup (snd s) m) as [f|] eqn:Hm; [|exact Hn].
  apply syncFlag_keeps_changed; [|exact Hn|exact HC].
  rewrite (Lookup_Name _ _ _ Hm). exact Hm.
Qed.

End ResolutionKeeps.

Section ResolutionResult.
Context {P : Platform}.

(** On a command that is not a builtin the hook returns nil and leaves
    every flag as [resolveFlag] has it. *)
Lemma SyncViperPreRunE_resolves prefix cmd args g :
  IsBuiltinCommand cmd = false ->
  NoDup (map Name (Flags cmd)) ->
  variablesAgree prefix (Flags cmd) ->
  exists flags,
    SyncViperPreRunE prefix cmd args g =
      (withFlags cmd flags,
       SetEnvPrefix g (strings.ReplaceAll (strings.ToUpper prefix) "-" "_"),
       Ret None) /\
    forall name,
      Lookup flags name =
      option_map (resolveFlag prefix) (Lookup (Flags cmd) name).
Proof.
  intros Hb Hnd Hagree. unfold SyncViperPreRunE. rewrite Hb.
  unfold VisitAll.
  pose proof (VisitAll_walked prefix (Flags cmd) Hagree
                (map Name (Flags cmd)) [] (viper.New, Flags cmd)) as Hw.
  destruct (fold_left _ _ _) as [v flags].
  exists flags. split; [reflexivity|].
  destruct Hw as (_ & Hin & Hout).
  - split; [|split]; simpl.
    + intros key names H. discriminate.
    + intros n [].
    + reflexivity.
  - exact Hnd.
  - intros n _ [].
  - apply Lookup_In.
  - intros name. simpl in *.
    destruct (Lookup (Flags cmd) name) as [f|] eqn:Hf.
    + rewrite Hin, Hf; [reflexivity|].
      rewrite app_nil_r, <- in_rev. eapply Lookup_defined. exact Hf.
    + rewrite Hout; [exact Hf|].
      rewrite app_nil_r, <- in_rev.
      intros Hn. destruct (Lookup_In _ _ Hn) as [f' Hf']. congruence.
Qed.

End ResolutionResult.

Section ResolutionClaims.
Context {P : Platform}.

(** C1. Resolution overrides a flag from the environment only when the flag
    was not set on the invocation.  A flag that was set keeps its value
    even when its variable is present.  viper keeps the variables of a flag
    under the lower-cased name of the flag; when the flags whose names
    lower-case alike have the same variable, as flags with names of ASCII
    bytes do, then a flag whose variable is unset is left as it was, a flag
    that resolution did alter was not set on the invocation and has a
    non-empty variable, and on a command that is not a builtin such a flag
    does get the text of its variable parsed into it.  The flags of a flag
    set have unique names. *)
Theorem SyncViperPreRunE_explicit_beats_environment
    (prefix : string) (cmd : Command) (args : list string) (g : Globals)
    (cmd' : Command) (g' : Globals) (r : result (option error))
    (name : string) (f : Flag) :
  NoDup (map Name (Flags cmd)) ->
  SyncViperPreRunE prefix cmd args g = (cmd', g', r) ->
  Lookup (Flags cmd) name = Some f ->
  (Changed f = true -> Lookup (Flags cmd') name = Some f) /\
  (variablesAgree prefix (Flags cmd) ->
   (os_LookupEnv (envVar prefix name) = None ->
    Lookup (Flags cmd') name = Some f) /\
   (Lookup (Flags cmd') name <> Some f ->
    Changed f = false /\
    exists text,
      os_LookupEnv (envVar prefix name) = Some text /\ text <> "") /\
   (IsBuiltinCommand cmd = false -> Changed f = false ->
    forall text,
      os_LookupEnv (envVar prefix name) = Some text -> text <> "" ->
      Lookup (Flags cmd') name =
      Some {| Name := Name f; DefValue := DefValue f;
              Val := fst (valueParse (Val f) text);
              Changed := match snd (valueParse (Val f) text) with
                         | None => true
                         | Some _ => false
                         end |})).
Proof.
  intros Hnd Hrun Hf. split.
  - intros HC. unfold SyncViperPreRunE in Hrun.
    destruct (IsBuiltinCommand cmd).
    + inversion Hrun; subst cmd'. exact Hf.
    + unfold VisitAll in Hrun.
      pose proof (VisitAll_keeps_changed
                    (strings.ReplaceAll (strings.ToUpper prefix) "-" "_")
                    (map Name (Flags cmd)) (viper.New, Flags cmd) name f
                    Hf HC) as Hkeep.
      destruct (fold_left _ _ _) as [v flags].
      inversion Hrun; subst cmd'. exact Hkeep.
  - intros Hagree.
    pose proof (Lookup_Name _ _ _ Hf) as HN.
    assert (Hk : Lookup (Flags cmd') name =
                 Some (if IsBuiltinCommand cmd then f
                       else resolveFlag prefix f)).
    { destruct (IsBuiltinCommand cmd) eqn:Hb.
      - unfold SyncViperPreRunE in Hrun. rewrite Hb in Hrun.
        inversion Hrun; subst cmd'. exact Hf.
      - destruct (SyncViperPreRunE_resolves prefix cmd args g Hb Hnd Hagree)
          as (flags & Hrun' & Hflags).
        rewrite Hrun' in Hrun. inversion Hrun; subst cmd'. simpl.
        rewrite Hflags, Hf. reflexivity. }
    unfold resolveFlag, viper.getEnv in Hk. rewrite HN in Hk.
    split; [|split].
    + intros HE. rewrite Hk, HE.
      destruct (IsBuiltinCommand cmd), (Changed f); reflexivity.
    + intros Hne. rewrite Hk in Hne.
      destruct (IsBuiltinCommand cmd); [contradiction|].
      destruct (Changed f); [contradiction|]. split; [reflexivity|].
      destruct (os_LookupEnv (envVar prefix name)) as [text|];
        [|contradiction].
      exists text. split; [reflexivity|].
      destruct (text =? "") eqn:Ht; [contradiction|].
      apply String.eqb_neq. exact Ht.
    + intros Hb HC text HE Ht. rewrite Hk, Hb, HC, HE.
      apply String.eqb_neq in Ht. rewrite Ht.
      destruct (valueParse (Val f) text). rewrite <- HN. reflexivity.
Qed.

(** C4, as the code has it. The hook returns nil whatever the environment
    holds: a missing variable raises no error, and the error of parsing a
    variable's text into its flag is dropped. *)
Theorem SyncViperPreRunE_returns_nil
    (prefix : string) (cmd : Command) (args : list string) (g : Globals) :
  snd (SyncViperPreRunE prefix cmd args g) = Ret None.
Proof.
  unfold SyncViperPreRunE.
  destruct (IsBuiltinCommand cmd); [reflexivity|].
  destruct (VisitAll _ _ _ _). reflexivity.
Qed.

End ResolutionClaims.

Lemma resolveCommand_NoDup : NoDup (map Name (Flags resolveCommand)).
Proof.
  repeat constructor; simpl; intuition discriminate.
Defined.

Lemma resolveCommand_agree :
  @variablesAgree resolvePlatform "app" (Flags resolveCommand).
Proof.
  apply ascii_names_agree. repeat constructor.
Defined.

Lemma resolved_run :
  @SyncViperPreRunE resolvePlatform "app" resolveCommand [] startGlobals =
  (fst (fst resolved), snd (fst resolved), snd resolved).
Proof.
  reflexivity.
Defined.

(** In the example the flag given on the command line survives its
    variable, the format, which has no variable, stays, and the level, not
    given and with a variable, is altered and holds the variable's text. *)
Lemma SyncViperPreRunE_explicit_beats_environment_witness :
  Lookup (Flags (fst (fst resolved))) "grpc-addr" = Some addrFlag /\
  Lookup (Flags (fst (fst resolved))) "log-format" = Some formatFlag /\
  (Changed levelFlag = false /\
   exists text,
     @os_LookupEnv resolvePlatform
       (@envVar resolvePlatform "app" "log-level") = Some text /\
     text <> "") /\
  Lookup (Flags (fst (fst resolved))) "log-level" =
    Some {| Name := "log-level"; DefValue := "info";
            Val := fst (valueParse (Val levelFlag) "debug");
            Changed := true |}.
Proof.
  pose proof (fun name f =>
    @SyncViperPreRunE_explicit_beats_environment resolvePlatform
      "app" resolveCommand [] startGlobals
      (fst (fst resolved)) (snd (fst resolved)) (snd resolved)
      name f resolveCommand_NoDup resolved_run) as H.
  split; [|split; [|split]].
  - apply (proj1 (H "grpc-addr" addrFlag eq_refl)). reflexivity.
  - apply (proj1 (proj2 (H "log-format" formatFlag eq_refl)
                    resolveCommand_agree)).
    reflexivity.
  - apply (proj1 (proj2 (proj2 (H "log-level" levelFlag eq_refl)
                           resolveCommand_agree))).
    intros E. apply (f_equal (option_map Changed)) in E. discriminate E.
  - apply (proj2 (proj2 (proj2 (H "log-level" levelFlag eq_refl)
                           resolveCommand_agree))
             eq_refl eq_refl "debug" eq_refl).
    discriminate.
Defined.

(** The run of the example: the flag given on the command line keeps
    [:9000] although APP_GRPC_ADDR is set, the level is taken from
    APP_LOG_LEVEL, the format has no variable and stays, and the flag whose
    variable does not parse is not marked as changed. *)
Example resolved_flags :
  option_map (fun f => (valueText (Val f), Changed f))
    (Lookup (Flags (fst (fst resolved))) "grpc-addr") = Some (":9000", true) /\
  option_map (fun f => (valueText (Val f), Changed f))
    (Lookup (Flags (fst (fst resolved))) "log-level") = Some ("debug", true) /\
  option_map (fun f => (valueText (Val f), Changed f))
    (Lookup (Flags (fst (fst resolved))) "log-format") = Some ("auto", false) /\
  option_map Changed
    (Lookup (Flags (fst (fst resolved))) "grpc-enabled") = Some false.
Proof.
  repeat split.
Qed.

(** C4, as the claim has it, fails: APP_GRPC_ENABLED holds [maybe], which
    the boolean flag [grpc-enabled] rejects, and the hook returns nil. *)
Lemma SyncViperPreRunE_drops_coercion_error :
  IsBuiltinCommand resolveCommand = false /\
  Lookup (Flags resolveCommand) "grpc-enabled" = Some enabledFlag /\
  Changed enabledFlag = false /\
  @os_LookupEnv resolvePlatform
    (@envVar resolvePlatform "app" "grpc-enabled") = Some "maybe" /\
  snd (valueParse (Val enabledFlag) "maybe") =
    Some (Errorf "strconv.ParseBool: parsing maybe: invalid syntax") /\
  snd resolved = Ret None.
Proof.
  repeat split.
Qed.

(** ** Logging configuration: properties *)

Section Logging.
Context {P : Platform} {A : Accessors}.

Variables (flagPrefix : string) (prerunLevel : Level).
Variables (cmd : Command) (args : list string) (g : Globals).
Variables (format raw : string).

Hypothesis not_builtin : IsBuiltinCommand cmd = false.
Hypothesis format_read :
  MustGetString cmd (DefaultEmpty flagPrefix "log" ++ "-format") = Ret format.
Hypothesis level_read :
  MustGetString cmd (DefaultEmpty flagPrefix "log" ++ "-level") = Ret raw.

(** The hook, once both flags are read: the format decides the logger, the
    lower-cased level the rest. *)
Lemma ZeroLogPreRunE_run :
  let g1 :=
    if (format =? "human") || ((format =? "auto") && isatty_IsTerminal Stdout)
    then consoleLogger g else g in
  ZeroLogPreRunE flagPrefix prerunLevel cmd args g =
  match recognizedLevel (strings.ToLower raw) with
  | Some l =>
      (cmd,
       Msg (SetGlobalLevel g1 l)
         (report prerunLevel "new level" (strings.ToLower raw)
            "set log level"),
       Ret None)
  | None =>
      (cmd, g1,
       Ret (Some (Errorf ("unknown log level: " ++ strings.ToLower raw))))
  end.
Proof.
  unfold ZeroLogPreRunE. rewrite not_builtin, format_read, level_read.
  unfold recognizedLevel, recognizedLevels, levelNamed, consoleLogger, report.
  repeat match goal with
         | |- context [?s =? ?lit] =>
             lazymatch s with
             | strings.ToLower raw => destruct (s =? lit); [reflexivity|]
             end
         end.
  reflexivity.
Qed.

(** C5, as the code has it. When the lower-cased level is one of the seven
    recognized levels the hook returns nil and the global level is that
    level; otherwise it fails with an unknown-level error and the global
    level is as before, as is the rest of the process-wide state except
    that the format, which is applied first, may have switched the logger
    to the console writer. *)
Theorem ZeroLogPreRunE_level :
  exists g',
    fst (ZeroLogPreRunE flagPrefix prerunLevel cmd args g) = (cmd, g') /\
    match recognizedLevel (strings.ToLower raw) with
    | Some l =>
        snd (ZeroLogPreRunE flagPrefix prerunLevel cmd args g) = Ret None /\
        GlobalLevel g' = l
    | None =>
        snd (ZeroLogPreRunE flagPrefix prerunLevel cmd args g) =
          Ret (Some (Errorf ("unknown log level: " ++ strings.ToLower raw)))
        /\ GlobalLevel g' = GlobalLevel g
        /\ (g' = g \/ g' = consoleLogger g)
    end.
Proof.
  rewrite ZeroLogPreRunE_run.
  destruct (recognizedLevel (strings.ToLower raw)) as [l|].
  - eexists. split; [reflexivity|]. split; reflexivity.
  - eexists. split; [reflexivity|]. split; [reflexivity|].
    destruct ((format =? "human")
              || ((format =? "auto") && isatty_IsTerminal Stdout)).
    + split; [reflexivity|right; reflexivity].
    + split; [reflexivity|left; reflexivity].
Qed.

(** C6, as the code has it. A format other than [human] and [auto], be it
    [json] or any other text, raises no error and leaves the logger as it
    was: the hook does what the level alone decides. *)
Theorem ZeroLogPreRunE_format_not_validated :
  format <> "human" -> format <> "auto" ->
  ZeroLogPreRunE flagPrefix prerunLevel cmd args g =
  match recognizedLevel (strings.ToLower raw) with
  | Some l =>
      (cmd,
       Msg (SetGlobalLevel g l)
         (report prerunLevel "new level" (strings.ToLower raw)
            "set log level"),
       Ret None)
  | None =>
      (cmd, g,
       Ret (Some (Errorf ("unknown log level: " ++ strings.ToLower raw))))
  end.
Proof.
  intros Hh Ha. rewrite ZeroLogPreRunE_run.
  apply String.eqb_neq in Hh, Ha. rewrite Hh, Ha. reflexivity.
Qed.

End Logging.

Lemma ZeroLogPreRunE_level_witness :
  (exists g',
     fst (logRun "json" "warn") = (logCommand "json" "warn", g') /\
     snd (logRun "json" "warn") = Ret None /\
     GlobalLevel g' = WarnLevel) /\
  (exists g',
     fst (logRun "human" "bogus") = (logCommand "human" "bogus", g') /\
     snd (logRun "human" "bogus") =
       Ret (Some (Errorf "unknown log level: bogus")) /\
     GlobalLevel g' = GlobalLevel startGlobals /\
     (g' = startGlobals \/ g' = consoleLogger startGlobals)).
Proof.
  split.
  - exact (@ZeroLogPreRunE_level plainPlatform flagAccessors "" InfoLevel
             (logCommand "json" "warn") [] startGlobals "json" "warn"
             eq_refl eq_refl eq_refl).
  - exact (@ZeroLogPreRunE_level plainPlatform flagAccessors "" InfoLevel
             (logCommand "human" "bogus") [] startGlobals "human" "bogus"
             eq_refl eq_refl eq_refl).
Defined.

(** C5, as the claim has it, fails twice. With the format [human] the
    level [bogus] is refused, but the logger has been replaced by then; and
    [WARN], which is none of the seven names, is accepted as [warn]. *)
Lemma ZeroLogPreRunE_unknown_level_keeps_new_logger :
  (snd (logRun "human" "bogus") = Ret (Some (Errorf "unknown log level: bogus"))
   /\ log_Logger startGlobals = {| writer := JSONWriter Stderr |}
   /\ log_Logger (snd (fst (logRun "human" "bogus"))) =
        {| writer := ConsoleWriter Stdout |})
  /\
  (recognizedLevel "WARN" = None
   /\ snd (logRun "json" "WARN") = Ret None
   /\ GlobalLevel (snd (fst (logRun "json" "WARN"))) = WarnLevel).
Proof.
  repeat split.
Qed.

Lemma ZeroLogPreRunE_format_not_validated_witness :
  logRun "yaml" "bogus" =
  (logCommand "yaml" "bogus", startGlobals,
   Ret (Some (Errorf "unknown log level: bogus"))).
Proof.
  apply (@ZeroLogPreRunE_format_not_validated plainPlatform flagAccessors
           "" InfoLevel (logCommand "yaml" "bogus") [] startGlobals
           "yaml" "bogus" eq_refl eq_refl eq_refl);
    discriminate.
Defined.

(** C6, as the claim has it, fails: the format [xml] is none of auto, human
    and json, yet the hook returns nil and moves the global level from info
    to debug. *)
Lemma ZeroLogPreRunE_accepts_unknown_format :
  snd (logRun "xml" "debug") = Ret None /\
  GlobalLevel startGlobals = InfoLevel /\
  GlobalLevel (snd (fst (logRun "xml" "debug"))) = DebugLevel.
Proof.
  repeat split.
Qed.

(** ** Tracing configuration: properties *)

Section Tracing.
Context {P : Platform} {A : Accessors}.

Variables (flagPrefix : string) (prerunLevel : Level).
Variables (cmd : Command) (args : list string) (g : Globals).
Variable raw : string.

Hypothesis not_builtin : IsBuiltinCommand cmd = false.
Hypothesis provider_read :
  MustGetString cmd (DefaultEmpty flagPrefix "otel" ++ "-provider") = Ret raw.

(** C7, as the code has it. When the lower-cased provider is [none] the
    hook returns nil and only reports the provider to the log: no tracer
    provider or propagator is installed.  When the lower-cased provider is
    neither [none] nor [jaeger] the hook fails with an unknown-provider
    error and the process-wide state is as before. *)
Theorem OpenTelemetryPreRunE_provider :
  (strings.ToLower raw = "none" ->
   OpenTelemetryPreRunE flagPrefix prerunLevel cmd args g =
   (cmd,
    Msg g (report prerunLevel "new provider" "none" "set tracing provider"),
    Ret None)) /\
  (strings.ToLower raw <> "none" -> strings.ToLower raw <> "jaeger" ->
   OpenTelemetryPreRunE flagPrefix prerunLevel cmd args g =
   (cmd, g,
    Ret (Some (Errorf ("unknown tracing provider: " ++ strings.ToLower raw))))).
Proof.
  unfold OpenTelemetryPreRunE. rewrite not_builtin, provider_read. split.
  - intros ->. reflexivity.
  - intros Hn Hj. apply String.eqb_neq in Hn, Hj. rewrite Hn, Hj.
    reflexivity.
Qed.

End Tracing.

Lemma OpenTelemetryPreRunE_provider_witness :
  otelRun "none" =
    (hooksCommand "info" "none",
     Msg startGlobals
       (report InfoLevel "new provider" "none" "set tracing provider"),
     Ret None) /\
  otelRun "zipkin" =
    (hooksCommand "info" "zipkin", startGlobals,
     Ret (Some (Errorf "unknown tracing provider: zipkin"))).
Proof.
  split.
  - apply (proj1 (@OpenTelemetryPreRunE_provider plainPlatform flagAccessors
                    "" InfoLevel (hooksCommand "info" "none") []
                    startGlobals "none" eq_refl eq_refl)).
    reflexivity.
  - apply (proj2 (@OpenTelemetryPreRunE_provider plainPlatform flagAccessors
                    "" InfoLevel (hooksCommand "info" "zipkin") []
                    startGlobals "zipkin" eq_refl eq_refl));
      discriminate.
Defined.

(** The provider [none] installs nothing; an unknown provider fails and
    installs nothing. *)
Example otelRun_none_and_unknown :
  snd (otelRun "none") = Ret None /\
  otel_TracerProvider (snd (fst (otelRun "none"))) = None /\
  otel_TextMapPropagator (snd (fst (otelRun "none"))) = None /\
  otelRun "zipkin" =
    (hooksCommand "info" "zipkin", startGlobals,
     Ret (Some (Errorf "unknown tracing provider: zipkin"))).
Proof.
  repeat split.
Qed.

(** C7, as the claim has it, fails: the provider [NONE] is neither the text
    [none] nor the jaeger exporter, and the hook returns nil. *)
Lemma OpenTelemetryPreRunE_accepts_upper_case_none :
  "NONE" <> "none" /\ "NONE" <> "jaeger" /\
  snd (otelRun "NONE") = Ret None.
Proof.
  repeat split; discriminate.
Qed.

(** ** Case of the level and the provider: properties *)

Lemma lowerByte_idempotent c :
  strings.lowerByte (strings.lowerByte c) = strings.lowerByte c.
Proof.
  destruct c as [[] [] [] [] [] [] [] []]; reflexivity.
Qed.

(** Lower-casing a text of ASCII bytes twice is lower-casing it once. *)
Lemma ToLower_idempotent {P : Platform} s :
  isASCII s = true ->
  strings.ToLower (strings.ToLower s) = strings.ToLower s.
Proof.
  intros H. rewrite (ToLower_ascii s H).
  rewrite ToLower_ascii by (apply isASCII_lower; exact H).
  rewrite mapBytes_mapBytes. apply mapBytes_ext.
  apply lowerByte_idempotent.
Qed.

Section CaseInsensitive.
Context {P : Platform} {A : Accessors}.

Variables (flagPrefix : string) (prerunLevel : Level).
Variables (cmd cmd' : Command) (args : list string) (g : Globals).
Variable s : string.

Hypothesis same_kind : IsBuiltinCommand cmd = IsBuiltinCommand cmd'.
Hypothesis lowered_once :
  strings.ToLower (strings.ToLower s) = strings.ToLower s.

Lemma ZeroLogPreRunE_lower :
  MustGetString cmd (DefaultEmpty flagPrefix "log" ++ "-format") =
  MustGetString cmd' (DefaultEmpty flagPrefix "log" ++ "-format") ->
  MustGetString cmd (DefaultEmpty flagPrefix "log" ++ "-level") = Ret s ->
  MustGetString cmd' (DefaultEmpty flagPrefix "log" ++ "-level") =
    Ret (strings.ToLower s) ->
  snd (fst (ZeroLogPreRunE flagPrefix prerunLevel cmd args g)) =
  snd (fst (ZeroLogPreRunE flagPrefix prerunLevel cmd' args g)) /\
  snd (ZeroLogPreRunE flagPrefix prerunLevel cmd args g) =
  snd (ZeroLogPreRunE flagPrefix prerunLevel cmd' args g).
Proof.
  intros Hformat Hs Hs'. unfold ZeroLogPreRunE.
  rewrite <- same_kind, <- Hformat, Hs, Hs', lowered_once.
  destruct (IsBuiltinCommand cmd); [split; reflexivity|].
  destruct (MustGetString cmd _) as [format|]; [|split; reflexivity].
  repeat match goal with
         | |- context [strings.ToLower s =? ?lit] =>
             destruct (strings.ToLower s =? lit); [split; reflexivity|]
         end.
  split; reflexivity.
Qed.

Lemma OpenTelemetryPreRunE_lower :
  MustGetString cmd (DefaultEmpty flagPrefix "otel" ++ "-jaeger-endpoint") =
  MustGetString cmd' (DefaultEmpty flagPrefix "otel" ++ "-jaeger-endpoint") ->
  MustGetString cmd
    (DefaultEmpty flagPrefix "otel" ++ "-jaeger-service-name") =
  MustGetString cmd'
    (DefaultEmpty flagPrefix "otel" ++ "-jaeger-service-name") ->
  MustGetString cmd (DefaultEmpty flagPrefix "otel" ++ "-provider") = Ret s ->
  MustGetString cmd' (DefaultEmpty flagPrefix "otel" ++ "-provider") =
    Ret (strings.ToLower s) ->
  snd (fst (OpenTelemetryPreRunE flagPrefix prerunLevel cmd args g)) =
  snd (fst (OpenTelemetryPreRunE flagPrefix prerunLevel cmd' args g)) /\
  snd (OpenTelemetryPreRunE flagPrefix prerunLevel cmd args g) =
  snd (OpenTelemetryPreRunE flagPrefix prerunLevel cmd' args g).
Proof.
  intros Hendpoint Hservice Hs Hs'. unfold OpenTelemetryPreRunE.
  rewrite <- same_kind, <- Hendpoint, <- Hservice, Hs, Hs', lowered_once.
  destruct (IsBuiltinCommand cmd); [split; reflexivity|].
  destruct (strings.ToLower s =? "none"); [split; reflexivity|].
  destruct (strings.ToLower s =? "jaeger"); [|split; reflexivity].
  destruct (MustGetString cmd _) as [endpoint|]; [|split; reflexivity].
  destruct (MustGetString cmd _) as [serviceName|]; [|split; reflexivity].
  destruct (initJaegerTracer endpoint serviceName g). split; reflexivity.
Qed.

End CaseInsensitive.

Section CaseEffect.
Context {P : Platform} {A : Accessors}.

Variables (flagPrefix : string) (prerunLevel : Level).
Variables (cmd : Command) (args : list string) (g : Globals).

Hypothesis not_builtin : IsBuiltinCommand cmd = false.

Lemma ZeroLogPreRunE_sets_lowered format raw l :
  MustGetString cmd (DefaultEmpty flagPrefix "log" ++ "-format") =
    Ret format ->
  MustGetString cmd (DefaultEmpty flagPrefix "log" ++ "-level") = Ret raw ->
  recognizedLevel (strings.ToLower raw) = Some l ->
  snd (ZeroLogPreRunE flagPrefix prerunLevel cmd args g) = Ret None /\
  GlobalLevel (snd (fst (ZeroLogPreRunE flagPrefix prerunLevel cmd args g))) =
    l.
Proof.
  intros Hformat Hraw Hl.
  rewrite (ZeroLogPreRunE_run flagPrefix prerunLevel cmd args g format raw
             not_builtin Hformat Hraw), Hl.
  split; reflexivity.
Qed.

Lemma OpenTelemetryPreRunE_installs_lowered raw endpoint serviceName :
  MustGetString cmd (DefaultEmpty flagPrefix "otel" ++ "-provider") =
    Ret raw ->
  strings.ToLower raw = "jaeger" ->
  MustGetString cmd (DefaultEmpty flagPrefix "otel" ++ "-jaeger-endpoint") =
    Ret endpoint ->
  MustGetString cmd
    (DefaultEmpty flagPrefix "otel" ++ "-jaeger-service-name") =
    Ret serviceName ->
  jaeger_New endpoint = None ->
  OpenTelemetryPreRunE flagPrefix prerunLevel cmd args g =
  (cmd,
   SetTextMapPropagator
     (SetTracerProvider g (jaegerProvider endpoint serviceName))
     TraceContext,
   Ret None).
Proof.
  intros Hp Hj He Hs Hnew. unfold OpenTelemetryPreRunE.
  rewrite not_builtin, Hp, Hj, He, Hs. simpl. unfold initJaegerTracer.
  rewrite Hnew. reflexivity.
Qed.

End CaseEffect.

(** C10. The level and the provider are matched in lower case.  On two
    commands that differ only in that one holds a level (a provider) [s]
    and the other its lower-case form, [ZeroLogPreRunE]
    ([OpenTelemetryPreRunE]) leaves the same process-wide state and returns
    the same result, lower-casing twice being lower-casing once.  And what
    the hooks do is what the lower-case form asks for: a level whose
    lower-case form is a recognized level sets that level, as [WARN] sets
    warn, and a provider whose lower-case form is [jaeger], as [Jaeger] is,
    installs the jaeger exporter. *)
Theorem hooks_ignore_case {P : Platform} {A : Accessors}
    (logPrefix otelPrefix : string) (logLevel otelLevel : Level)
    (cmd cmd' : Command) (args : list string) (g : Globals)
    (lvl provider : string) :
  (IsBuiltinCommand cmd = IsBuiltinCommand cmd' ->
   strings.ToLower (strings.ToLower lvl) = strings.ToLower lvl ->
   MustGetString cmd (DefaultEmpty logPrefix "log" ++ "-format") =
   MustGetString cmd' (DefaultEmpty logPrefix "log" ++ "-format") ->
   MustGetString cmd (DefaultEmpty logPrefix "log" ++ "-level") = Ret lvl ->
   MustGetString cmd' (DefaultEmpty logPrefix "log" ++ "-level") =
     Ret (strings.ToLower lvl) ->
   snd (fst (ZeroLogPreRunE logPrefix logLevel cmd args g)) =
   snd (fst (ZeroLogPreRunE logPrefix logLevel cmd' args g)) /\
   snd (ZeroLogPreRunE logPrefix logLevel cmd args g) =
   snd (ZeroLogPreRunE logPrefix logLevel cmd' args g)) /\
  (IsBuiltinCommand cmd = IsBuiltinCommand cmd' ->
   strings.ToLower (strings.ToLower provider) = strings.ToLower provider ->
   MustGetString cmd (DefaultEmpty otelPrefix "otel" ++ "-jaeger-endpoint") =
   MustGetString cmd' (DefaultEmpty otelPrefix "otel" ++ "-jaeger-endpoint") ->
   MustGetString cmd
     (DefaultEmpty otelPrefix "otel" ++ "-jaeger-service-name") =
   MustGetString cmd'
     (DefaultEmpty otelPrefix "otel" ++ "-jaeger-service-name") ->
   MustGetString cmd (DefaultEmpty otelPrefix "otel" ++ "-provider") =
     Ret provider ->
   MustGetString cmd' (DefaultEmpty otelPrefix "otel" ++ "-provider") =
     Ret (strings.ToLower provider) ->
   snd (fst (OpenTelemetryPreRunE otelPrefix otelLevel cmd args g)) =
   snd (fst (OpenTelemetryPreRunE otelPrefix otelLevel cmd' args g)) /\
   snd (OpenTelemetryPreRunE otelPrefix otelLevel cmd args g) =
   snd (OpenTelemetryPreRunE otelPrefix otelLevel cmd' args g)) /\
  (forall format l,
   IsBuiltinCommand cmd = false ->
   MustGetString cmd (DefaultEmpty logPrefix "log" ++ "-format") =
     Ret format ->
   MustGetString cmd (DefaultEmpty logPrefix "log" ++ "-level") = Ret lvl ->
   recognizedLevel (strings.ToLower lvl) = Some l ->
   snd (ZeroLogPreRunE logPrefix logLevel cmd args g) = Ret None /\
   GlobalLevel (snd (fst (ZeroLogPreRunE logPrefix logLevel cmd args g))) =
     l) /\
  (forall endpoint serviceName,
   IsBuiltinCommand cmd = false ->
   MustGetString cmd (DefaultEmpty otelPrefix "otel" ++ "-provider") =
     Ret provider ->
   strings.ToLower provider = "jaeger" ->
   MustGetString cmd (DefaultEmpty otelPrefix "otel" ++ "-jaeger-endpoint") =
     Ret endpoint ->
   MustGetString cmd
     (DefaultEmpty otelPrefix "otel" ++ "-jaeger-service-name") =
     Ret serviceName ->
   jaeger_New endpoint = None ->
   OpenTelemetryPreRunE otelPrefix otelLevel cmd args g =
   (cmd,
    SetTextMapPropagator
      (SetTracerProvider g (jaegerProvider endpoint serviceName))
      TraceContext,
    Ret None)).
Proof.
  split; [|split; [|split]].
  - intros Hkind Hidem. apply ZeroLogPreRunE_lower; assumption.
  - intros Hkind Hidem. apply OpenTelemetryPreRunE_lower; assumption.
  - intros format l Hb. apply ZeroLogPreRunE_sets_lowered. exact Hb.
  - intros endpoint serviceName Hb.
    apply OpenTelemetryPreRunE_installs_lowered. exact Hb.
Qed.

(** [WARN] and [warn] leave the same state and result, and so do [Jaeger]
    and [jaeger]; [WARN] sets the warn level and [Jaeger] installs the
    jaeger exporter. *)
Lemma hooks_ignore_case_witness :
  (snd (fst (@ZeroLogPreRunE plainPlatform flagAccessors "" InfoLevel
               (hooksCommand "WARN" "Jaeger") [] startGlobals)) =
   snd (fst (@ZeroLogPreRunE plainPlatform flagAccessors "" InfoLevel
               (hooksCommand "warn" "jaeger") [] startGlobals)) /\
   snd (@ZeroLogPreRunE plainPlatform flagAccessors "" InfoLevel
          (hooksCommand "WARN" "Jaeger") [] startGlobals) =
   snd (@ZeroLogPreRunE plainPlatform flagAccessors "" InfoLevel
          (hooksCommand "warn" "jaeger") [] startGlobals)) /\
  (snd (fst (@OpenTelemetryPreRunE plainPlatform flagAccessors "" InfoLevel
               (hooksCommand "WARN" "Jaeger") [] startGlobals)) =
   snd (fst (@OpenTelemetryPreRunE plainPlatform flagAccessors "" InfoLevel
               (hooksCommand "warn" "jaeger") [] startGlobals)) /\
   snd (@OpenTelemetryPreRunE plainPlatform flagAccessors "" InfoLevel
          (hooksCommand "WARN" "Jaeger") [] startGlobals) =
   snd (@OpenTelemetryPreRunE plainPlatform flagAccessors "" InfoLevel
          (hooksCommand "warn" "jaeger") [] startGlobals)) /\
  (snd (@ZeroLogPreRunE plainPlatform flagAccessors "" InfoLevel
          (hooksCommand "WARN" "Jaeger") [] startGlobals) = Ret None /\
   GlobalLevel
     (snd (fst (@ZeroLogPreRunE plainPlatform flagAccessors "" InfoLevel
                  (hooksCommand "WARN" "Jaeger") [] startGlobals))) =
     WarnLevel) /\
  @OpenTelemetryPreRunE plainPlatform flagAccessors "" InfoLevel
    (hooksCommand "WARN" "Jaeger") [] startGlobals =
  (hooksCommand "WARN" "Jaeger",
   SetTextMapPropagator
     (SetTracerProvider startGlobals
        (jaegerProvider "http://jaeger:14268/api/traces" "example"))
     TraceContext,
   Ret None).
Proof.
  pose proof (@hooks_ignore_case plainPlatform flagAccessors "" ""
                InfoLevel InfoLevel
                (hooksCommand "WARN" "Jaeger") (hooksCommand "warn" "jaeger")
                [] startGlobals "WARN" "Jaeger")
    as (Hlog & Hotel & Hset & Hinstall).
  split; [|split; [|split]].
  - exact (Hlog eq_refl (@ToLower_idempotent plainPlatform "WARN" eq_refl)
             eq_refl eq_refl eq_refl).
  - exact (Hotel eq_refl
             (@ToLower_idempotent plainPlatform "Jaeger" eq_refl)
             eq_refl eq_refl eq_refl eq_refl).
  - exact (Hset "auto" WarnLevel eq_refl eq_refl eq_refl eq_refl).
  - exact (Hinstall "http://jaeger:14268/api/traces" "example"
             eq_refl eq_refl eq_refl eq_refl eq_refl eq_refl).
Defined.

(** [WARN] sets the warn level and [Jaeger] installs the jaeger exporter. *)
Example upper_case_level_and_provider :
  GlobalLevel
    (snd (fst (@ZeroLogPreRunE plainPlatform flagAccessors "" InfoLevel
                 (hooksCommand "WARN" "Jaeger") [] startGlobals))) =
    WarnLevel /\
  otel_TracerProvider
    (snd (fst (@OpenTelemetryPreRunE plainPlatform flagAccessors "" InfoLevel
                 (hooksCommand "WARN" "Jaeger") [] startGlobals))) =
    Some {| sampler := AlwaysSample;
            spanProcessor :=
              BatchSpanProcessor
                {| collectorEndpoint := "http://jaeger:14268/api/traces" |};
            resourceServiceName := "example" |}.
Proof.
  split; reflexivity.
Qed.

(** The chained hooks: resolution puts the text of APP_LOG_LEVEL into the
    level flag, the logging hook refuses it, and the tracing hook is not
    run, so that no tracer is installed although jaeger was asked for. *)
Example stackRun_stops_at_logging :
  snd stackRun = Ret (Some (Errorf "unknown log level: verbose")) /\
  option_map (fun f => valueText (Val f))
    (Lookup (Flags (fst (fst stackRun))) "log-level") = Some "verbose" /\
  GlobalLevel (snd (fst stackRun)) = InfoLevel /\
  otel_TracerProvider (snd (fst stackRun)) = None.
Proof.
  repeat split.
Qed.

(** ** Server bootstrap: properties *)

Section GrpcConstruction.
Context {P : Platform} {A : Accessors}.

Variables (cmd : Command) (flagPrefix : string) (opts : list ServerOption).
Variable g : Globals.
Variables (age : Duration) (certPath keyPath : string).

Hypothesis age_read :
  MustGetDuration cmd (DefaultEmpty flagPrefix "grpc" ++ "-max-conn-age") =
    Ret age.
Hypothesis cert_read :
  MustGetStringExpanded cmd
    (DefaultEmpty flagPrefix "grpc" ++ "-tls-cert-path") = Ret certPath.
Hypothesis key_read :
  MustGetStringExpanded cmd
    (DefaultEmpty flagPrefix "grpc" ++ "-tls-key-path") = Ret keyPath.

Lemma GrpcServerFromFlags_pair :
  GrpcServerFromFlags cmd flagPrefix opts g =
  if partialPair certPath keyPath then
    (g, Ret (None, Some (pairingError "gRPC" (DefaultEmpty flagPrefix "grpc"))))
  else if certPath =? "" then
    (Msg g (plaintextWarning "grpc" (DefaultEmpty flagPrefix "grpc")),
     Ret (Some (grpc_NewServer (opts ++ [KeepaliveParams age])), None))
  else
    match credentials_NewServerTLSFromFile certPath keyPath with
    | Some err => (g, Ret (None, Some err))
    | None =>
        (g, Ret (Some (grpc_NewServer
                         (opts ++ [KeepaliveParams age;
                                   Creds certPath keyPath])), None))
    end.
Proof.
  unfold GrpcServerFromFlags.
  rewrite age_read, cert_read, key_read.
  unfold partialPair, pairingError, plaintextWarning.
  destruct (certPath =? ""), (keyPath =? ""); simpl; try reflexivity.
  destruct (credentials_NewServerTLSFromFile certPath keyPath);
    [reflexivity|].
  rewrite <- app_assoc. reflexivity.
Qed.

End GrpcConstruction.

Section HttpListening.
Context {P : Platform} {A : Accessors}.

Variables (cmd : Command) (flagPrefix : string) (srv : http_Server).
Variable g : Globals.
Variables (certPath keyPath : string).

Hypothesis enabled_read : MustGetBool cmd (flagPrefix ++ "-enabled") = Ret true.
Hypothesis cert_read :
  MustGetStringExpanded cmd (flagPrefix ++ "-tls-cert-path") = Ret certPath.
Hypothesis key_read :
  MustGetStringExpanded cmd (flagPrefix ++ "-tls-key-path") = Ret keyPath.

Lemma HttpListenFromFlags_pair :
  HttpListenFromFlags cmd flagPrefix srv g =
  if partialPair certPath keyPath then
    (g, Ret (Some (pairingError "http" flagPrefix)))
  else if certPath =? "" then
    (call (Msg g (plaintextWarning "http" flagPrefix)) (ListenAndServe srv),
     Ret (served "failed while serving http: " (srv_ListenAndServe srv)))
  else
    (call g (ListenAndServeTLS srv certPath keyPath),
     Ret (served "failed while serving https: "
            (srv_ListenAndServeTLS srv certPath keyPath))).
Proof.
  unfold HttpListenFromFlags.
  rewrite enabled_read, cert_read, key_read.
  unfold partialPair, pairingError, plaintextWarning, served.
  destruct (certPath =? ""), (keyPath =? ""); simpl; try reflexivity.
  - destruct (srv_ListenAndServe srv) as [err|]; [|reflexivity].
    destruct (isErrServerClosed err); reflexivity.
  - destruct (srv_ListenAndServeTLS srv certPath keyPath) as [err|];
      [|reflexivity].
    destruct (isErrServerClosed err); reflexivity.
Qed.

End HttpListening.

Section GrpcListening.
Context {P : Platform} {A : Accessors}.

Variables (cmd : Command) (flagPrefix : string) (srv : grpc_Server).
Variable g : Globals.
Variable addr : string.

Hypothesis enabled_read :
  MustGetBool cmd (DefaultEmpty flagPrefix "grpc" ++ "-enabled") = Ret true.
Hypothesis addr_read :
  MustGetStringExpanded cmd (DefaultEmpty flagPrefix "grpc" ++ "-addr") =
    Ret addr.

Lemma GrpcListenFromFlags_serve :
  net_Listen "tcp" addr = None ->
  GrpcListenFromFlags cmd flagPrefix srv g =
  (call (call g (Listen "tcp" addr)) (Serve srv addr),
   Ret (option_map (Wrapf "failed to serve gRPC: ") (srv_Serve srv addr))).
Proof.
  intros Hl. unfold GrpcListenFromFlags.
  rewrite enabled_read, addr_read, Hl.
  destruct (srv_Serve srv addr); reflexivity.
Qed.

End GrpcListening.

(** C2, as the code has it. [GrpcServerFromFlags] fails with the
    must-provide-both error when exactly one path is set, builds a
    plaintext server (and warns) when both are empty, and when both are set
    loads the pair and builds a server with these credentials, or fails with
    the error of loading.  [HttpServerFromFlags] reads the address only and
    always builds the server.  For HTTP the pair is judged by
    [HttpListenFromFlags], on an enabled server: exactly one path fails with
    the must-provide-both error before any serve call, both empty serve in
    plaintext, both set serve with TLS.  Each function is taken with the
    flags it reads and no others. *)
Theorem credential_pair {P : Platform} {A : Accessors}
    (cmd : Command) (g : Globals)
    (grpcPrefix : string) (opts : list ServerOption)
    (httpPrefix : string) (srv : http_Server) :
  (forall age grpcCert grpcKey,
   MustGetDuration cmd (DefaultEmpty grpcPrefix "grpc" ++ "-max-conn-age") =
     Ret age ->
   MustGetStringExpanded cmd
     (DefaultEmpty grpcPrefix "grpc" ++ "-tls-cert-path") = Ret grpcCert ->
   MustGetStringExpanded cmd
     (DefaultEmpty grpcPrefix "grpc" ++ "-tls-key-path") = Ret grpcKey ->
   GrpcServerFromFlags cmd grpcPrefix opts g =
     (if partialPair grpcCert grpcKey then
        (g, Ret (None,
                 Some (pairingError "gRPC" (DefaultEmpty grpcPrefix "grpc"))))
      else if grpcCert =? "" then
        (Msg g (plaintextWarning "grpc" (DefaultEmpty grpcPrefix "grpc")),
         Ret (Some (grpc_NewServer (opts ++ [KeepaliveParams age])), None))
      else
        match credentials_NewServerTLSFromFile grpcCert grpcKey with
        | Some err => (g, Ret (None, Some err))
        | None =>
            (g, Ret (Some (grpc_NewServer
                             (opts ++ [KeepaliveParams age;
                                       Creds grpcCert grpcKey])), None))
        end)) /\
  (forall httpAddr,
   MustGetStringExpanded cmd (DefaultEmpty httpPrefix "http" ++ "-addr") =
     Ret httpAddr ->
   HttpServerFromFlags cmd httpPrefix = Ret {| Addr := httpAddr |}) /\
  (forall httpCert httpKey,
   MustGetBool cmd (httpPrefix ++ "-enabled") = Ret true ->
   MustGetStringExpanded cmd (httpPrefix ++ "-tls-cert-path") =
     Ret httpCert ->
   MustGetStringExpanded cmd (httpPrefix ++ "-tls-key-path") = Ret httpKey ->
   HttpListenFromFlags cmd httpPrefix srv g =
     (if partialPair httpCert httpKey then
        (g, Ret (Some (pairingError "http" httpPrefix)))
      else if httpCert =? "" then
        (call (Msg g (plaintextWarning "http" httpPrefix))
           (ListenAndServe srv),
         Ret (served "failed while serving http: "
                (srv_ListenAndServe srv)))
      else
        (call g (ListenAndServeTLS srv httpCert httpKey),
         Ret (served "failed while serving https: "
                (srv_ListenAndServeTLS srv httpCert httpKey))))).
Proof.
  split; [|split].
  - intros age grpcCert grpcKey Hage Hgc Hgk.
    apply GrpcServerFromFlags_pair; assumption.
  - intros httpAddr Haddr. unfold HttpServerFromFlags. rewrite Haddr.
    reflexivity.
  - intros httpCert httpKey Hen Hhc Hhk.
    apply HttpListenFromFlags_pair; assumption.
Qed.

(** C8. With the enabled flag false both listen functions return nil at
    once and leave the process-wide state, the record of network calls
    included, as it was, whatever the other flags hold. *)
Theorem listen_disabled {P : Platform} {A : Accessors}
    (cmd : Command) (g : Globals)
    (grpcPrefix : string) (grpcSrv : grpc_Server)
    (httpPrefix : string) (httpSrv : http_Server) :
  (MustGetBool cmd (DefaultEmpty grpcPrefix "grpc" ++ "-enabled") = Ret false ->
   GrpcListenFromFlags cmd grpcPrefix grpcSrv g = (g, Ret None)) /\
  (MustGetBool cmd (httpPrefix ++ "-enabled") = Ret false ->
   HttpListenFromFlags cmd httpPrefix httpSrv g = (g, Ret None)).
Proof.
  split; intros H.
  - unfold GrpcListenFromFlags. rewrite H. reflexivity.
  - unfold HttpListenFromFlags. rewrite H. reflexivity.
Qed.

(** C9. Once it serves, a listen function returns nil when the serve call
    ends with the clean shutdown of its server, which grpc's [Serve]
    reports by returning nil and the serve calls of net/http by the error
    [http.ErrServerClosed], and it returns any other error of the serve
    call wrapped as a failure to serve.  Each function is taken with the
    flags it reads and no others. *)
Theorem serve_result {P : Platform} {A : Accessors}
    (cmd : Command) (g : Globals)
    (grpcPrefix : string) (grpcSrv : grpc_Server)
    (httpPrefix : string) (httpSrv : http_Server) :
  (forall addr,
   MustGetBool cmd (DefaultEmpty grpcPrefix "grpc" ++ "-enabled") =
     Ret true ->
   MustGetStringExpanded cmd (DefaultEmpty grpcPrefix "grpc" ++ "-addr") =
     Ret addr ->
   net_Listen "tcp" addr = None ->
   (srv_Serve grpcSrv addr = None ->
    snd (GrpcListenFromFlags cmd grpcPrefix grpcSrv g) = Ret None) /\
   (forall err, srv_Serve grpcSrv addr = Some err ->
    snd (GrpcListenFromFlags cmd grpcPrefix grpcSrv g) =
    Ret (Some (Wrapf "failed to serve gRPC: " err)))) /\
  (forall certPath keyPath,
   MustGetBool cmd (httpPrefix ++ "-enabled") = Ret true ->
   MustGetStringExpanded cmd (httpPrefix ++ "-tls-cert-path") =
     Ret certPath ->
   MustGetStringExpanded cmd (httpPrefix ++ "-tls-key-path") = Ret keyPath ->
   partialPair certPath keyPath = false ->
   let ended :=
     if certPath =? "" then srv_ListenAndServe httpSrv
     else srv_ListenAndServeTLS httpSrv certPath keyPath in
   let context :=
     if certPath =? "" then "failed while serving http: "
     else "failed while serving https: " in
   (ended = Some ErrServerClosed ->
    snd (HttpListenFromFlags cmd httpPrefix httpSrv g) = Ret None) /\
   (forall err, ended = Some err -> err <> ErrServerClosed ->
    snd (HttpListenFromFlags cmd httpPrefix httpSrv g) =
    Ret (Some (Wrapf context err)))).
Proof.
  split.
  - intros addr Hen Haddr Hl.
    rewrite (GrpcListenFromFlags_serve _ _ _ _ _ Hen Haddr Hl). simpl.
    split.
    + intros ->. reflexivity.
    + intros err ->. reflexivity.
  - intros certPath keyPath Hhen Hc Hk Hpair.
    rewrite (HttpListenFromFlags_pair _ _ _ _ _ _ Hhen Hc Hk), Hpair.
    destruct (certPath =? ""); simpl; split.
    + intros ->. reflexivity.
    + intros err -> Hne. destruct err; try reflexivity. contradiction.
    + intros ->. reflexivity.
    + intros err -> Hne. destruct err; try reflexivity. contradiction.
Qed.

Lemma credential_pair_witness :
  @GrpcServerFromFlags plainPlatform flagAccessors
    (serverCommand false "cert.pem" "") "" [] startGlobals =
    (startGlobals, Ret (None, Some (pairingError "gRPC" "grpc"))) /\
  @HttpServerFromFlags flagAccessors (serverCommand false "cert.pem" "") "" =
    Ret {| Addr := ":0" |} /\
  @HttpListenFromFlags plainPlatform flagAccessors
    (serverCommand true "cert.pem" "") "http" exampleHttpServer startGlobals =
    (startGlobals, Ret (Some (pairingError "http" "http"))).
Proof.
  split; [|split].
  - exact (proj1 (@credential_pair plainPlatform flagAccessors
                    (serverCommand false "cert.pem" "") startGlobals
                    "" [] "http" exampleHttpServer)
             30000000000%Z "cert.pem" "" eq_refl eq_refl eq_refl).
  - exact (proj1 (proj2 (@credential_pair plainPlatform flagAccessors
                           (serverCommand false "cert.pem" "") startGlobals
                           "" [] "" exampleHttpServer))
             ":0" eq_refl).
  - exact (proj2 (proj2 (@credential_pair plainPlatform flagAccessors
                           (serverCommand true "cert.pem" "") startGlobals
                           "" [] "http" exampleHttpServer))
             "cert.pem" "" eq_refl eq_refl eq_refl).
Defined.

(** Both paths empty: a plaintext gRPC server with the keepalive option,
    and a warning; both paths set: a server with the credentials added. *)
Example GrpcServerFromFlags_plaintext_and_tls :
  @GrpcServerFromFlags plainPlatform flagAccessors
    (serverCommand true "" "") "" [OtherOption "interceptor"] startGlobals =
    (Msg startGlobals (plaintextWarning "grpc" "grpc"),
     Ret (Some (grpc_NewServer [OtherOption "interceptor";
                                KeepaliveParams 30000000000%Z]), None)) /\
  @GrpcServerFromFlags plainPlatform flagAccessors
    (serverCommand true "cert.pem" "key.pem") "" [] startGlobals =
    (startGlobals,
     Ret (Some (grpc_NewServer [KeepaliveParams 30000000000%Z;
                                Creds "cert.pem" "key.pem"]), None)).
Proof.
  split; reflexivity.
Qed.

(** C2, as the claim has it, fails for HTTP: with only the certificate
    path set, constructing the server succeeds, and when the server is not
    enabled listening returns nil as well. *)
Lemma HttpServerFromFlags_ignores_partial_pair :
  partialPair "cert.pem" "" = true /\
  @HttpServerFromFlags flagAccessors (serverCommand true "cert.pem" "")
    "http" = Ret {| Addr := ":0" |} /\
  @HttpListenFromFlags plainPlatform flagAccessors
    (serverCommand false "cert.pem" "") "http" exampleHttpServer
    startGlobals = (startGlobals, Ret None).
Proof.
  repeat split.
Qed.

Lemma listen_disabled_witness :
  partialPair "cert.pem" "" = true /\
  @GrpcListenFromFlags plainPlatform flagAccessors
    (serverCommand false "cert.pem" "") "" exampleServer startGlobals =
    (startGlobals, Ret None) /\
  @HttpListenFromFlags plainPlatform flagAccessors
    (serverCommand false "cert.pem" "") "http" exampleHttpServer
    startGlobals = (startGlobals, Ret None).
Proof.
  pose proof (@listen_disabled plainPlatform flagAccessors
                (serverCommand false "cert.pem" "") startGlobals
                "" exampleServer "http" exampleHttpServer) as [Hg Hh].
  split; [reflexivity|]. split.
  - exact (Hg eq_refl).
  - exact (Hh eq_refl).
Defined.

(** An enabled server on [:0] does touch the network. *)
Example GrpcListenFromFlags_enabled_binds :
  network (fst (@GrpcListenFromFlags plainPlatform flagAccessors
                  (serverCommand true "" "") "" exampleServer startGlobals)) =
  [Listen "tcp" ":0"; Serve exampleServer ":0"].
Proof.
  reflexivity.
Qed.

(** On a command whose HTTP server is not enabled the result of the gRPC
    serve call is passed on: nil as nil, an error wrapped.  On a command
    whose gRPC server is not enabled the closed signal of the HTTP server
    is no failure, another error is. *)
Lemma serve_result_witness :
  snd (@GrpcListenFromFlags plainPlatform flagAccessors
         (serveCommand (serverFlags "grpc" true "" "")) "" exampleServer
         startGlobals) = Ret None /\
  snd (@GrpcListenFromFlags brokenPlatform flagAccessors
         (serveCommand (serverFlags "grpc" true "" "")) "" exampleServer
         startGlobals) =
    Ret (Some (Wrapf "failed to serve gRPC: "
                 (Errorf "accept: too many open files"))) /\
  snd (@HttpListenFromFlags closedPlatform flagAccessors
         (serveCommand (serverFlags "http" true "" "")) "http"
         exampleHttpServer startGlobals) = Ret None /\
  snd (@HttpListenFromFlags brokenPlatform flagAccessors
         (serveCommand (serverFlags "http" true "" "")) "http"
         exampleHttpServer startGlobals) =
    Ret (Some (Wrapf "failed while serving http: "
                 (Errorf "accept: too many open files"))).
Proof.
  split; [|split; [|split]].
  - apply (proj1 (proj1 (@serve_result plainPlatform flagAccessors
                           (serveCommand (serverFlags "grpc" true "" ""))
                           startGlobals "" exampleServer "http"
                           exampleHttpServer)
                    ":0" eq_refl eq_refl eq_refl)).
    reflexivity.
  - apply (proj2 (proj1 (@serve_result brokenPlatform flagAccessors
                           (serveCommand (serverFlags "grpc" true "" ""))
                           startGlobals "" exampleServer "http"
                           exampleHttpServer)
                    ":0" eq_refl eq_refl eq_refl)).
    reflexivity.
  - apply (proj1 (proj2 (@serve_result closedPlatform flagAccessors
                           (serveCommand (serverFlags "http" true "" ""))
                           startGlobals "" exampleServer "http"
                           exampleHttpServer)
                    "" "" eq_refl eq_refl eq_refl eq_refl)).
    reflexivity.
  - apply (proj2 (proj2 (@serve_result brokenPlatform flagAccessors
                           (serveCommand (serverFlags "http" true "" ""))
                           startGlobals "" exampleServer "http"
                           exampleHttpServer)
                    "" "" eq_refl eq_refl eq_refl eq_refl)).
    + reflexivity.
    + discriminate.
Defined.

(** ** Registration: properties *)

Lemma Lookup_insertFlag f fs : forall n,
  Lookup fs (Name f) = None ->
  Lookup (insertFlag f fs) n = if Name f =? n then Some f else Lookup fs n.
Proof.
  induction fs as [|g rest IH]; intros n Hfresh; simpl; [reflexivity|].
  simpl in Hfresh. destruct (Name g =? Name f) eqn:Egf; [discriminate|].
  destruct (String.leb (Name g) (Name f)); simpl; [|reflexivity].
  rewrite (IH n Hfresh).
  destruct (Name g =? n) eqn:Egn; [|reflexivity].
  apply String.eqb_eq in Egn. subst n.
  rewrite String.eqb_sym, Egf. reflexivity.
Qed.

Lemma In_insertFlag f fs : forall n,
  In n (map Name (insertFlag f fs)) <-> n = Name f \/ In n (map Name fs).
Proof.
  induction fs as [|g rest IH]; intros n; simpl.
  - intuition.
  - destruct (String.leb (Name g) (Name f)); simpl.
    + rewrite IH. intuition.
    + intuition.
Qed.

Lemma NoDup_insertFlag f fs :
  Lookup fs (Name f) = None ->
  NoDup (map Name fs) -> NoDup (map Name (insertFlag f fs)).
Proof.
  induction fs as [|g rest IH]; intros Hfresh Hnd; simpl.
  - constructor; [intros []|constructor].
  - simpl in Hfresh. destruct (Name g =? Name f) eqn:Egf; [discriminate|].
    apply String.eqb_neq in Egf.
    inversion Hnd as [|? ? Hg Hrest]; subst.
    destruct (String.leb (Name g) (Name f)); simpl.
    + constructor.
      * rewrite In_insertFlag. intros [E|H]; [congruence|contradiction].
      * apply IH; assumption.
    + constructor; [|exact Hnd].
      simpl. intros [E|H]; [congruence|].
      destruct (Lookup_In _ _ H) as [f' Hf']. congruence.
Qed.

Lemma addAll_defines new : forall fs,
  NoDup (map Name new) ->
  Forall (fun f => Lookup fs (Name f) = None) new ->
  exists fs', addAll fs new = Ret fs' /\ Defines fs fs' new.
Proof.
  induction new as [|f rest IH]; intros fs Hnd Hfresh; simpl.
  - exists fs. split; [reflexivity|].
    split; [intros f []|split; [reflexivity|auto]].
  - inversion Hnd as [|? ? Hf Hrest]; subst.
    inversion Hfresh as [|? ? Hff Hfrest]; subst.
    unfold AddFlag. rewrite Hff. simpl.
    destruct (IH (insertFlag f fs) Hrest) as (fs' & Hrun & Hnew & Hold & Hu).
    { apply Forall_forall. intros f' Hin.
      rewrite Lookup_insertFlag by exact Hff.
      destruct (Name f =? Name f') eqn:E.
      - apply String.eqb_eq in E. exfalso. apply Hf. rewrite E.
        apply in_map. exact Hin.
      - rewrite Forall_forall in Hfrest. apply Hfrest. exact Hin. }
    exists fs'. split; [exact Hrun|]. split; [|split].
    + intros f' [<-|Hin]; [|apply Hnew; exact Hin].
      rewrite (Hold _ Hf), Lookup_insertFlag by exact Hff.
      rewrite String.eqb_refl. reflexivity.
    + intros n Hn. rewrite Hold by (intros H; apply Hn; right; exact H).
      rewrite Lookup_insertFlag by exact Hff.
      destruct (Name f =? n) eqn:E; [|reflexivity].
      apply String.eqb_eq in E. exfalso. apply Hn. left. exact E.
    + intros H. apply Hu. apply NoDup_insertFlag; assumption.
Qed.

Lemma addAll_clash new : forall fs,
  Exists (fun f => Lookup fs (Name f) <> None) new ->
  addAll fs new = Panic.
Proof.
  induction new as [|f rest IH]; intros fs Hclash; simpl.
  - inversion Hclash.
  - unfold AddFlag. destruct (Lookup fs (Name f)) as [g|] eqn:Hf;
      [reflexivity|]. simpl.
    inversion Hclash as [? ? H|? ? H]; subst; [congruence|].
    apply IH. apply Exists_exists. apply Exists_exists in H.
    destruct H as (f' & Hin & Hdef). exists f'. split; [exact Hin|].
    rewrite Lookup_insertFlag by exact Hf.
    destruct (Name f =? Name f'); [discriminate|exact Hdef].
Qed.

Lemma append_injective p : forall a b, p ++ a = p ++ b -> a = b.
Proof.
  induction p as [|c p IH]; simpl; intros a b H; [exact H|].
  inversion H. auto.
Qed.

Lemma NoDup_prefixed p suffixes :
  NoDup suffixes -> NoDup (map (fun s => p ++ s) suffixes).
Proof.
  induction 1 as [|s rest Hs Hrest IH]; simpl; constructor; [|exact IH].
  rewrite in_map_iff. intros (s' & E & Hin).
  apply append_injective in E. subst s'. contradiction.
Qed.

Ltac suffixes_distinct :=
  repeat constructor; simpl; intuition discriminate.

Ltac as_addAll :=
  unfold stringFlag, boolFlag, valueText;
  try change (30 * Second)%Z with 30000000000%Z;
  simpl;
  repeat match goal with
         | |- context [AddFlag ?fs ?f] => destruct (AddFlag fs f); simpl
         end;
  reflexivity.

Section RegistrationFacts.
Context {R : GoRuntime}.

Lemma RegisterZeroLogFlags_addAll flags flagPrefix :
  RegisterZeroLogFlags flags flagPrefix =
  addAll flags (zerologFlags (DefaultEmpty flagPrefix "log")).
Proof.
  unfold RegisterZeroLogFlags, FlagSet_String, zerologFlags. as_addAll.
Qed.

Lemma RegisterOpenTelemetryFlags_addAll flags flagPrefix serviceName bi :
  debug_ReadBuildInfo = Some bi ->
  RegisterOpenTelemetryFlags flags flagPrefix serviceName =
  addAll flags (otelFlags (DefaultEmpty flagPrefix "otel")
                  (DefaultEmpty serviceName (Main_Path bi))).
Proof.
  intros Hbi.
  unfold RegisterOpenTelemetryFlags, FlagSet_String, otelFlags.
  rewrite Hbi. as_addAll.
Qed.

Lemma RegisterGrpcServerFlags_addAll flags flagPrefix serviceName defaultAddr
    defaultEnabled :
  RegisterGrpcServerFlags flags flagPrefix serviceName defaultAddr
    defaultEnabled =
  addAll flags (grpcFlags (DefaultEmpty flagPrefix "grpc")
                  (DefaultEmpty defaultAddr ":50051") defaultEnabled).
Proof.
  unfold RegisterGrpcServerFlags, FlagSet_String, FlagSet_Bool,
    FlagSet_Duration, grpcFlags.
  as_addAll.
Qed.

Lemma RegisterHttpServerFlags_addAll flags flagPrefix serviceName defaultAddr
    defaultEnabled :
  RegisterHttpServerFlags flags flagPrefix serviceName defaultAddr
    defaultEnabled =
  addAll flags (httpFlags (DefaultEmpty flagPrefix "http")
                  (DefaultEmpty defaultAddr ":8443") defaultEnabled).
Proof.
  unfold RegisterHttpServerFlags, FlagSet_String, FlagSet_Bool, httpFlags.
  as_addAll.
Qed.

Lemma zerologFlags_NoDup p : NoDup (map Name (zerologFlags p)).
Proof.
  apply (NoDup_prefixed p ["-level"; "-format"]). suffixes_distinct.
Qed.

Lemma otelFlags_NoDup p s : NoDup (map Name (otelFlags p s)).
Proof.
  apply (NoDup_prefixed p
           ["-provider"; "-jaeger-endpoint"; "-jaeger-service-name"]).
  suffixes_distinct.
Qed.

Lemma grpcFlags_NoDup p a e : NoDup (map Name (grpcFlags p a e)).
Proof.
  apply (NoDup_prefixed p
           ["-addr"; "-tls-cert-path"; "-tls-key-path"; "-max-conn-age";
            "-enabled"]).
  suffixes_distinct.
Qed.

Lemma httpFlags_NoDup p a e : NoDup (map Name (httpFlags p a e)).
Proof.
  apply (NoDup_prefixed p
           ["-addr"; "-tls-cert-path"; "-tls-key-path"; "-enabled"]).
  suffixes_distinct.
Qed.

End RegistrationFacts.

Lemma addAll_outcome new fs :
  NoDup (map Name new) ->
  (Forall (fun f => Lookup fs (Name f) = None) new ->
   exists fs', addAll fs new = Ret fs' /\ Defines fs fs' new) /\
  (Exists (fun f => Lookup fs (Name f) <> None) new ->
   addAll fs new = Panic).
Proof.
  intros Hnd. split.
  - apply addAll_defines. exact Hnd.
  - apply addAll_clash.
Qed.

Section RegistrationOutcome.
Context {R : GoRuntime}.

(** X1. [RegisterZeroLogFlags] defines the level flag with default [info]
    and the format flag with default [auto] under the prefix ([log] when
    empty), both unchanged, and leaves every other flag as it was; when one
    of the two names is taken it panics. *)
Theorem RegisterZeroLogFlags_defines (flags : FlagSet) (flagPrefix : string) :
  (Forall (fun f => Lookup flags (Name f) = None)
     (zerologFlags (DefaultEmpty flagPrefix "log")) ->
   exists flags',
     RegisterZeroLogFlags flags flagPrefix = Ret flags' /\
     Defines flags flags' (zerologFlags (DefaultEmpty flagPrefix "log"))) /\
  (Exists (fun f => Lookup flags (Name f) <> None)
     (zerologFlags (DefaultEmpty flagPrefix "log")) ->
   RegisterZeroLogFlags flags flagPrefix = Panic).
Proof.
  rewrite RegisterZeroLogFlags_addAll.
  apply addAll_outcome, zerologFlags_NoDup.
Qed.

(** X2. Without build information [RegisterOpenTelemetryFlags] panics,
    whatever its arguments.  With it, the function defines the provider
    flag with default [none], the endpoint flag and the service-name flag,
    whose default is the given service name or, when that is empty, the
    path of the main module; when one of the names is taken it panics. *)
Theorem RegisterOpenTelemetryFlags_defines (flags : FlagSet)
    (flagPrefix serviceName : string) :
  (debug_ReadBuildInfo = None ->
   RegisterOpenTelemetryFlags flags flagPrefix serviceName = Panic) /\
  (forall bi, debug_ReadBuildInfo = Some bi ->
   (Forall (fun f => Lookup flags (Name f) = None)
      (otelFlags (DefaultEmpty flagPrefix "otel")
         (DefaultEmpty serviceName (Main_Path bi))) ->
    exists flags',
      RegisterOpenTelemetryFlags flags flagPrefix serviceName = Ret flags' /\
      Defines flags flags'
        (otelFlags (DefaultEmpty flagPrefix "otel")
           (DefaultEmpty serviceName (Main_Path bi)))) /\
   (Exists (fun f => Lookup flags (Name f) <> None)
      (otelFlags (DefaultEmpty flagPrefix "otel")
         (DefaultEmpty serviceName (Main_Path bi))) ->
    RegisterOpenTelemetryFlags flags flagPrefix serviceName = Panic)).
Proof.
  split.
  - intros Hbi. unfold RegisterOpenTelemetryFlags. rewrite Hbi. reflexivity.
  - intros bi Hbi. rewrite (RegisterOpenTelemetryFlags_addAll _ _ _ _ Hbi).
    apply addAll_outcome, otelFlags_NoDup.
Qed.

(** X3. [RegisterGrpcServerFlags] defines, under the prefix ([grpc] when
    empty), the address flag with the given default ([:50051] when empty),
    the two TLS path flags with empty defaults, the maximum connection age
    with a default of 30 seconds, and the enabled flag with the given
    default; when one of the names is taken it panics. *)
Theorem RegisterGrpcServerFlags_defines (flags : FlagSet)
    (flagPrefix serviceName defaultAddr : string) (defaultEnabled : bool) :
  (Forall (fun f => Lookup flags (Name f) = None)
     (grpcFlags (DefaultEmpty flagPrefix "grpc")
        (DefaultEmpty defaultAddr ":50051") defaultEnabled) ->
   exists flags',
     RegisterGrpcServerFlags flags flagPrefix serviceName defaultAddr
       defaultEnabled = Ret flags' /\
     Defines flags flags'
       (grpcFlags (DefaultEmpty flagPrefix "grpc")
          (DefaultEmpty defaultAddr ":50051") defaultEnabled)) /\
  (Exists (fun f => Lookup flags (Name f) <> None)
     (grpcFlags (DefaultEmpty flagPrefix "grpc")
        (DefaultEmpty defaultAddr ":50051") defaultEnabled) ->
   RegisterGrpcServerFlags flags flagPrefix serviceName defaultAddr
     defaultEnabled = Panic).
Proof.
  rewrite RegisterGrpcServerFlags_addAll.
  apply addAll_outcome, grpcFlags_NoDup.
Qed.

(** X4. [RegisterHttpServerFlags] defines, under the prefix ([http] when
    empty), the address flag with the given default ([:8443] when empty),
    the two TLS path flags with empty defaults and the enabled flag with
    the given default, and no other flag; when one of the names is taken it
    panics. *)
Theorem RegisterHttpServerFlags_defines (flags : FlagSet)
    (flagPrefix serviceName defaultAddr : string) (defaultEnabled : bool) :
  (Forall (fun f => Lookup flags (Name f) = None)
     (httpFlags (DefaultEmpty flagPrefix "http")
        (DefaultEmpty defaultAddr ":8443") defaultEnabled) ->
   exists flags',
     RegisterHttpServerFlags flags flagPrefix serviceName defaultAddr
       defaultEnabled = Ret flags' /\
     Defines flags flags'
       (httpFlags (DefaultEmpty flagPrefix "http")
          (DefaultEmpty defaultAddr ":8443") defaultEnabled)) /\
  (Exists (fun f => Lookup flags (Name f) <> None)
     (httpFlags (DefaultEmpty flagPrefix "http")
        (DefaultEmpty defaultAddr ":8443") defaultEnabled) ->
   RegisterHttpServerFlags flags flagPrefix serviceName defaultAddr
     defaultEnabled = Panic).
Proof.
  rewrite RegisterHttpServerFlags_addAll.
  apply addAll_outcome, httpFlags_NoDup.
Qed.

End RegistrationOutcome.

Lemma fresh_or_clash (fs : FlagSet) (new : list Flag) :
  Forall (fun f => Lookup fs (Name f) = None) new \/
  Exists (fun f => Lookup fs (Name f) <> None) new.
Proof.
  induction new as [|f rest [IH|IH]].
  - left. constructor.
  - destruct (Lookup fs (Name f)) as [g|] eqn:Hf.
    + right. left. rewrite Hf. discriminate.
    + left. constructor; assumption.
  - right. right. exact IH.
Qed.

Lemma addAll_again fs fs' f rest :
  addAll fs (f :: rest) = Ret fs' ->
  NoDup (map Name (f :: rest)) ->
  Lookup fs' (Name f) = Some f.
Proof.
  intros Hrun Hnd.
  destruct (fresh_or_clash fs (f :: rest)) as [Hfresh|Hclash].
  - destruct (addAll_defines _ _ Hnd Hfresh) as (fs'' & Hrun' & Hnew & _).
    rewrite Hrun in Hrun'. inversion Hrun'; subst fs''.
    apply Hnew. left. reflexivity.
  - rewrite (addAll_clash _ _ Hclash) in Hrun. discriminate.
Qed.

Lemma DefaultEmpty_given val fallback :
  val <> "" -> DefaultEmpty val fallback = val.
Proof.
  intros H. unfold DefaultEmpty. apply String.eqb_neq in H. rewrite H.
  reflexivity.
Qed.

Section RegistrationClashes.
Context {R : GoRuntime}.

(** X5. Registering a group a second time on the same flag set under the
    same prefix panics: the names are taken. *)
Theorem register_again_panics (flags flags' : FlagSet)
    (flagPrefix serviceName defaultAddr : string) (defaultEnabled : bool) :
  (RegisterZeroLogFlags flags flagPrefix = Ret flags' ->
   RegisterZeroLogFlags flags' flagPrefix = Panic) /\
  (RegisterOpenTelemetryFlags flags flagPrefix serviceName = Ret flags' ->
   RegisterOpenTelemetryFlags flags' flagPrefix serviceName = Panic) /\
  (RegisterGrpcServerFlags flags flagPrefix serviceName defaultAddr
     defaultEnabled = Ret flags' ->
   RegisterGrpcServerFlags flags' flagPrefix serviceName defaultAddr
     defaultEnabled = Panic) /\
  (RegisterHttpServerFlags flags flagPrefix serviceName defaultAddr
     defaultEnabled = Ret flags' ->
   RegisterHttpServerFlags flags' flagPrefix serviceName defaultAddr
     defaultEnabled = Panic).
Proof.
  split; [|split; [|split]].
  - rewrite !RegisterZeroLogFlags_addAll. intros H.
    apply addAll_clash. left.
    rewrite (addAll_again _ _ _ _ H (zerologFlags_NoDup _)). discriminate.
  - destruct debug_ReadBuildInfo as [bi|] eqn:Hbi.
    + rewrite !(RegisterOpenTelemetryFlags_addAll _ _ _ _ Hbi). intros H.
      apply addAll_clash. left.
      rewrite (addAll_again _ _ _ _ H (otelFlags_NoDup _ _)). discriminate.
    + intros _. unfold RegisterOpenTelemetryFlags. rewrite Hbi. reflexivity.
  - rewrite !RegisterGrpcServerFlags_addAll. intros H.
    apply addAll_clash. left.
    rewrite (addAll_again _ _ _ _ H (grpcFlags_NoDup _ _ _)). discriminate.
  - rewrite !RegisterHttpServerFlags_addAll. intros H.
    apply addAll_clash. left.
    rewrite (addAll_again _ _ _ _ H (httpFlags_NoDup _ _ _)). discriminate.
Qed.

(** X6. The gRPC and the HTTP group cannot share a prefix: both define
    [<prefix>-addr], so that, under one non-empty prefix, registering the
    second of them panics, in either order. *)
Theorem grpc_and_http_share_no_prefix (flags flags' : FlagSet)
    (flagPrefix : string)
    (grpcName grpcAddr : string) (grpcEnabled : bool)
    (httpName httpAddr : string) (httpEnabled : bool) :
  flagPrefix <> "" ->
  (RegisterGrpcServerFlags flags flagPrefix grpcName grpcAddr grpcEnabled =
     Ret flags' ->
   RegisterHttpServerFlags flags' flagPrefix httpName httpAddr httpEnabled =
     Panic) /\
  (RegisterHttpServerFlags flags flagPrefix httpName httpAddr httpEnabled =
     Ret flags' ->
   RegisterGrpcServerFlags flags' flagPrefix grpcName grpcAddr grpcEnabled =
     Panic).
Proof.
  intros Hp.
  rewrite !RegisterGrpcServerFlags_addAll, !RegisterHttpServerFlags_addAll.
  rewrite !(DefaultEmpty_given flagPrefix) by exact Hp.
  split; intros H; apply addAll_clash; left.
  - pose proof (addAll_again _ _ _ _ H (grpcFlags_NoDup _ _ _)) as E.
    simpl in E |- *. rewrite E. discriminate.
  - pose proof (addAll_again _ _ _ _ H (httpFlags_NoDup _ _ _)) as E.
    simpl in E |- *. rewrite E. discriminate.
Qed.

End RegistrationClashes.

Lemma RegisterZeroLogFlags_defines_witness :
  (exists flags',
     RegisterZeroLogFlags [] "" = Ret flags' /\
     Defines [] flags' (zerologFlags "log")) /\
  RegisterZeroLogFlags [levelFlag] "" = Panic.
Proof.
  split.
  - apply (proj1 (RegisterZeroLogFlags_defines [] "")). repeat constructor.
  - apply (proj2 (RegisterZeroLogFlags_defines [levelFlag] "")).
    left. discriminate.
Defined.

Lemma RegisterOpenTelemetryFlags_defines_witness :
  @RegisterOpenTelemetryFlags bareRuntime [] "" "billing" = Panic /\
  (exists flags',
     @RegisterOpenTelemetryFlags exampleRuntime [] "" "" = Ret flags' /\
     Defines [] flags' (otelFlags "otel" "example.com/app")) /\
  @RegisterOpenTelemetryFlags exampleRuntime
    [stringFlag "otel-provider" "none" "none" false] "" "" = Panic.
Proof.
  split; [|split].
  - apply (proj1 (@RegisterOpenTelemetryFlags_defines bareRuntime
                    [] "" "billing")).
    reflexivity.
  - apply (proj1 (proj2 (@RegisterOpenTelemetryFlags_defines exampleRuntime
                           [] "" "") _ eq_refl)).
    repeat constructor.
  - apply (proj2 (proj2 (@RegisterOpenTelemetryFlags_defines exampleRuntime
                           [stringFlag "otel-provider" "none" "none" false]
                           "" "") _ eq_refl)).
    left. discriminate.
Defined.

Lemma RegisterGrpcServerFlags_defines_witness :
  (exists flags',
     @RegisterGrpcServerFlags exampleRuntime [] "" "" "" true = Ret flags' /\
     Defines [] flags' (@grpcFlags exampleRuntime "grpc" ":50051" true)) /\
  @RegisterGrpcServerFlags exampleRuntime
    [stringFlag "api-tls-key-path" "" "" false] "api" "" ":9000" true =
    Panic.
Proof.
  split.
  - apply (proj1 (@RegisterGrpcServerFlags_defines exampleRuntime
                    [] "" "" "" true)).
    repeat constructor.
  - apply (proj2 (@RegisterGrpcServerFlags_defines exampleRuntime
                    [stringFlag "api-tls-key-path" "" "" false]
                    "api" "" ":9000" true)).
    right. right. left. discriminate.
Defined.

Lemma RegisterHttpServerFlags_defines_witness :
  (exists flags',
     RegisterHttpServerFlags [] "" "" "" false = Ret flags' /\
     Defines [] flags' (httpFlags "http" ":8443" false)) /\
  RegisterHttpServerFlags
    [boolFlag "http-enabled" true true false] "" "" "" false = Panic.
Proof.
  split.
  - apply (proj1 (RegisterHttpServerFlags_defines [] "" "" "" false)).
    repeat constructor.
  - apply (proj2 (RegisterHttpServerFlags_defines
                    [boolFlag "http-enabled" true true false]
                    "" "" "" false)).
    right. right. right. left. discriminate.
Defined.

Lemma register_again_panics_witness :
  RegisterZeroLogFlags (orEmpty (RegisterZeroLogFlags [] "")) "" = Panic /\
  @RegisterGrpcServerFlags exampleRuntime
    (orEmpty (@RegisterGrpcServerFlags exampleRuntime [] "" "" "" true))
    "" "" "" true = Panic.
Proof.
  split.
  - apply (proj1 (@register_again_panics exampleRuntime []
                    (orEmpty (RegisterZeroLogFlags [] "")) "" "" "" true)).
    reflexivity.
  - apply (proj1 (proj2 (proj2
             (@register_again_panics exampleRuntime []
                (orEmpty (@RegisterGrpcServerFlags exampleRuntime
                            [] "" "" "" true))
                "" "" "" true)))).
    reflexivity.
Defined.

Lemma grpc_and_http_share_no_prefix_witness :
  RegisterHttpServerFlags
    (orEmpty (@RegisterGrpcServerFlags exampleRuntime [] "api" "" "" true))
    "api" "" "" true = Panic.
Proof.
  apply (proj1 (@grpc_and_http_share_no_prefix exampleRuntime []
                  (orEmpty (@RegisterGrpcServerFlags exampleRuntime
                              [] "api" "" "" true))
                  "api" "" "" true "" "" true ltac:(discriminate))).
  reflexivity.
Defined.

(** The flags of the gRPC group with the defaults of the package, in the
    order of [VisitAll]; with the empty prefixes both server groups fit in
    one flag set. *)
Example registered_names :
  map (fun f => (Name f, DefValue f))
    (orEmpty (@RegisterGrpcServerFlags exampleRuntime [] "" "" "" true)) =
  [("grpc-addr", ":50051"); ("grpc-enabled", "true");
   ("grpc-max-conn-age", "30s"); ("grpc-tls-cert-path", "");
   ("grpc-tls-key-path", "")] /\
  map Name
    (orEmpty
       (RegisterHttpServerFlags
          (orEmpty (@RegisterGrpcServerFlags exampleRuntime [] "" "" "" true))
          "" "" "" true)) =
  ["grpc-addr"; "grpc-enabled"; "grpc-max-conn-age"; "grpc-tls-cert-path";
   "grpc-tls-key-path"; "http-addr"; "http-enabled"; "http-tls-cert-path";
   "http-tls-key-path"].
Proof.
  split; reflexivity.
Qed.

(** ** Builtin commands and the shape of the command *)

Section Builtins.
Context {P : Platform} {A : Accessors}.

(** X7. A command is a builtin exactly when its [Use] is the whole text
    [help [command]] or [completion [command]]; on such a command the three
    hooks return nil and leave the command and the process-wide state as
    they were, without reading a flag. *)
Theorem builtin_hooks_no_op (cmd : Command) (args : list string)
    (g : Globals) (envPrefix logPrefix otelPrefix : string)
    (logLevel otelLevel : Level) :
  (IsBuiltinCommand cmd = true <->
   Use cmd = "help [command]" \/ Use cmd = "completion [command]") /\
  (IsBuiltinCommand cmd = true ->
   SyncViperPreRunE envPrefix cmd args g = (cmd, g, Ret None) /\
   ZeroLogPreRunE logPrefix logLevel cmd args g = (cmd, g, Ret None) /\
   OpenTelemetryPreRunE otelPrefix otelLevel cmd args g =
     (cmd, g, Ret None)).
Proof.
  split.
  - cbv [IsBuiltinCommand SliceContains existsb].
    rewrite !orb_true_iff, !String.eqb_eq.
    split.
    + intros [H|[H|H]]; [left|right|discriminate]; symmetry; exact H.
    + intros [H|H]; [left|right; left]; symmetry; exact H.
  - intros Hb.
    unfold SyncViperPreRunE, ZeroLogPreRunE, OpenTelemetryPreRunE.
    rewrite Hb. repeat split.
Qed.

End Builtins.

Lemma builtin_hooks_no_op_witness :
  @SyncViperPreRunE plainPlatform "app" helpCommand ["serve"] startGlobals =
    (helpCommand, startGlobals, Ret None) /\
  @ZeroLogPreRunE plainPlatform flagAccessors "" InfoLevel helpCommand
    ["serve"] startGlobals = (helpCommand, startGlobals, Ret None) /\
  @OpenTelemetryPreRunE plainPlatform flagAccessors "" InfoLevel helpCommand
    ["serve"] startGlobals = (helpCommand, startGlobals, Ret None).
Proof.
  apply (proj2 (@builtin_hooks_no_op plainPlatform flagAccessors helpCommand
                  ["serve"] startGlobals "app" "" "" InfoLevel InfoLevel)).
  apply (proj2 (proj1 (@builtin_hooks_no_op plainPlatform flagAccessors
                         helpCommand ["serve"] startGlobals "app" "" ""
                         InfoLevel InfoLevel))).
  left. reflexivity.
Defined.

Section Shape.
Context {P : Platform}.

Lemma declared_store fs : forall name flag f',
  Lookup fs name = Some flag ->
  declared f' = declared flag ->
  map declared (store fs name f') = map declared fs.
Proof.
  induction fs as [|g rest IH]; simpl; intros name flag f' Hl Hd;
    [reflexivity|].
  destruct (Name g =? name); simpl.
  - inversion Hl; subst. rewrite Hd. reflexivity.
  - f_equal. eauto.
Qed.

Lemma declared_FlagSet_Set fs name value :
  map declared (fst (FlagSet_Set fs name value)) = map declared fs.
Proof.
  unfold FlagSet_Set.
  destruct (Lookup fs name) as [flag|] eqn:Hl; [|reflexivity].
  destruct (valueParse (Val flag) value) as [v [e|]]; simpl;
    eapply declared_store; eauto.
Qed.

Lemma declared_syncFlag prefix f s :
  map declared (snd (syncFlag prefix f s)) = map declared (snd s).
Proof.
  destruct s as [v flags]. unfold syncFlag.
  destruct (negb (Changed f) && viper.IsSet _ _); [|reflexivity].
  pose proof (declared_FlagSet_Set flags (Name f)
                (Sprintf_v (viper.Get
                   (viper.BindEnv v (Name f)
                      (prefix ++ "_"
                       ++ strings.ToUpper
                            (strings.ReplaceAll (Name f) "-" "_")))
                   (Name f)))) as H.
  destruct (FlagSet_Set flags _ _) as [flags' e]. exact H.
Qed.

Lemma declared_VisitAll prefix names : forall s,
  map declared
    (snd (fold_left
            (fun s name =>
               match Lookup (snd s) name with
               | Some f => syncFlag prefix f s
               | None => s
               end)
            names s)) =
  map declared (snd s).
Proof.
  induction names as [|n names IH]; intros s; simpl; [reflexivity|].
  rewrite IH. destruct (Lookup (snd s) n); [|reflexivity].
  apply declared_syncFlag.
Qed.

(** X8. Resolution returns nil and keeps the shape of the command: its
    [Use], and the names, the order and the default texts of its flags.  Of
    the process-wide state it touches nothing but the environment prefix
    of the global viper. *)
Theorem SyncViperPreRunE_keeps_shape (prefix : string) (cmd : Command)
    (args : list string) (g : Globals) :
  exists cmd' g',
    SyncViperPreRunE prefix cmd args g = (cmd', g', Ret None) /\
    Use cmd' = Use cmd /\
    map declared (Flags cmd') = map declared (Flags cmd) /\
    log_Logger g' = log_Logger g /\
    GlobalLevel g' = GlobalLevel g /\
    logged g' = logged g /\
    otel_TracerProvider g' = otel_TracerProvider g /\
    otel_TextMapPropagator g' = otel_TextMapPropagator g /\
    network g' = network g.
Proof.
  unfold SyncViperPreRunE.
  destruct (IsBuiltinCommand cmd).
  - exists cmd, g. repeat split.
  - unfold VisitAll.
    pose proof (declared_VisitAll
                  (strings.ReplaceAll (strings.ToUpper prefix) "-" "_")
                  (map Name (Flags cmd)) (viper.New, Flags cmd)) as H.
    destruct (fold_left _ _ _) as [v flags]. simpl in H.
    eexists. eexists. split; [reflexivity|].
    repeat split. exact H.
Qed.

End Shape.

(** ** The names of the override variables *)

Section NormalForms.
Context {P : Platform}.

(** On ASCII texts [ToUpper], [ToLower] and [ReplaceAll] are maps over the
    bytes, which are compared byte by byte. *)
Ltac bytewise :=
  repeat first
    [ rewrite ToLower_ascii
        by auto using isASCII_lower, isASCII_upper, isASCII_ReplaceAll,
             isASCII_ToLower, isASCII_ToUpper
    | rewrite ToUpper_ascii
        by auto using isASCII_lower, isASCII_upper, isASCII_ReplaceAll,
             isASCII_ToLower, isASCII_ToUpper ];
  unfold strings.ReplaceAll;
  rewrite ?mapBytes_mapBytes; apply mapBytes_ext;
  intros c; destruct c as [[] [] [] [] [] [] [] []]; reflexivity.

Lemma normal_prefix_lower p :
  isASCII p = true ->
  strings.ReplaceAll (strings.ToUpper (strings.ToLower p)) "-" "_" =
  strings.ReplaceAll (strings.ToUpper p) "-" "_".
Proof. intros H. bytewise. Qed.

Lemma normal_prefix_upper p :
  isASCII p = true ->
  strings.ReplaceAll (strings.ToUpper (strings.ToUpper p)) "-" "_" =
  strings.ReplaceAll (strings.ToUpper p) "-" "_".
Proof. intros H. bytewise. Qed.

Lemma normal_prefix_underscore p :
  isASCII p = true ->
  strings.ReplaceAll (strings.ToUpper (strings.ReplaceAll p "-" "_")) "-" "_" =
  strings.ReplaceAll (strings.ToUpper p) "-" "_".
Proof. intros H. bytewise. Qed.

Lemma normal_name_underscore n :
  isASCII n = true ->
  strings.ToUpper (strings.ReplaceAll (strings.ReplaceAll n "-" "_") "-" "_") =
  strings.ToUpper (strings.ReplaceAll n "-" "_").
Proof. intros H. bytewise. Qed.

Lemma normal_name_upper n :
  isASCII n = true ->
  strings.ToUpper (strings.ReplaceAll (strings.ToUpper n) "-" "_") =
  strings.ToUpper (strings.ReplaceAll n "-" "_").
Proof. intros H. bytewise. Qed.

End NormalForms.

Lemma allBytes_app p s t :
  allBytes p (s ++ t) = allBytes p s && allBytes p t.
Proof.
  induction s as [|c s IH]; simpl; [reflexivity|].
  rewrite IH, andb_assoc. reflexivity.
Qed.

Lemma allBytes_mapBytes p f s :
  (forall c, p (f c) = true) -> allBytes p (strings.mapBytes f s) = true.
Proof.
  intros H. induction s as [|c s IH]; simpl; [reflexivity|].
  rewrite H, IH. reflexivity.
Qed.

Section Normalisation.
Context {P : Platform}.

(** X9. The prefix of the resolver, a text of ASCII bytes, is taken up to
    letter case and up to hyphen versus underscore: the hooks built from
    the lower-cased, the upper-cased and the underscored prefix are the
    hook of the prefix. *)
Theorem SyncViperPreRunE_prefix_insensitive (prefix : string)
    (cmd : Command) (args : list string) (g : Globals) :
  isASCII prefix = true ->
  SyncViperPreRunE (strings.ToLower prefix) cmd args g =
    SyncViperPreRunE prefix cmd args g /\
  SyncViperPreRunE (strings.ToUpper prefix) cmd args g =
    SyncViperPreRunE prefix cmd args g /\
  SyncViperPreRunE (strings.ReplaceAll prefix "-" "_") cmd args g =
    SyncViperPreRunE prefix cmd args g.
Proof.
  intros H. unfold SyncViperPreRunE.
  rewrite (normal_prefix_lower prefix H), (normal_prefix_upper prefix H),
    (normal_prefix_underscore prefix H).
  repeat split.
Qed.

End Normalisation.

Lemma SyncViperPreRunE_prefix_insensitive_witness :
  @SyncViperPreRunE resolvePlatform "my-app" resolveCommand [] startGlobals =
    @SyncViperPreRunE resolvePlatform "My-App" resolveCommand []
      startGlobals /\
  @SyncViperPreRunE resolvePlatform "MY-APP" resolveCommand [] startGlobals =
    @SyncViperPreRunE resolvePlatform "My-App" resolveCommand []
      startGlobals /\
  @SyncViperPreRunE resolvePlatform "My_App" resolveCommand [] startGlobals =
    @SyncViperPreRunE resolvePlatform "My-App" resolveCommand []
      startGlobals.
Proof.
  exact (@SyncViperPreRunE_prefix_insensitive resolvePlatform "My-App"
           resolveCommand [] startGlobals eq_refl).
Defined.

(** X10. For a prefix and a flag name of ASCII bytes, the variable that
    overrides the flag has neither a hyphen nor a lower-case letter in its
    name, and flag names that differ only in letter case or in hyphen
    versus underscore have the same variable. *)
Theorem envVar_normalised {P : Platform} (prefix name : string) :
  isASCII prefix = true ->
  isASCII name = true ->
  allBytes variableByte (envVar prefix name) = true /\
  envVar prefix (strings.ToLower name) = envVar prefix name /\
  envVar prefix (strings.ToUpper name) = envVar prefix name /\
  envVar prefix (strings.ReplaceAll name "-" "_") = envVar prefix name.
Proof.
  intros Hp Hn. split; [|split; [|split]].
  - unfold envVar. rewrite !allBytes_app. simpl.
    rewrite (ToUpper_ascii prefix Hp).
    rewrite ToUpper_ascii by (apply isASCII_ReplaceAll; exact Hn).
    unfold strings.ReplaceAll.
    rewrite !mapBytes_mapBytes, !allBytes_mapBytes; [reflexivity| |];
      intros c; destruct c as [[] [] [] [] [] [] [] []]; reflexivity.
  - apply envVar_lower. exact Hn.
  - unfold envVar. rewrite (normal_name_upper name Hn). reflexivity.
  - unfold envVar. rewrite (normal_name_underscore name Hn). reflexivity.
Qed.

Lemma envVar_normalised_witness :
  allBytes variableByte (@envVar plainPlatform "my-app" "Max-Age") = true /\
  @envVar plainPlatform "my-app" "max-age" =
    @envVar plainPlatform "my-app" "Max-Age" /\
  @envVar plainPlatform "my-app" "MAX-AGE" =
    @envVar plainPlatform "my-app" "Max-Age" /\
  @envVar plainPlatform "my-app" "Max_Age" =
    @envVar plainPlatform "my-app" "Max-Age".
Proof.
  exact (@envVar_normalised plainPlatform "my-app" "Max-Age"
           eq_refl eq_refl).
Defined.

(** The flags [max-age], [max_age] and [MAX-AGE] of an application [my-app]
    are all overridden by MY_APP_MAX_AGE. *)
Example envVar_collisions :
  @envVar plainPlatform "my-app" "max-age" = "MY_APP_MAX_AGE" /\
  @envVar plainPlatform "my-app" "max_age" = "MY_APP_MAX_AGE" /\
  @envVar plainPlatform "My_App" "MAX-AGE" = "MY_APP_MAX_AGE".
Proof.
  repeat split.
Qed.

(** ** Stacks of stacks, and panics *)

Lemma CommandStack_app xs : forall ys cmd args g,
  CommandStack (xs ++ ys) cmd args g =
  match CommandStack xs cmd args g with
  | (cmd', g', Ret None) => CommandStack ys cmd' args g'
  | r => r
  end.
Proof.
  induction xs as [|h xs IH]; intros ys cmd args g; simpl; [reflexivity|].
  destruct (h cmd args g) as [[c1 g1] [[e|]|]]; try reflexivity.
  apply IH.
Qed.

(** X11. A stack is a hook like any other: the stack of one hook is that
    hook, and a stack of stacks runs as the one stack of all their hooks in
    order. *)
Theorem CommandStack_flattens (h : CobraRunFunc)
    (stacks : list (list CobraRunFunc))
    (cmd : Command) (args : list string) (g : Globals) :
  CommandStack [h] cmd args g = h cmd args g /\
  CommandStack (map CommandStack stacks) cmd args g =
  CommandStack (concat stacks) cmd args g.
Proof.
  split.
  - simpl. destruct (h cmd args g) as [[c1 g1] [[e|]|]]; reflexivity.
  - revert cmd g. induction stacks as [|xs stacks IH]; intros cmd g; simpl;
      [reflexivity|].
    rewrite CommandStack_app.
    destruct (CommandStack xs cmd args g) as [[c1 g1] [[e|]|]];
      try reflexivity.
    apply IH.
Qed.

Lemma CommandStack_first_panic pre : forall h post cmd args g c1 g1 c2 g2,
  AllSucceed pre cmd args g c1 g1 ->
  h c1 args g1 = (c2, g2, Panic) ->
  CommandStack (pre ++ h :: post) cmd args g = (c2, g2, Panic).
Proof.
  induction pre as [|p pre IH]; intros h post cmd args g c1 g1 c2 g2 Hpre Hh.
  - inversion Hpre; subst. simpl. rewrite Hh. reflexivity.
  - inversion Hpre as [|? ? ? ? ? cm gm ? ? Hp Hrest]; subst.
    simpl. rewrite Hp. eapply IH; eauto.
Qed.

(** X12. A hook that panics ends the stack: when the hooks before it
    return nil, the stack panics in the state that hook left, whatever
    hooks follow; and a stack panics only when one of its hooks does, the
    hooks before it having returned nil. *)
Theorem CommandStack_panic (cmdfns : list CobraRunFunc)
    (cmd : Command) (args : list string) (g : Globals) :
  (forall pre h post c1 g1 c2 g2,
      cmdfns = (pre ++ h :: post)%list ->
      AllSucceed pre cmd args g c1 g1 ->
      h c1 args g1 = (c2, g2, Panic) ->
      CommandStack cmdfns cmd args g = (c2, g2, Panic)) /\
  (forall c' g',
      CommandStack cmdfns cmd args g = (c', g', Panic) ->
      exists pre h post c1 g1,
        cmdfns = (pre ++ h :: post)%list /\
        AllSucceed pre cmd args g c1 g1 /\
        h c1 args g1 = (c', g', Panic)).
Proof.
  split.
  - intros pre h post c1 g1 c2 g2 ->. apply CommandStack_first_panic.
  - revert cmd g.
    induction cmdfns as [|h rest IH]; intros cmd g c' g'; simpl.
    + discriminate.
    + destruct (h cmd args g) as [[c1 g1] [[e|]|]] eqn:Hh; intros E;
        try discriminate.
      * destruct (IH _ _ _ _ E)
          as (pre & h' & post & c2 & g2 & -> & Hpre & Hh').
        exists (h :: pre), h', post, c2, g2. repeat split; [|exact Hh'].
        econstructor; eauto.
      * inversion E; subst.
        exists [], h, rest, cmd, g. repeat split; [constructor|exact Hh].
Qed.

(** The logging hook panics on a command without the logging flags: the
    hook after it is not run. *)
Lemma CommandStack_panic_witness :
  CommandStack
    [hookA; @ZeroLogPreRunE plainPlatform flagAccessors "" InfoLevel; hookC]
    bareCommand [] startGlobals =
  (bareCommand, SetGlobalLevel startGlobals DebugLevel, Panic).
Proof.
  apply (proj1 (CommandStack_panic
                  [hookA;
                   @ZeroLogPreRunE plainPlatform flagAccessors "" InfoLevel;
                   hookC]
                  bareCommand [] startGlobals)
           [hookA] (@ZeroLogPreRunE plainPlatform flagAccessors "" InfoLevel)
           [hookC] bareCommand (SetGlobalLevel startGlobals DebugLevel)).
  - reflexivity.
  - econstructor; [reflexivity|constructor].
  - reflexivity.
Defined.

(** ** Logging and tracing configuration: further properties *)

Section LoggingExtra.
Context {P : Platform} {A : Accessors}.

(** X13. The hook picks the writer by the format alone, before and
    whatever the level turns out to be: [human], and [auto] when the
    standard output is a terminal, switch the logger to a console writer on
    the standard output; any other format, and [auto] without a terminal,
    leave the logger as it was. *)
Theorem ZeroLogPreRunE_writer (flagPrefix : string) (prerunLevel : Level)
    (cmd : Command) (args : list string) (g : Globals)
    (format raw : string) :
  IsBuiltinCommand cmd = false ->
  MustGetString cmd (DefaultEmpty flagPrefix "log" ++ "-format") =
    Ret format ->
  MustGetString cmd (DefaultEmpty flagPrefix "log" ++ "-level") = Ret raw ->
  (format = "human" \/ (format = "auto" /\ isatty_IsTerminal Stdout = true) ->
   log_Logger (snd (fst (ZeroLogPreRunE flagPrefix prerunLevel cmd args g))) =
   {| writer := ConsoleWriter Stdout |}) /\
  (format <> "human" ->
   format <> "auto" \/ isatty_IsTerminal Stdout = false ->
   log_Logger (snd (fst (ZeroLogPreRunE flagPrefix prerunLevel cmd args g))) =
   log_Logger g).
Proof.
  intros Hb Hf Hl.
  rewrite (ZeroLogPreRunE_run flagPrefix prerunLevel cmd args g format raw
             Hb Hf Hl).
  split.
  - intros H.
    assert (E : (format =? "human")
                || ((format =? "auto") && isatty_IsTerminal Stdout) = true).
    { destruct H as [->|[-> ->]]; [reflexivity|].
      reflexivity. }
    rewrite E. destruct (recognizedLevel _); reflexivity.
  - intros Hh H.
    assert (E : (format =? "human")
                || ((format =? "auto") && isatty_IsTerminal Stdout) = false).
    { apply String.eqb_neq in Hh. rewrite Hh. simpl.
      destruct H as [Ha| ->]; [|apply andb_false_r].
      apply String.eqb_neq in Ha. rewrite Ha. reflexivity. }
    rewrite E. destruct (recognizedLevel _); reflexivity.
Qed.

(** X14. Whatever the command and its flags, the logging hook leaves the
    command, the tracer, the propagator, the network and the viper prefix
    alone.  Unless it returns nil it changes neither the global level nor
    the log; when it returns nil it has either done nothing (on a builtin)
    or handed exactly one event to the logger, at the level it was
    given. *)
Theorem ZeroLogPreRunE_frame (flagPrefix : string) (prerunLevel : Level)
    (cmd : Command) (args : list string) (g : Globals) :
  exists g' r,
    ZeroLogPreRunE flagPrefix prerunLevel cmd args g = (cmd, g', r) /\
    viper_envPrefix g' = viper_envPrefix g /\
    otel_TracerProvider g' = otel_TracerProvider g /\
    otel_TextMapPropagator g' = otel_TextMapPropagator g /\
    network g' = network g /\
    (r <> Ret None ->
     logged g' = logged g /\ GlobalLevel g' = GlobalLevel g) /\
    (r = Ret None ->
     g' = g \/
     exists e, logged g' = (logged g ++ [e])%list /\ level e = prerunLevel).
Proof.
  unfold ZeroLogPreRunE.
  destruct (IsBuiltinCommand cmd).
  { eexists; eexists; split; [reflexivity|].
    repeat split; try (intros H; contradiction). left. reflexivity. }
  destruct (MustGetString cmd _) as [format|].
  2:{ eexists; eexists; split; [reflexivity|].
      repeat split. discriminate. }
  cbv zeta.
  match goal with
  | |- context [if ?c then setLogger g ?l else g] =>
      set (g1 := if c then setLogger g l else g)
  end.
  assert (Hg1 : viper_envPrefix g1 = viper_envPrefix g /\
                otel_TracerProvider g1 = otel_TracerProvider g /\
                otel_TextMapPropagator g1 = otel_TextMapPropagator g /\
                network g1 = network g /\ logged g1 = logged g /\
                GlobalLevel g1 = GlobalLevel g).
  { subst g1.
    destruct ((format =? "human")
              || ((format =? "auto") && isatty_IsTerminal Stdout));
      repeat split. }
  destruct Hg1 as (H1 & H2 & H3 & H4 & H5 & H6).
  destruct (MustGetString cmd _) as [raw|].
  2:{ eexists; eexists; split; [reflexivity|].
      repeat split; try assumption. discriminate. }
  assert (Hset : forall l,
            exists g' r,
              (cmd,
               Msg (SetGlobalLevel g1 l)
                 {| level := prerunLevel;
                    fields := [("new level", strings.ToLower raw)];
                    message := "set log level" |},
               Ret (@None error)) = (cmd, g', r) /\
              viper_envPrefix g' = viper_envPrefix g /\
              otel_TracerProvider g' = otel_TracerProvider g /\
              otel_TextMapPropagator g' = otel_TextMapPropagator g /\
              network g' = network g /\
              (r <> Ret None ->
               logged g' = logged g /\ GlobalLevel g' = GlobalLevel g) /\
              (r = Ret None ->
               g' = g \/
               exists e,
                 logged g' = (logged g ++ [e])%list /\
                 level e = prerunLevel)).
  { intros l. eexists; eexists; split; [reflexivity|]. simpl.
    do 4 (split; [assumption|]). split.
    - intros Hr. contradiction Hr. reflexivity.
    - intros _. right. eexists. rewrite H5. split; reflexivity. }
  repeat match goal with
         | |- context [strings.ToLower raw =? ?lit] =>
             destruct (strings.ToLower raw =? lit); [apply Hset|]
         end.
  eexists; eexists; split; [reflexivity|].
  repeat split; try assumption. discriminate.
Qed.

End LoggingExtra.

Lemma ZeroLogPreRunE_writer_witness :
  log_Logger (snd (fst (logRun "human" "bogus"))) =
    {| writer := ConsoleWriter Stdout |} /\
  log_Logger
    (snd (fst (@ZeroLogPreRunE ttyPlatform flagAccessors "" InfoLevel
                 (logCommand "auto" "info") [] startGlobals))) =
    {| writer := ConsoleWriter Stdout |} /\
  log_Logger (snd (fst (logRun "auto" "info"))) = log_Logger startGlobals /\
  log_Logger (snd (fst (logRun "json" "info"))) = log_Logger startGlobals.
Proof.
  split; [|split; [|split]].
  - apply (proj1 (@ZeroLogPreRunE_writer plainPlatform flagAccessors ""
                    InfoLevel (logCommand "human" "bogus") [] startGlobals
                    "human" "bogus" eq_refl eq_refl eq_refl)).
    left. reflexivity.
  - apply (proj1 (@ZeroLogPreRunE_writer ttyPlatform flagAccessors ""
                    InfoLevel (logCommand "auto" "info") [] startGlobals
                    "auto" "info" eq_refl eq_refl eq_refl)).
    right. split; reflexivity.
  - apply (proj2 (@ZeroLogPreRunE_writer plainPlatform flagAccessors ""
                    InfoLevel (logCommand "auto" "info") [] startGlobals
                    "auto" "info" eq_refl eq_refl eq_refl)).
    + discriminate.
    + right. reflexivity.
  - apply (proj2 (@ZeroLogPreRunE_writer plainPlatform flagAccessors ""
                    InfoLevel (logCommand "json" "info") [] startGlobals
                    "json" "info" eq_refl eq_refl eq_refl)).
    + discriminate.
    + left. discriminate.
Defined.

Section TracingExtra.
Context {P : Platform} {A : Accessors}.

(** X15. With the provider [jaeger] (in any letter case) the hook builds
    an exporter for the endpoint flag.  When that succeeds it installs, as
    the global tracer provider, an always-sampling provider with a batch
    span processor on that exporter and the service-name flag as resource,
    installs the W3C trace-context propagator, logs nothing and returns
    nil.  When it fails the hook returns the error of the exporter as it
    is and leaves the process-wide state as it was. *)
Theorem OpenTelemetryPreRunE_jaeger (flagPrefix : string)
    (prerunLevel : Level) (cmd : Command) (args : list string) (g : Globals)
    (raw endpoint serviceName : string) :
  IsBuiltinCommand cmd = false ->
  MustGetString cmd (DefaultEmpty flagPrefix "otel" ++ "-provider") =
    Ret raw ->
  strings.ToLower raw = "jaeger" ->
  MustGetString cmd (DefaultEmpty flagPrefix "otel" ++ "-jaeger-endpoint") =
    Ret endpoint ->
  MustGetString cmd
    (DefaultEmpty flagPrefix "otel" ++ "-jaeger-service-name") =
    Ret serviceName ->
  (jaeger_New endpoint = None ->
   OpenTelemetryPreRunE flagPrefix prerunLevel cmd args g =
   (cmd,
    SetTextMapPropagator
      (SetTracerProvider g (jaegerProvider endpoint serviceName))
      TraceContext,
    Ret None)) /\
  (forall err, jaeger_New endpoint = Some err ->
   OpenTelemetryPreRunE flagPrefix prerunLevel cmd args g =
   (cmd, g, Ret (Some err))).
Proof.
  intros Hb Hp Hj He Hs. unfold OpenTelemetryPreRunE.
  rewrite Hb, Hp, Hj, He, Hs. simpl. unfold initJaegerTracer. split.
  - intros ->. reflexivity.
  - intros err ->. reflexivity.
Qed.

(** X16. Whatever the command and its flags, the tracing hook leaves the
    command, the logger, the global level, the network and the viper
    prefix alone.  Unless it returns nil it changes nothing at all; when it
    returns nil it has either done nothing (on a builtin), or logged one
    event at the level it was given and installed no tracer (provider
    none), or installed a tracer provider and a propagator and logged
    nothing (provider jaeger). *)
Theorem OpenTelemetryPreRunE_frame (flagPrefix : string)
    (prerunLevel : Level) (cmd : Command) (args : list string)
    (g : Globals) :
  exists g' r,
    OpenTelemetryPreRunE flagPrefix prerunLevel cmd args g = (cmd, g', r) /\
    viper_envPrefix g' = viper_envPrefix g /\
    log_Logger g' = log_Logger g /\
    GlobalLevel g' = GlobalLevel g /\
    network g' = network g /\
    (r <> Ret None -> g' = g) /\
    (r = Ret None ->
     g' = g \/
     (exists e, g' = Msg g e /\ level e = prerunLevel) \/
     (exists tp,
        g' = SetTextMapPropagator (SetTracerProvider g tp) TraceContext)).
Proof.
  unfold OpenTelemetryPreRunE.
  destruct (IsBuiltinCommand cmd).
  { eexists; eexists; split; [reflexivity|].
    do 4 (split; [reflexivity|]). split; [reflexivity|].
    intros _. left. reflexivity. }
  destruct (MustGetString cmd _) as [raw|].
  2:{ eexists; eexists; split; [reflexivity|].
      do 4 (split; [reflexivity|]). split; [reflexivity|discriminate]. }
  cbv zeta.
  destruct (strings.ToLower raw =? "none").
  { eexists; eexists; split; [reflexivity|].
    do 4 (split; [reflexivity|]). split.
    - intros Hr. contradiction Hr. reflexivity.
    - intros _. right. left. eexists. split; reflexivity. }
  destruct (strings.ToLower raw =? "jaeger").
  2:{ eexists; eexists; split; [reflexivity|].
      do 4 (split; [reflexivity|]). split; [reflexivity|discriminate]. }
  destruct (MustGetString cmd _) as [endpoint|].
  2:{ eexists; eexists; split; [reflexivity|].
      do 4 (split; [reflexivity|]). split; [reflexivity|discriminate]. }
  destruct (MustGetString cmd _) as [serviceName|].
  2:{ eexists; eexists; split; [reflexivity|].
      do 4 (split; [reflexivity|]). split; [reflexivity|discriminate]. }
  unfold initJaegerTracer. destruct (jaeger_New endpoint) as [err|].
  - eexists; eexists; split; [reflexivity|].
    do 4 (split; [reflexivity|]). split; [reflexivity|discriminate].
  - eexists; eexists; split; [reflexivity|].
    do 4 (split; [reflexivity|]). split.
    + intros Hr. contradiction Hr. reflexivity.
    + intros _. right. right. eexists. reflexivity.
Qed.

End TracingExtra.

Lemma OpenTelemetryPreRunE_jaeger_witness :
  otelRun "Jaeger" =
    (hooksCommand "info" "Jaeger",
     SetTextMapPropagator
       (SetTracerProvider startGlobals
          (jaegerProvider "http://jaeger:14268/api/traces" "example"))
       TraceContext,
     Ret None) /\
  @OpenTelemetryPreRunE refusingPlatform flagAccessors "" InfoLevel
    (hooksCommand "info" "jaeger") [] startGlobals =
    (hooksCommand "info" "jaeger", startGlobals,
     Ret (Some (Errorf "invalid collector endpoint"))).
Proof.
  split.
  - apply (proj1 (@OpenTelemetryPreRunE_jaeger plainPlatform flagAccessors
                    "" InfoLevel (hooksCommand "info" "Jaeger") []
                    startGlobals "Jaeger" "http://jaeger:14268/api/traces"
                    "example" eq_refl eq_refl eq_refl eq_refl eq_refl)).
    reflexivity.
  - apply (proj2 (@OpenTelemetryPreRunE_jaeger refusingPlatform
                    flagAccessors "" InfoLevel
                    (hooksCommand "info" "jaeger") [] startGlobals
                    "jaeger" "http://jaeger:14268/api/traces" "example"
                    eq_refl eq_refl eq_refl eq_refl eq_refl)).
    reflexivity.
Defined.

(** ** Server bootstrap: further properties *)

Section ServersExtra.
Context {P : Platform} {A : Accessors}.

(** X17. Whatever the flags hold, [GrpcServerFromFlags] returns a server or
    an error, never both and never neither; it makes no network call; and
    the options of a server it returns are the caller's options, in their
    order, followed by the keepalive option and, with TLS, by the
    credentials. *)
Theorem GrpcServerFromFlags_result (cmd : Command) (flagPrefix : string)
    (opts : list ServerOption) (g g' : Globals)
    (srv : option grpc_Server) (err : option error) :
  GrpcServerFromFlags cmd flagPrefix opts g = (g', Ret (srv, err)) ->
  network g' = network g /\
  (srv = None <-> err <> None) /\
  (forall s, srv = Some s ->
   exists age,
     options s = (opts ++ [KeepaliveParams age])%list \/
     exists certPath keyPath,
       options s =
       (opts ++ [KeepaliveParams age; Creds certPath keyPath])%list).
Proof.
  unfold GrpcServerFromFlags.
  destruct (MustGetDuration cmd _) as [age|]; [|discriminate].
  destruct (MustGetStringExpanded cmd _) as [certPath|]; [|discriminate].
  destruct (MustGetStringExpanded cmd _) as [keyPath|]; [|discriminate].
  destruct ((certPath =? "") && (keyPath =? "")).
  { intros E. inversion E; subst. split; [reflexivity|]. split.
    - split; [discriminate|]. intros H. contradiction H. reflexivity.
    - intros s Hs. inversion Hs; subst. exists age. left. reflexivity. }
  destruct (negb (certPath =? "") && negb (keyPath =? "")).
  - destruct (credentials_NewServerTLSFromFile certPath keyPath) as [e|];
      intros E; inversion E; subst; (split; [reflexivity|]); split.
    + split; [discriminate|reflexivity].
    + discriminate.
    + split; [discriminate|]. intros H. contradiction H. reflexivity.
    + intros s Hs. inversion Hs; subst. exists age. right.
      exists certPath, keyPath. simpl. rewrite <- app_assoc. reflexivity.
  - intros E. inversion E; subst. split; [reflexivity|]. split.
    + split; [discriminate|reflexivity].
    + discriminate.
Qed.

(** X18. When the address cannot be bound, [GrpcListenFromFlags] returns
    the error of [net.Listen] wrapped as a failure to listen, and the one
    thing it asked of the network is that listen call on tcp: the server is
    not served. *)
Theorem GrpcListenFromFlags_listen_fails (cmd : Command)
    (flagPrefix : string) (srv : grpc_Server) (g : Globals)
    (addr : string) (err : error) :
  MustGetBool cmd (DefaultEmpty flagPrefix "grpc" ++ "-enabled") = Ret true ->
  MustGetStringExpanded cmd (DefaultEmpty flagPrefix "grpc" ++ "-addr") =
    Ret addr ->
  net_Listen "tcp" addr = Some err ->
  GrpcListenFromFlags cmd flagPrefix srv g =
  (call g (Listen "tcp" addr),
   Ret (Some (Wrapf "failed to listen on addr for gRPC server: " err))).
Proof.
  intros Hen Haddr Hl. unfold GrpcListenFromFlags.
  rewrite Hen, Haddr, Hl. reflexivity.
Qed.

(** X19. Whatever the flags hold, the listen functions leave the global
    level and the tracer alone, and what they ask of the network is little:
    [GrpcListenFromFlags] at most one listen call on tcp, followed by at
    most one serve call of the server it was given on the address it
    listened on; [HttpListenFromFlags] at most one serve call of the server
    it was given. *)
Theorem listen_network_calls (cmd : Command) (flagPrefix : string)
    (grpcSrv : grpc_Server) (httpSrv : http_Server) (g : Globals) :
  (exists addr,
     network (fst (GrpcListenFromFlags cmd flagPrefix grpcSrv g)) =
       network g \/
     network (fst (GrpcListenFromFlags cmd flagPrefix grpcSrv g)) =
       (network g ++ [Listen "tcp" addr])%list \/
     network (fst (GrpcListenFromFlags cmd flagPrefix grpcSrv g)) =
       (network g ++ [Listen "tcp" addr; Serve grpcSrv addr])%list) /\
  (network (fst (HttpListenFromFlags cmd flagPrefix httpSrv g)) =
     network g \/
   network (fst (HttpListenFromFlags cmd flagPrefix httpSrv g)) =
     (network g ++ [ListenAndServe httpSrv])%list \/
   exists certPath keyPath,
     network (fst (HttpListenFromFlags cmd flagPrefix httpSrv g)) =
     (network g ++ [ListenAndServeTLS httpSrv certPath keyPath])%list) /\
  GlobalLevel (fst (GrpcListenFromFlags cmd flagPrefix grpcSrv g)) =
    GlobalLevel g /\
  GlobalLevel (fst (HttpListenFromFlags cmd flagPrefix httpSrv g)) =
    GlobalLevel g /\
  otel_TracerProvider (fst (GrpcListenFromFlags cmd flagPrefix grpcSrv g)) =
    otel_TracerProvider g /\
  otel_TracerProvider (fst (HttpListenFromFlags cmd flagPrefix httpSrv g)) =
    otel_TracerProvider g.
Proof.
  unfold GrpcListenFromFlags, HttpListenFromFlags.
  split; [|split].
  - destruct (MustGetBool cmd _) as [[|]|];
      try (exists ""; left; reflexivity).
    destruct (MustGetStringExpanded cmd _) as [addr|];
      [|exists ""; left; reflexivity].
    exists addr. destruct (net_Listen "tcp" addr) as [e|].
    + right. left. reflexivity.
    + right. right.
      destruct (srv_Serve grpcSrv addr); simpl; rewrite <- app_assoc;
        reflexivity.
  - destruct (MustGetBool cmd _) as [[|]|]; try (left; reflexivity).
    destruct (MustGetStringExpanded cmd _) as [certPath|];
      [|left; reflexivity].
    destruct (MustGetStringExpanded cmd _) as [keyPath|];
      [|left; reflexivity].
    destruct ((certPath =? "") && (keyPath =? "")).
    { right. left.
      destruct (srv_ListenAndServe httpSrv) as [e|]; [|reflexivity].
      destruct (negb (isErrServerClosed e)); reflexivity. }
    destruct (negb (certPath =? "") && negb (keyPath =? ""));
      [|left; reflexivity].
    right. right. exists certPath, keyPath.
    destruct (srv_ListenAndServeTLS httpSrv certPath keyPath) as [e|];
      [|reflexivity].
    destruct (negb (isErrServerClosed e)); reflexivity.
  - repeat split.
    + destruct (MustGetBool cmd _) as [[|]|]; try reflexivity.
      destruct (MustGetStringExpanded cmd _) as [addr|]; [|reflexivity].
      destruct (net_Listen "tcp" addr); [reflexivity|].
      destruct (srv_Serve grpcSrv addr); reflexivity.
    + destruct (MustGetBool cmd _) as [[|]|]; try reflexivity.
      destruct (MustGetStringExpanded cmd _) as [c|]; [|reflexivity].
      destruct (MustGetStringExpanded cmd _) as [k|]; [|reflexivity].
      destruct ((c =? "") && (k =? "")).
      { destruct (srv_ListenAndServe httpSrv) as [e|]; [|reflexivity].
        destruct (negb (isErrServerClosed e)); reflexivity. }
      destruct (negb (c =? "") && negb (k =? "")); [|reflexivity].
      destruct (srv_ListenAndServeTLS httpSrv c k) as [e|]; [|reflexivity].
      destruct (negb (isErrServerClosed e)); reflexivity.
    + destruct (MustGetBool cmd _) as [[|]|]; try reflexivity.
      destruct (MustGetStringExpanded cmd _) as [addr|]; [|reflexivity].
      destruct (net_Listen "tcp" addr); [reflexivity|].
      destruct (srv_Serve grpcSrv addr); reflexivity.
    + destruct (MustGetBool cmd _) as [[|]|]; try reflexivity.
      destruct (MustGetStringExpanded cmd _) as [c|]; [|reflexivity].
      destruct (MustGetStringExpanded cmd _) as [k|]; [|reflexivity].
      destruct ((c =? "") && (k =? "")).
      { destruct (srv_ListenAndServe httpSrv) as [e|]; [|reflexivity].
        destruct (negb (isErrServerClosed e)); reflexivity. }
      destruct (negb (c =? "") && negb (k =? "")); [|reflexivity].
      destruct (srv_ListenAndServeTLS httpSrv c k) as [e|]; [|reflexivity].
      destruct (negb (isErrServerClosed e)); reflexivity.
Qed.

End ServersExtra.

Lemma GrpcServerFromFlags_result_witness :
  network startGlobals = network startGlobals /\
  (Some (grpc_NewServer [OtherOption "interceptor";
                         KeepaliveParams 30000000000%Z;
                         Creds "cert.pem" "key.pem"]) = None <->
   @None error <> None) /\
  (forall s,
     Some (grpc_NewServer [OtherOption "interceptor";
                           KeepaliveParams 30000000000%Z;
                           Creds "cert.pem" "key.pem"]) = Some s ->
     exists age,
       options s = [OtherOption "interceptor"; KeepaliveParams age] \/
       exists certPath keyPath,
         options s = [OtherOption "interceptor"; KeepaliveParams age;
                      Creds certPath keyPath]).
Proof.
  exact (@GrpcServerFromFlags_result plainPlatform flagAccessors
           (serverCommand true "cert.pem" "key.pem") ""
           [OtherOption "interceptor"] startGlobals startGlobals
           (Some (grpc_NewServer [OtherOption "interceptor";
                                  KeepaliveParams 30000000000%Z;
                                  Creds "cert.pem" "key.pem"]))
           None eq_refl).
Defined.

Lemma GrpcListenFromFlags_listen_fails_witness :
  @GrpcListenFromFlags refusingPlatform flagAccessors
    (serverCommand true "" "") "" exampleServer startGlobals =
  (call startGlobals (Listen "tcp" ":0"),
   Ret (Some (Wrapf "failed to listen on addr for gRPC server: "
                (Errorf "listen tcp :0: bind: denied")))).
Proof.
  exact (@GrpcListenFromFlags_listen_fails refusingPlatform flagAccessors
           (serverCommand true "" "") "" exampleServer startGlobals ":0"
           (Errorf "listen tcp :0: bind: denied") eq_refl eq_refl eq_refl).
Defined.

(** ** Registration, resolution and the hooks together *)

Lemma addAll_defined fs fs' new f :
  addAll fs new = Ret fs' ->
  NoDup (map Name new) ->
  (In f new -> Lookup fs' (Name f) = Some f) /\
  (forall n, ~ In n (map Name new) -> Lookup fs' n = Lookup fs n).
Proof.
  intros Hrun Hnd.
  destruct (fresh_or_clash fs new) as [Hfresh|Hclash].
  - destruct (addAll_defines _ _ Hnd Hfresh)
      as (fs'' & Hrun' & Hnew & Hold & _).
    rewrite Hrun in Hrun'. inversion Hrun'; subst fs''.
    split; [apply Hnew|apply Hold].
  - rewrite (addAll_clash _ _ Hclash) in Hrun. discriminate.
Qed.

Lemma flagAccessors_readsStrings : readsStrings flagAccessors.
Proof.
  intros cmd name f H. simpl. rewrite H. reflexivity.
Defined.

Lemma flagAccessors_readsStringFlags : readsStringFlags flagAccessors.
Proof.
  intros cmd name f text H E. simpl. rewrite H, E. reflexivity.
Defined.

Lemma flagAccessors_readsEmptyPaths : readsEmptyPaths flagAccessors.
Proof.
  intros cmd name f H E. simpl. rewrite H, E. reflexivity.
Defined.

Lemma flagAccessors_readsBools : readsBools flagAccessors.
Proof.
  split.
  - intros cmd name f b H E. simpl. rewrite H, E. destruct b; reflexivity.
  - intros cmd name H. simpl. rewrite H. reflexivity.
Defined.

Section Defaults.
Context {P : Platform} {A : Accessors} {R : GoRuntime}.

(** X20. The defaults of the logging and tracing flags are values their
    hooks accept.  On a command whose flags come from
    [RegisterZeroLogFlags], the logging hook with the same prefix returns
    nil, sets the global level to info and switches to the console writer
    exactly when the standard output is a terminal; on a command whose
    flags come from [RegisterOpenTelemetryFlags], the tracing hook with the
    same prefix returns nil and installs no tracer. *)
Theorem registered_defaults_accepted (flags0 flags : FlagSet)
    (flagPrefix serviceName : string) (prerunLevel : Level)
    (cmd : Command) (args : list string) (g : Globals) :
  readsStrings A ->
  IsBuiltinCommand cmd = false ->
  Flags cmd = flags ->
  (RegisterZeroLogFlags flags0 flagPrefix = Ret flags ->
   ZeroLogPreRunE flagPrefix prerunLevel cmd args g =
   (cmd,
    Msg (SetGlobalLevel
           (if isatty_IsTerminal Stdout then consoleLogger g else g)
           InfoLevel)
      (report prerunLevel "new level" "info" "set log level"),
    Ret None)) /\
  (RegisterOpenTelemetryFlags flags0 flagPrefix serviceName = Ret flags ->
   OpenTelemetryPreRunE flagPrefix prerunLevel cmd args g =
   (cmd,
    Msg g (report prerunLevel "new provider" "none" "set tracing provider"),
    Ret None)).
Proof.
  intros Hread Hb Hflags. split.
  - rewrite RegisterZeroLogFlags_addAll. intros Hreg.
    pose proof (fun f => proj1 (addAll_defined _ _ _ f Hreg
                                  (zerologFlags_NoDup _))) as Hdef.
    assert (Hlevel :
      MustGetString cmd (DefaultEmpty flagPrefix "log" ++ "-level") =
      Ret "info").
    { apply (Hread cmd _
               (stringFlag (DefaultEmpty flagPrefix "log" ++ "-level")
                  "info" "info" false)).
      rewrite Hflags.
      apply (Hdef (stringFlag (DefaultEmpty flagPrefix "log" ++ "-level")
                     "info" "info" false)).
      left. reflexivity. }
    assert (Hformat :
      MustGetString cmd (DefaultEmpty flagPrefix "log" ++ "-format") =
      Ret "auto").
    { apply (Hread cmd _
               (stringFlag (DefaultEmpty flagPrefix "log" ++ "-format")
                  "auto" "auto" false)).
      rewrite Hflags.
      apply (Hdef (stringFlag (DefaultEmpty flagPrefix "log" ++ "-format")
                     "auto" "auto" false)).
      right. left. reflexivity. }
    rewrite (ZeroLogPreRunE_run flagPrefix prerunLevel cmd args g
               "auto" "info" Hb Hformat Hlevel).
    reflexivity.
  - intros Hreg.
    destruct debug_ReadBuildInfo as [bi|] eqn:Hbi.
    2:{ unfold RegisterOpenTelemetryFlags in Hreg. rewrite Hbi in Hreg.
        discriminate. }
    rewrite (RegisterOpenTelemetryFlags_addAll _ _ _ _ Hbi) in Hreg.
    pose proof (fun f => proj1 (addAll_defined _ _ _ f Hreg
                                  (otelFlags_NoDup _ _))) as Hdef.
    assert (Hprovider :
      MustGetString cmd (DefaultEmpty flagPrefix "otel" ++ "-provider") =
      Ret "none").
    { apply (Hread cmd _
               (stringFlag (DefaultEmpty flagPrefix "otel" ++ "-provider")
                  "none" "none" false)).
      rewrite Hflags.
      apply (Hdef (stringFlag (DefaultEmpty flagPrefix "otel" ++ "-provider")
                     "none" "none" false)).
      left. reflexivity. }
    unfold OpenTelemetryPreRunE. rewrite Hb, Hprovider. reflexivity.
Qed.

End Defaults.

Lemma registered_defaults_accepted_witness :
  @ZeroLogPreRunE ttyPlatform flagAccessors "" WarnLevel
    (serveCommand (orEmpty (RegisterZeroLogFlags [addrFlag] ""))) []
    startGlobals =
  (serveCommand (orEmpty (RegisterZeroLogFlags [addrFlag] "")),
   Msg (SetGlobalLevel (consoleLogger startGlobals) InfoLevel)
     (report WarnLevel "new level" "info" "set log level"),
   Ret None) /\
  @OpenTelemetryPreRunE plainPlatform flagAccessors "trace" WarnLevel
    (serveCommand
       (orEmpty (@RegisterOpenTelemetryFlags exampleRuntime [] "trace" "")))
    [] startGlobals =
  (serveCommand
     (orEmpty (@RegisterOpenTelemetryFlags exampleRuntime [] "trace" "")),
   Msg startGlobals
     (report WarnLevel "new provider" "none" "set tracing provider"),
   Ret None).
Proof.
  split.
  - apply (proj1 (@registered_defaults_accepted ttyPlatform flagAccessors
                    exampleRuntime [addrFlag]
                    (orEmpty (RegisterZeroLogFlags [addrFlag] "")) "" ""
                    WarnLevel
                    (serveCommand
                       (orEmpty (RegisterZeroLogFlags [addrFlag] "")))
                    [] startGlobals flagAccessors_readsStrings
                    eq_refl eq_refl)).
    reflexivity.
  - apply (proj2 (@registered_defaults_accepted plainPlatform flagAccessors
                    exampleRuntime []
                    (orEmpty (@RegisterOpenTelemetryFlags exampleRuntime
                                [] "trace" ""))
                    "trace" "" WarnLevel
                    (serveCommand
                       (orEmpty (@RegisterOpenTelemetryFlags exampleRuntime
                                   [] "trace" "")))
                    [] startGlobals flagAccessors_readsStrings
                    eq_refl eq_refl)).
    reflexivity.
Defined.

Section ServerDefaults.
Context {P : Platform} {A : Accessors} {R : GoRuntime}.

(** X21. With the flags of [RegisterGrpcServerFlags] at their defaults,
    [GrpcServerFromFlags] with the same prefix builds a plaintext server:
    it warns, returns no error, and the server has the caller's options
    followed by the keepalive option with the connection age read from the
    flag. *)
Theorem registered_grpc_defaults_plaintext (flags0 flags : FlagSet)
    (flagPrefix serviceName defaultAddr : string) (defaultEnabled : bool)
    (cmd : Command) (opts : list ServerOption) (g : Globals)
    (age : Duration) :
  readsEmptyPaths A ->
  RegisterGrpcServerFlags flags0 flagPrefix serviceName defaultAddr
    defaultEnabled = Ret flags ->
  Flags cmd = flags ->
  MustGetDuration cmd (DefaultEmpty flagPrefix "grpc" ++ "-max-conn-age") =
    Ret age ->
  GrpcServerFromFlags cmd flagPrefix opts g =
  (Msg g (plaintextWarning "grpc" (DefaultEmpty flagPrefix "grpc")),
   Ret (Some (grpc_NewServer (opts ++ [KeepaliveParams age])), None)).
Proof.
  intros Hread Hreg Hflags Hage.
  rewrite RegisterGrpcServerFlags_addAll in Hreg.
  pose proof (fun f => proj1 (addAll_defined _ _ _ f Hreg
                                (grpcFlags_NoDup _ _ _))) as Hdef.
  assert (Hcert :
    MustGetStringExpanded cmd
      (DefaultEmpty flagPrefix "grpc" ++ "-tls-cert-path") = Ret "").
  { apply (Hread cmd _
             (stringFlag (DefaultEmpty flagPrefix "grpc" ++ "-tls-cert-path")
                "" "" false)); [|reflexivity].
    rewrite Hflags.
    apply (Hdef (stringFlag
                   (DefaultEmpty flagPrefix "grpc" ++ "-tls-cert-path")
                   "" "" false)).
    right. left. reflexivity. }
  assert (Hkey :
    MustGetStringExpanded cmd
      (DefaultEmpty flagPrefix "grpc" ++ "-tls-key-path") = Ret "").
  { apply (Hread cmd _
             (stringFlag (DefaultEmpty flagPrefix "grpc" ++ "-tls-key-path")
                "" "" false)); [|reflexivity].
    rewrite Hflags.
    apply (Hdef (stringFlag
                   (DefaultEmpty flagPrefix "grpc" ++ "-tls-key-path")
                   "" "" false)).
    right. right. left. reflexivity. }
  rewrite (GrpcServerFromFlags_pair cmd flagPrefix opts g age "" ""
             Hage Hcert Hkey).
  reflexivity.
Qed.

(** X22. [RegisterHttpServerFlags] and [HttpServerFromFlags] take the empty
    prefix for [http], [HttpListenFromFlags] takes it as it is.  After a
    registration with the empty prefix on a flag set without a flag
    [-enabled], listening with the empty prefix reads that flag and panics
    before anything else happens, while listening with the prefix [http]
    reads the registered flag: with the default [false] it returns nil. *)
Theorem http_listen_keeps_empty_prefix (flags0 flags : FlagSet)
    (serviceName defaultAddr : string) (defaultEnabled : bool)
    (cmd : Command) (srv : http_Server) (g : Globals) :
  readsBools A ->
  RegisterHttpServerFlags flags0 "" serviceName defaultAddr defaultEnabled =
    Ret flags ->
  Lookup flags0 "-enabled" = None ->
  Flags cmd = flags ->
  HttpListenFromFlags cmd "" srv g = (g, Panic) /\
  (defaultEnabled = false ->
   HttpListenFromFlags cmd "http" srv g = (g, Ret None)).
Proof.
  intros [Hread Hmiss] Hreg Hfresh Hflags.
  rewrite RegisterHttpServerFlags_addAll in Hreg.
  destruct (addAll_defined _ _ _
              (boolFlag ("http" ++ "-enabled") defaultEnabled defaultEnabled
                 false)
              Hreg (httpFlags_NoDup _ _ _)) as [Hdef Hold].
  split.
  - unfold HttpListenFromFlags. rewrite Hmiss; [reflexivity|].
    rewrite Hflags, Hold; [exact Hfresh|].
    simpl. intuition discriminate.
  - intros ->. unfold HttpListenFromFlags.
    rewrite (Hread cmd _
               (boolFlag ("http" ++ "-enabled") false false false) false);
      [reflexivity| |reflexivity].
    rewrite Hflags. apply Hdef. simpl. auto.
Qed.

End ServerDefaults.

Lemma registered_grpc_defaults_plaintext_witness :
  @GrpcServerFromFlags plainPlatform flagAccessors
    (serveCommand
       (orEmpty (@RegisterGrpcServerFlags exampleRuntime [] "" "" "" true)))
    "" [] startGlobals =
  (Msg startGlobals (plaintextWarning "grpc" "grpc"),
   Ret (Some (grpc_NewServer [KeepaliveParams 30000000000%Z]), None)).
Proof.
  exact (@registered_grpc_defaults_plaintext plainPlatform flagAccessors
           exampleRuntime []
           (orEmpty (@RegisterGrpcServerFlags exampleRuntime
                       [] "" "" "" true))
           "" "" "" true
           (serveCommand
              (orEmpty (@RegisterGrpcServerFlags exampleRuntime
                          [] "" "" "" true)))
           [] startGlobals 30000000000%Z
           flagAccessors_readsEmptyPaths eq_refl eq_refl eq_refl).
Defined.

Lemma http_listen_keeps_empty_prefix_witness :
  @HttpListenFromFlags plainPlatform flagAccessors
    (serveCommand (orEmpty (RegisterHttpServerFlags [] "" "" "" false)))
    "" exampleHttpServer startGlobals = (startGlobals, Panic) /\
  @HttpListenFromFlags plainPlatform flagAccessors
    (serveCommand (orEmpty (RegisterHttpServerFlags [] "" "" "" false)))
    "http" exampleHttpServer startGlobals = (startGlobals, Ret None).
Proof.
  pose proof (@http_listen_keeps_empty_prefix plainPlatform flagAccessors
                [] (orEmpty (RegisterHttpServerFlags [] "" "" "" false))
                "" "" false
                (serveCommand
                   (orEmpty (RegisterHttpServerFlags [] "" "" "" false)))
                exampleHttpServer startGlobals
                flagAccessors_readsBools eq_refl eq_refl eq_refl)
    as [Hpanic Hnil].
  split; [exact Hpanic|exact (Hnil eq_refl)].
Defined.

Section Pipeline.
Context {P : Platform} {A : Accessors}.

(** Resolution leaves a string flag a string flag. *)
Lemma resolveFlag_string prefix f text :
  Val f = stringValue text ->
  exists text', Val (resolveFlag prefix f) = stringValue text'.
Proof.
  intros Hval. unfold resolveFlag.
  destruct (Changed f); [eauto|].
  destruct (viper.getEnv _) as [val|]; [|eauto].
  unfold valueParse. rewrite Hval. simpl. exists val. reflexivity.
Qed.

(** X23. Resolution first, logging second: when the level and the format
    are string flags, the level was not set on the invocation and its
    variable holds the name of a recognized level, in any letter case, the
    stack of the resolver and the logging hook returns nil and the global
    level is the level of the variable, not that of the flag's default.
    [MustGetString] is taken to return the text of a string flag; the
    flags have unique names, and those whose names lower-case alike have
    the same variable, as flags with names of ASCII bytes do. *)
Theorem environment_level_reaches_logger (envPrefix logPrefix : string)
    (prerunLevel : Level) (cmd : Command) (args : list string) (g : Globals)
    (levelF formatF : Flag) (old format text : string) (l : Level) :
  readsStringFlags A ->
  IsBuiltinCommand cmd = false ->
  NoDup (map Name (Flags cmd)) ->
  variablesAgree envPrefix (Flags cmd) ->
  Lookup (Flags cmd) (DefaultEmpty logPrefix "log" ++ "-format") =
    Some formatF ->
  Val formatF = stringValue format ->
  Lookup (Flags cmd) (DefaultEmpty logPrefix "log" ++ "-level") =
    Some levelF ->
  Val levelF = stringValue old ->
  Changed levelF = false ->
  os_LookupEnv (envVar envPrefix (DefaultEmpty logPrefix "log" ++ "-level")) =
    Some text ->
  text <> "" ->
  recognizedLevel (strings.ToLower text) = Some l ->
  exists cmd' g',
    CommandStack
      [SyncViperPreRunE envPrefix; ZeroLogPreRunE logPrefix prerunLevel]
      cmd args g = (cmd', g', Ret None) /\
    GlobalLevel g' = l /\
    option_map (fun f => valueText (Val f))
      (Lookup (Flags cmd') (DefaultEmpty logPrefix "log" ++ "-level")) =
    Some text.
Proof.
  intros Hread Hb Hnd Hagree Hformat Hfval Hlevel Hval Hunset Henv Htext Hl.
  destruct (SyncViperPreRunE_resolves envPrefix cmd args g Hb Hnd Hagree)
    as (flags & Hrun & Hflags).
  pose proof (Lookup_Name _ _ _ Hlevel) as HN.
  assert (Hlevel' :
    Lookup flags (DefaultEmpty logPrefix "log" ++ "-level") =
    Some {| Name := Name levelF; DefValue := DefValue levelF;
            Val := stringValue text; Changed := true |}).
  { rewrite Hflags, Hlevel. simpl. unfold resolveFlag, viper.getEnv.
    rewrite Hunset, HN, Henv.
    apply String.eqb_neq in Htext. rewrite Htext.
    unfold valueParse. rewrite Hval. reflexivity. }
  assert (Hformat' :
    Lookup flags (DefaultEmpty logPrefix "log" ++ "-format") =
    Some (resolveFlag envPrefix formatF)).
  { rewrite Hflags, Hformat. reflexivity. }
  destruct (resolveFlag_string envPrefix formatF format Hfval)
    as [format' Hfval'].
  simpl. rewrite Hrun.
  assert (Hb' : IsBuiltinCommand (withFlags cmd flags) = false)
    by exact Hb.
  rewrite (ZeroLogPreRunE_run logPrefix prerunLevel (withFlags cmd flags)
             args _ format' text Hb'
             (Hread (withFlags cmd flags) _ _ format' Hformat' Hfval')
             (Hread (withFlags cmd flags) _ _ text Hlevel' eq_refl)).
  rewrite Hl. eexists. eexists. split; [reflexivity|].
  split; [reflexivity|]. simpl. rewrite Hlevel'. reflexivity.
Qed.

End Pipeline.

Lemma environment_level_reaches_logger_witness :
  exists cmd' g',
    CommandStack
      [@SyncViperPreRunE resolvePlatform "app";
       @ZeroLogPreRunE resolvePlatform flagAccessors "" InfoLevel]
      resolveCommand [] startGlobals = (cmd', g', Ret None) /\
    GlobalLevel g' = DebugLevel /\
    option_map (fun f => valueText (Val f))
      (Lookup (Flags cmd') "log-level") = Some "debug".
Proof.
  apply (@environment_level_reaches_logger resolvePlatform flagAccessors
           "app" "" InfoLevel resolveCommand [] startGlobals
           levelFlag formatFlag "info" "auto" "debug" DebugLevel
           flagAccessors_readsStringFlags eq_refl resolveCommand_NoDup
           resolveCommand_agree eq_refl eq_refl eq_refl eq_refl eq_refl
           eq_refl).
  - discriminate.
  - reflexivity.
Defined.

Section ListenSuccess.
Context {P : Platform} {A : Accessors}.

(** X24. Once they serve, the listen functions return nil in these cases
    and no others: [GrpcListenFromFlags] when [Serve] returned nil;
    [HttpListenFromFlags] when the serve call returned nil or the very
    error [http.ErrServerClosed], an error that wraps it counting as a
    failure.  Each function is taken with the flags it reads and no
    others. *)
Theorem listen_succeeds_iff (cmd : Command) (g : Globals)
    (grpcPrefix : string) (grpcSrv : grpc_Server)
    (httpPrefix : string) (httpSrv : http_Server) :
  (forall addr,
   MustGetBool cmd (DefaultEmpty grpcPrefix "grpc" ++ "-enabled") =
     Ret true ->
   MustGetStringExpanded cmd (DefaultEmpty grpcPrefix "grpc" ++ "-addr") =
     Ret addr ->
   net_Listen "tcp" addr = None ->
   (snd (GrpcListenFromFlags cmd grpcPrefix grpcSrv g) = Ret None <->
    srv_Serve grpcSrv addr = None)) /\
  (forall certPath keyPath,
   MustGetBool cmd (httpPrefix ++ "-enabled") = Ret true ->
   MustGetStringExpanded cmd (httpPrefix ++ "-tls-cert-path") =
     Ret certPath ->
   MustGetStringExpanded cmd (httpPrefix ++ "-tls-key-path") = Ret keyPath ->
   partialPair certPath keyPath = false ->
   let ended :=
     if certPath =? "" then srv_ListenAndServe httpSrv
     else srv_ListenAndServeTLS httpSrv certPath keyPath in
   (snd (HttpListenFromFlags cmd httpPrefix httpSrv g) = Ret None <->
    ended = None \/ ended = Some ErrServerClosed)).
Proof.
  split.
  - intros addr Hen Haddr Hl.
    rewrite (GrpcListenFromFlags_serve _ _ _ _ _ Hen Haddr Hl). simpl.
    destruct (srv_Serve grpcSrv addr); simpl; split; intros H;
      try discriminate; reflexivity.
  - intros certPath keyPath Hhen Hc Hk Hpair.
    rewrite (HttpListenFromFlags_pair _ _ _ _ _ _ Hhen Hc Hk), Hpair.
    assert (Hserved : forall context r,
              Ret (served context r) = Ret None <->
              r = None \/ r = Some ErrServerClosed).
    { intros context [[| |]|]; simpl; split; intros H;
        try discriminate; try reflexivity; auto;
        destruct H as [H|H]; discriminate. }
    destruct (certPath =? ""); simpl; apply Hserved.
Qed.

End ListenSuccess.

(** With the HTTP server alone enabled, its closed signal is success; with
    the gRPC server alone enabled, an error of [Serve] is not. *)
Lemma listen_succeeds_iff_witness :
  snd (@HttpListenFromFlags closedPlatform flagAccessors
         (serveCommand (serverFlags "http" true "" "")) "http"
         exampleHttpServer startGlobals) = Ret None /\
  snd (@GrpcListenFromFlags brokenPlatform flagAccessors
         (serveCommand (serverFlags "grpc" true "" "")) "" exampleServer
         startGlobals) <> Ret None.
Proof.
  split.
  - apply (proj2 (@listen_succeeds_iff closedPlatform flagAccessors
                    (serveCommand (serverFlags "http" true "" ""))
                    startGlobals "" exampleServer "http" exampleHttpServer)
             "" "" eq_refl eq_refl eq_refl eq_refl).
    right. reflexivity.
  - intros H.
    apply (proj1 (@listen_succeeds_iff brokenPlatform flagAccessors
                    (serveCommand (serverFlags "grpc" true "" ""))
                    startGlobals "" exampleServer "http" exampleHttpServer)
             ":0" eq_refl eq_refl eq_refl) in H.
    discriminate H.
Defined.

(** An error that wraps the closed signal is a failure of the HTTP listen
    function. *)
Example HttpListenFromFlags_wrapped_closed :
  snd (@HttpListenFromFlags
         (examplePlatform [] false (Some (Wrapf "serve: " ErrServerClosed)))
         flagAccessors (serverCommand true "" "") "http" exampleHttpServer
         startGlobals) =
  Ret (Some (Wrapf "failed while serving http: "
               (Wrapf "serve: " ErrServerClosed))).
Proof.
  reflexivity.
Qed.
